(** * arcpyext: map-document comparison, template matching and bulk rewrite

    A shallow embedding of [arcpyext/mapping/_mapping3.py] and of the
    listing and comparison routines of [arcpyext/mp/_mp.py].

    The Python code works on plain dictionaries handed over by arcpy.  They
    are modelled as dynamically typed values, with the exceptions the
    interpreter raises on ill-typed operations made explicit. *)

From Stdlib Require Import List String Ascii ZArith Bool Arith Lia.
From Stdlib Require Import Decimal DecimalString DecimalZ.
Import ListNotations.

Set Warnings "-register-all".

Local Open Scope string_scope.
Local Open Scope list_scope.

(** ** Python values *)

(** One entry of a layer's ['fields'] list, as [_get_layer_details] builds
    it: [{"index": int, "name": str, "visible": bool}]. *)
Record FieldInfo : Type := mkField {
  f_index : Z;
  f_name : string;
  f_visible : bool
}.

(** The values found in a snapshot.  A dict is an association list in
    insertion order (keys are strings).  The only lists that occur inside a
    layer record are the field list and, once a layer has been matched, the
    list stored under ['diff']; both have their element type fixed, an entry
    of the latter being [{"type": t, "was": w, "now": n}]. *)
Inductive value : Type :=
| VNone
| VBool (b : bool)
| VInt (n : Z)
| VStr (s : string)
| VDict (d : list (string * value))
| VFields (fs : list FieldInfo)
| VDiff (es : list (Z * value * value)).

Definition dict : Type := list (string * value).
Definition diff_entry : Type := (Z * value * value)%type.

Definition mk_entry (type : Z) (was now : value) : diff_entry := (type, was, now).
Definition entry_type (e : diff_entry) : Z := fst (fst e).
Definition entry_was (e : diff_entry) : value := snd (fst e).
Definition entry_now (e : diff_entry) : value := snd e.

(** ** Exceptions *)

(** A failure recorded by the bulk rewriter: the message of the
    [DataSourceUpdateError] and the name of the layer or table. *)
Record DataSourceUpdateError : Type := mkUpdateError {
  due_message : string;
  due_layer : string
}.

Inductive exn : Type :=
| TypeError
| KeyError
| IndexError
| ValueError
| NameError
| UnboundLocalError
| AttributeError
| RuntimeError (msg : string)
| DataSourceUpdate (e : DataSourceUpdateError)
| ChangeDataSourcesError (msg : string) (errors : option (list DataSourceUpdateError)).

(** Modelled from the spec: the classes [MapLayerError] and
    [DataSourceUpdateError] are declared outside the files at hand.  The
    failures of single layers "are collected into an aggregate error", which
    is what [except MapLayerError as e] does for a [DataSourceUpdateError]
    when the latter derives from the former: the handler catches it and no
    other exception of this model. *)
Definition as_MapLayerError (e : exn) : option DataSourceUpdateError :=
  match e with
  | DataSourceUpdate d => Some d
  | _ => None
  end.

Inductive result (A : Type) : Type :=
| Ok (a : A)
| Raise (e : exn).
Arguments Ok {A} a.
Arguments Raise {A} e.

Definition bind {A B : Type} (m : result A) (k : A -> result B) : result B :=
  match m with
  | Ok a => k a
  | Raise e => Raise e
  end.

Declare Scope py_scope.
Delimit Scope py_scope with py.
Notation "x <- m ;; k" := (bind m (fun x => k))
  (at level 61, m at next level, right associativity) : py_scope.
Local Open Scope py_scope.

(** [x and y], evaluated left to right with short circuit. *)
Definition and_then (x y : result bool) : result bool :=
  b <- x ;; if b then y else Ok false.

(** [not x]. *)
Definition not_ (x : result bool) : result bool :=
  b <- x ;; Ok (negb b).

(** ** Dictionaries and strings *)

Fixpoint assoc {A : Type} (k : string) (d : list (string * A)) : option A :=
  match d with
  | [] => None
  | (k', v) :: r => if String.eqb k k' then Some v else assoc k r
  end.

Definition has_key {A : Type} (k : string) (d : list (string * A)) : bool :=
  match assoc k d with
  | Some _ => true
  | None => false
  end.

Definition keys {A : Type} (d : list (string * A)) : list string := map fst d.

(** [d[k] = v]: the value is replaced where the key stands, a new key goes
    last. *)
Fixpoint set_key {A : Type} (k : string) (v : A) (d : list (string * A))
  : list (string * A) :=
  match d with
  | [] => [(k, v)]
  | (k', v') :: r =>
      if String.eqb k k' then (k', v) :: r else (k', v') :: set_key k v r
  end.

(** [k in s] on two strings. *)
Fixpoint substring_of (k s : string) : bool :=
  String.prefix k s ||
  match s with
  | EmptyString => false
  | String _ r => substring_of k r
  end.

Definition is_none (v : value) : bool :=
  match v with
  | VNone => true
  | _ => false
  end.

Fixpoint fields_eqb (a b : list FieldInfo) : bool :=
  match a, b with
  | [], [] => true
  | x :: ra, y :: rb =>
      Z.eqb (f_index x) (f_index y) && String.eqb (f_name x) (f_name y)
      && Bool.eqb (f_visible x) (f_visible y) && fields_eqb ra rb
  | _, _ => false
  end.

(** [x == y].  [bool] is a subclass of [int]: [True == 1].  Dicts compare
    without regard to order, lists element by element. *)
Fixpoint py_eq (x y : value) {struct x} : bool :=
  match x, y with
  | VNone, VNone => true
  | VBool a, VBool b => Bool.eqb a b
  | VBool a, VInt n => Z.eqb (Z.b2z a) n
  | VInt n, VBool a => Z.eqb n (Z.b2z a)
  | VInt a, VInt b => Z.eqb a b
  | VStr a, VStr b => String.eqb a b
  | VDict d1, VDict d2 =>
      Nat.eqb (List.length d1) (List.length d2) &&
      (fix each (d : list (string * value)) : bool :=
         match d with
         | [] => true
         | (k, v) :: r =>
             match assoc k d2 with
             | Some w => py_eq v w
             | None => false
             end && each r
         end) d1
  | VFields a, VFields b => fields_eqb a b
  | VDiff es1, VDiff es2 =>
      (fix each (l1 l2 : list (Z * value * value)) {struct l1} : bool :=
         match l1, l2 with
         | [], [] => true
         | (t1, w1, n1) :: r1, (t2, w2, n2) :: r2 =>
             Z.eqb t1 t2 && py_eq w1 w2 && py_eq n1 n2 && each r1 r2
         | _, _ => false
         end) es1 es2
  | VFields [], VDiff [] => true
  | VDiff [], VFields [] => true
  | _, _ => false
  end.

(** [k in c] for a string [k]. *)
Definition py_contains (k : string) (c : value) : result bool :=
  match c with
  | VDict d => Ok (has_key k d)
  | VStr s => Ok (substring_of k s)
  | VFields _ | VDiff _ => Ok false
  | VNone | VBool _ | VInt _ => Raise TypeError
  end.

(** [c[k]] for a string [k]. *)
Definition py_getitem (c : value) (k : string) : result value :=
  match c with
  | VDict d =>
      match assoc k d with
      | Some v => Ok v
      | None => Raise KeyError
      end
  | _ => Raise TypeError
  end.

(** [c[k] = v] for a string [k]. *)
Definition py_setitem (c : value) (k : string) (v : value) : result value :=
  match c with
  | VDict d => Ok (VDict (set_key k v d))
  | _ => Raise TypeError
  end.

(** Dicts and lists are not hashable. *)
Definition hashable (v : value) : bool :=
  match v with
  | VDict _ | VFields _ | VDiff _ => false
  | _ => true
  end.

(** [str(n)] and [int(s)] on the decimal writing of an integer. *)
Definition str_of_int (n : Z) : string := NilZero.string_of_int (Z.to_int n).

Definition py_int (s : string) : result Z :=
  match NilZero.int_of_string s with
  | Some d => Ok (Z.of_int d)
  | None => Raise ValueError
  end.

Definition str_of_bool (b : bool) : string := if b then "True" else "False".

(** [s.split("|")[0]]. *)
Fixpoint split_bar_head (s : string) : string :=
  match s with
  | EmptyString => EmptyString
  | String c r => if Ascii.eqb c "|" then EmptyString else String c (split_bar_head r)
  end.

(** Sets of strings, as duplicate-free lists.  The order in which Python
    walks a set is not fixed by the language; [set_difference] fixes one, and
    nothing below depends on which. *)
Definition mem (x : string) (l : list string) : bool := existsb (String.eqb x) l.

Definition set_eqb (l1 l2 : list string) : bool :=
  forallb (fun x => mem x l2) l1 && forallb (fun x => mem x l1) l2.

Definition set_difference (l1 l2 : list string) : list string :=
  nodup string_dec (filter (fun x => negb (mem x l2)) l1).

(** Monadic map, left to right. *)
Fixpoint mapM {A B : Type} (f : A -> result B) (l : list A) : result (list B) :=
  match l with
  | [] => Ok []
  | x :: r => y <- f x ;; ys <- mapM f r ;; Ok (y :: ys)
  end.

(** ** The document handed to [compare] *)

(** What the comparison reads from arcpy.  A map has the spatial reference of
    its default camera; [layer_details] holds, for each layer of the map,
    what [_get_layer_details] returns for it: [None] for a group layer, the
    dict of its details otherwise; [table_details] likewise for
    [_get_table_details]. *)
Record SpatialReference : Type := mkSR {
  factoryCode : Z;
  sr_type : string;
  sr_name : string
}.

Record MapFrame : Type := mkMap {
  spatialReference : SpatialReference;
  layer_details : list (option dict);
  table_details : list dict
}.

(** [project.listMaps()] *)
Definition Project : Type := list MapFrame.

(** [{'added': ..., 'updated': ..., 'removed': ...}] *)
Record LayersResult : Type := mkLayers {
  res_added : list value;
  res_updated : list value;
  res_removed : list value
}.

(** [{'dataFrames': ..., 'layers': ...}] *)
Record CompareResult : Type := mkCompare {
  dataFrames : list diff_entry;
  layers : LayersResult
}.

(** ** The project handed to [change_data_sources] *)

(** What arcpy does on [layer.updateConnectionProperties(existing, new)]: it
    raises, or it returns and the layer then says whether it is broken
    ([hasattr(layer, "isBroken") and layer.isBroken]). *)
Inductive UpdateOutcome : Type :=
| UpdateRaises
| Updated (isBroken : bool).

(** A layer or a table of the project. *)
Record LayerObject : Type := mkLayerObject {
  lo_name : string;
  updateConnectionProperties : value -> UpdateOutcome
}.

Record MapObject : Type := mkMapObject {
  listLayers : list LayerObject;
  listTables : list LayerObject
}.

(** A call of [updateConnectionProperties]: on the layer or on the table at
    a position of a map, with the new properties. *)
Inductive update_call : Type :=
| LayerUpdate (map_index layer_index : nat) (new_props : value)
| TableUpdate (map_index table_index : nat) (new_props : value).

Definition call_map (c : update_call) : nat :=
  match c with
  | LayerUpdate m _ _ => m
  | TableUpdate m _ _ => m
  end.

Definition is_layer_call (c : update_call) : bool :=
  match c with
  | LayerUpdate _ _ _ => true
  | TableUpdate _ _ _ => false
  end.

(** ** The correlation loop of [compare_layers]

    The statements from [added = []] to the loop over the removed layers read
    the same in [mapping/_mapping3.py] (lines 299-377) and in [mp/_mp.py]
    (lines 377-449); they are written once here, over the two closures they
    call, [eq] and [_layer_diff]. *)

(** The local variables of [compare_layers].  The objects of [b_layers] are
    mutated by [b_layer['diff'] = ...] while [added] and [updated] hold
    references to them, so the objects live in [b_objs] and the two lists
    hold positions in it.  The objects of [a_layers] are never written.
    [pairs] is not a variable of the program: it logs the positions
    [(i, j)] of every [a_layer], [b_layer] for which a matcher did not return
    [None], and no branch reads it. *)
Record cstate : Type := mkState {
  added : list nat;
  updated : list nat;
  removed : list value;
  resolved_a : list value;
  resolved_b : list value;
  b_objs : list value;
  pairs : list (nat * nat)
}.

Definition init_state (b_layers : list value) : cstate :=
  mkState [] [] [] [] [] b_layers [].

(** A statement: it may change the variables and then raise. *)
Definition M (A : Type) : Type := cstate -> cstate * result A.

Definition ret {A : Type} (a : A) : M A := fun s => (s, Ok a).

Definition mbind {A B : Type} (m : M A) (k : A -> M B) : M B :=
  fun s =>
    match m s with
    | (s', Ok a) => k a s'
    | (s', Raise e) => (s', Raise e)
    end.

Definition lift {A : Type} (r : result A) : M A := fun s => (s, r).
Definition gets {A : Type} (f : cstate -> A) : M A := fun s => (s, Ok (f s)).
Definition modify (f : cstate -> cstate) : M unit := fun s => (f s, Ok tt).

Notation "x <-- m ;; k" := (mbind m (fun x => k))
  (at level 61, m at next level, right associativity) : py_scope.
Notation "m ;;; k" := (mbind m (fun _ => k))
  (at level 61, right associativity) : py_scope.

Definition set_resolved_a (r : list value) (s : cstate) : cstate :=
  mkState (added s) (updated s) (removed s) r (resolved_b s) (b_objs s) (pairs s).
Definition set_resolved_b (r : list value) (s : cstate) : cstate :=
  mkState (added s) (updated s) (removed s) (resolved_a s) r (b_objs s) (pairs s).
Definition append_added (j : nat) (s : cstate) : cstate :=
  mkState (added s ++ [j]) (updated s) (removed s) (resolved_a s) (resolved_b s)
          (b_objs s) (pairs s).
Definition append_updated (j : nat) (s : cstate) : cstate :=
  mkState (added s) (updated s ++ [j]) (removed s) (resolved_a s) (resolved_b s)
          (b_objs s) (pairs s).
Definition append_removed (a : value) (s : cstate) : cstate :=
  mkState (added s) (updated s) (removed s ++ [a]) (resolved_a s) (resolved_b s)
          (b_objs s) (pairs s).
Definition log_pair (i j : nat) (s : cstate) : cstate :=
  mkState (added s) (updated s) (removed s) (resolved_a s) (resolved_b s)
          (b_objs s) (pairs s ++ [(i, j)]).

(** Writing the object at position [j]. *)
Fixpoint set_nth {A : Type} (j : nat) (x : A) (l : list A) : list A :=
  match l, j with
  | [], _ => []
  | _ :: r, O => x :: r
  | y :: r, S j' => y :: set_nth j' x r
  end.

Definition set_b_obj (j : nat) (b : value) (s : cstate) : cstate :=
  mkState (added s) (updated s) (removed s) (resolved_a s) (resolved_b s)
          (set_nth j b (b_objs s)) (pairs s).

Definition get_b (j : nat) : M value := gets (fun s => nth j (b_objs s) VNone).

(** [x['name'] in resolved] *)
Definition is_resolved (resolved : list value) (x : value) : result bool :=
  n <- py_getitem x "name" ;;
  if hashable n then Ok (existsb (py_eq n) resolved) else Raise TypeError.

(** [resolved[x['name']] = True] *)
Definition mark (resolved : list value) (x : value) : result (list value) :=
  n <- py_getitem x "name" ;;
  if hashable n
  then Ok (if existsb (py_eq n) resolved then resolved else resolved ++ [n])
  else Raise TypeError.

(** One row of the table [tests] of [compare_layers].  [fn] reads the two
    dicts of resolved names as they stand when it is called. *)
Record match_test : Type := mkTest {
  fn : list value -> list value -> value -> value -> result value;
  desc : string;
  ignore : option bool
}.

Module Correlation.
Section Loop.

Variable eq : value -> value -> string -> result bool.
Variable _layer_diff : value -> value -> result (list diff_entry).

Definition same_id (a b : value) : result bool := eq a b "id".
Definition same_name (a b : value) : result bool := eq a b "name".
Definition same_datasource (a b : value) : result bool := eq a b "datasetName".

(** [b if c else None] *)
Definition b_if (c : result bool) (b : value) : result value :=
  t <- c ;; Ok (if t then b else VNone).

Definition unresolved (ra rb : list value) (a b : value) : result bool :=
  and_then (not_ (is_resolved ra a)) (not_ (is_resolved rb b)).

Definition tests : list match_test :=
  [ mkTest (fun _ _ a b =>
              b_if (and_then (same_id a b)
                   (and_then (same_name a b) (same_datasource a b))) b)
           "same id/name and datasource. Unchanged" (Some true);
    mkTest (fun ra rb a b =>
              b_if (and_then (same_id a b)
                   (and_then (same_name a b) (unresolved ra rb a b))) b)
           "same name and id, datasource changed" None;
    mkTest (fun ra rb a b =>
              b_if (and_then (same_id a b)
                   (and_then (same_datasource a b) (unresolved ra rb a b))) b)
           "same id and datasource, name changed" None;
    mkTest (fun ra rb a b =>
              b_if (and_then (same_id a b) (unresolved ra rb a b)) b)
           "same id. Assumed valid if fixed data sources enabled" None;
    mkTest (fun ra rb a b =>
              b_if (and_then (same_name a b)
                   (and_then (same_datasource a b) (unresolved ra rb a b))) b)
           "same name and datasource, id changed" None;
    mkTest (fun ra rb a b =>
              b_if (and_then (same_name a b) (unresolved ra rb a b)) b)
           "same name, id/datasource changed" None ].

(** The statements run when [match is not None]; the result tells whether
    [break] was reached. *)
Definition on_match (i : nat) (a_layer : value) (j : nat) (test : match_test)
  : M bool :=
  let ignore_ := match ignore test with Some t => t | None => false end in
  modify (log_pair i j) ;;;
  ra <-- gets resolved_a ;;
  ra' <-- lift (mark ra a_layer) ;;
  modify (set_resolved_a ra') ;;;
  b_layer <-- get_b j ;;
  rb <-- gets resolved_b ;;
  rb' <-- lift (mark rb b_layer) ;;
  modify (set_resolved_b rb') ;;;
  d <-- lift (_layer_diff a_layer b_layer) ;;
  b_layer' <-- lift (py_setitem b_layer "diff" (VDiff d)) ;;
  modify (set_b_obj j b_layer') ;;;
  if negb ignore_ || Nat.ltb 0 (List.length d)
  then modify (append_updated j) ;;; ret true
  else ret false.

(** [for index, test in enumerate(tests)] for one [a_layer]; the result is
    whether [match] is not [None] when the loop is left. *)
Fixpoint tests_loop (i : nat) (a_layer : value) (j : nat) (ts : list match_test)
    (matched : bool) : M bool :=
  match ts with
  | [] => ret matched
  | test :: r =>
      b_layer <-- get_b j ;;
      ra <-- gets resolved_a ;;
      rb <-- gets resolved_b ;;
      m <-- lift (fn test ra rb a_layer b_layer) ;;
      if is_none m then tests_loop i a_layer j r false
      else
        stop <-- on_match i a_layer j test ;;
        if stop then ret true else tests_loop i a_layer j r true
  end.

(** [for a_layer in a_layers], from position [i] on. *)
Fixpoint a_loop (i : nat) (a_layers : list value) (j : nat) (matched : bool)
  : M bool :=
  match a_layers with
  | [] => ret matched
  | a_layer :: r =>
      m <-- tests_loop i a_layer j tests matched ;;
      a_loop (S i) r j m
  end.

(** The body of [for b_layer in b_layers]. *)
Definition b_body (a_layers : list value) (j : nat) : M unit :=
  m <-- a_loop 0 a_layers j false ;;
  if negb m then
    b_layer <-- get_b j ;;
    rb <-- gets resolved_b ;;
    r <-- lift (is_resolved rb b_layer) ;;
    if negb r then
      rb' <-- lift (mark rb b_layer) ;;
      modify (set_resolved_b rb') ;;;
      modify (append_added j)
    else ret tt
  else ret tt.

(** [for b_layer in b_layers], over the positions [js]. *)
Fixpoint b_loop (a_layers : list value) (js : list nat) : M unit :=
  match js with
  | [] => ret tt
  | j :: r => b_body a_layers j ;;; b_loop a_layers r
  end.

(** The loop over the removed layers. *)
Fixpoint removed_loop (a_layers : list value) : M unit :=
  match a_layers with
  | [] => ret tt
  | a_layer :: r =>
      ra <-- gets resolved_a ;;
      res <-- lift (is_resolved ra a_layer) ;;
      (if negb res then
         ra' <-- lift (mark ra a_layer) ;;
         modify (set_resolved_a ra') ;;;
         modify (append_removed a_layer)
       else ret tt) ;;;
      removed_loop r
  end.

(** Lines 299-377: the variables when the statements are left, normally or by
    an exception. *)
Definition correlate (a_layers b_layers : list value) : cstate * result unit :=
  (b_loop a_layers (seq 0 (List.length b_layers)) ;;;
   removed_loop a_layers) (init_state b_layers).

(** [{'added': added, 'updated': updated, 'removed': removed}] *)
Definition layers_result (s : cstate) : LayersResult :=
  mkLayers (map (fun j => nth j (b_objs s) VNone) (added s))
           (map (fun j => nth j (b_objs s) VNone) (updated s))
           (removed s).

End Loop.
End Correlation.

(** ** The layers and tables of arcpy

    What [_get_layer_details], [_get_table_details] and
    [list_document_data_sources] read from the objects of arcpy.  The
    attributes are taken as values; the calls that the code guards with
    [try] may raise. *)

Module Arcpy.

(** [desc.fieldInfo] *)
Record FieldInfoObject : Type := mkFieldInfoObject {
  count : result Z;
  getFieldName : Z -> result string;
  getVisible : Z -> result string
}.

(** What [arcpy.Describe(layer)] returns. *)
Record Description : Type := mkDescription {
  dataType : string;
  fieldInfo : result FieldInfoObject
}.

Record Layer : Type := mkLayer {
  isGroupLayer : bool;
  isNetworkAnalystLayer : bool;
  name : string;
  longName : string;
  supports : string -> bool;
  datasetName : value;
  dataSource : value;
  serviceProperties : value;
  workspacePath : value;
  visible : value;
  definitionQuery : value;
  connectionProperties : value;
  Describe : result Description
}.

Record Table : Type := mkTable {
  table_connectionProperties : value;
  table_dataSource : value;
  table_definitionQuery : value;
  table_name : string
}.

(** A map of a project, or a data frame of a map document. *)
Record Map : Type := mkMap {
  listLayers : list Layer;
  listTables : list Table
}.

End Arcpy.

(** ** The comparison of [mapping/_mapping3.py] *)

(** One row of the attribute table of [_layer_diff].  [array] is the optional
    ["array"] key of the row. *)
Record prop_test : Type := mkPropTest {
  layer_prop_name : string;
  change_id : Z;
  array : option bool
}.

Module Mapping3.

(** [eq = lambda a, b, k: b[k] == a[k] if k in a and k in b else False] *)
Definition eq (a b : value) (k : string) : result bool :=
  c <- and_then (py_contains k a) (py_contains k b) ;;
  if c then bk <- py_getitem b k ;; ak <- py_getitem a k ;; Ok (py_eq bk ak)
  else Ok false.

(** [{"type": type, "was": a[k] if k in a else None,
      "now": b[k] if k in b else None}] *)
Definition _express_diff (a b : value) (k : string) (type : Z) : result diff_entry :=
  was <- (c <- py_contains k a ;; if c then py_getitem a k else Ok VNone) ;;
  now <- (c <- py_contains k b ;; if c then py_getitem b k else Ok VNone) ;;
  Ok (mk_entry type was now).

Definition layer_id_changed : Z := 401.
Definition layer_name_changed : Z := 402.
Definition layer_datasource_changed : Z := 403.
Definition layer_visibility_changed : Z := 404.
Definition layer_fields_changed : Z := 405.
Definition layer_definition_query_changed : Z := 406.

(** ["%s|%s|%s" % (_dict['index'], _dict['name'], _dict['visible'])] *)
Definition hash (f : FieldInfo) : string :=
  str_of_int (f_index f) ++ "|" ++ f_name f ++ "|" ++ str_of_bool (f_visible f).

(** [hash.split("|")[0]] *)
Definition unhash (h : string) : string := split_bar_head h.

Definition tests : list prop_test :=
  [ mkPropTest "id" layer_id_changed None;
    mkPropTest "name" layer_name_changed None;
    mkPropTest "visible" layer_visibility_changed None;
    mkPropTest "workspacePath" layer_datasource_changed None;
    mkPropTest "datasetName" layer_datasource_changed None;
    mkPropTest "database" layer_datasource_changed None;
    mkPropTest "server" layer_datasource_changed None;
    mkPropTest "service" layer_datasource_changed None;
    mkPropTest "definitionQuery" layer_definition_query_changed None;
    mkPropTest "fields" layer_fields_changed (Some true) ].

(** [[hash(_dict) for _dict in v]].  Walking a string or a dict yields
    strings, on which [_dict['index']] is a [TypeError]; an entry of a diff
    list has no ['index']. *)
Definition hash_all (v : value) : result (list string) :=
  match v with
  | VFields fs => Ok (map hash fs)
  | VStr EmptyString | VDict [] | VDiff [] => Ok []
  | VDiff (_ :: _) => Raise KeyError
  | VStr (String _ _) | VDict (_ :: _) => Raise TypeError
  | VNone | VBool _ | VInt _ => Raise TypeError
  end.

(** [[x for x in arr if x['index'] == int(index)][0]] *)
Definition inflate (arr : value) (index : string) : result FieldInfo :=
  match arr with
  | VFields [] | VStr EmptyString | VDict [] | VDiff [] => Raise IndexError
  | VFields fs =>
      i <- py_int index ;;
      match filter (fun x => Z.eqb (f_index x) i) fs with
      | x :: _ => Ok x
      | [] => Raise IndexError
      end
  | VDiff (_ :: _) => Raise KeyError
  | VStr (String _ _) | VDict (_ :: _) => Raise TypeError
  | VNone | VBool _ | VInt _ => Raise TypeError
  end.

(** The body of the loop [for test in tests]: the entries it appends. *)
Definition test_prop (a b : value) (test : prop_test) : result (list diff_entry) :=
  let k := layer_prop_name test in
  let v := change_id test in
  let is_array := match array test with Some t => t | None => false end in
  c <- and_then (py_contains k a) (py_contains k b) ;;
  if c then
    if is_array then
      hashed_a <- (ak <- py_getitem a k ;; hash_all ak) ;;
      hashed_b <- (bk <- py_getitem b k ;; hash_all bk) ;;
      if negb (set_eqb hashed_a hashed_b) then
        let was := set_difference hashed_a hashed_b in
        let now := set_difference hashed_b hashed_a in
        was' <- mapM (fun x => ak <- py_getitem a k ;; inflate ak x) (map unhash was) ;;
        now' <- mapM (fun x => bk <- py_getitem b k ;; inflate bk x) (map unhash now) ;;
        Ok [mk_entry v (VFields was') (VFields now')]
      else Ok []
    else
      e <- eq a b k ;;
      if negb e then d <- _express_diff a b k v ;; Ok [d] else Ok []
  else d <- _express_diff a b k v ;; Ok [d].

Fixpoint run_tests (a b : value) (ts : list prop_test) (diff : list diff_entry)
  : result (list diff_entry) :=
  match ts with
  | [] => Ok diff
  | test :: r => es <- test_prop a b test ;; run_tests a b r (diff ++ es)
  end.

Definition _layer_diff (a b : value) : result (list diff_entry) :=
  run_tests a b tests [].

Definition correlate : list value -> list value -> cstate * result unit :=
  Correlation.correlate eq _layer_diff.

Definition map_count_changed : Z := 301.
Definition data_frame_cs_code_changed : Z := 302.
Definition data_frame_cs_name_changed : Z := 303.
Definition data_frame_cs_type_changed : Z := 304.

(** The three comparisons made for one pair of maps. *)
Definition frame_entries (a b : MapFrame) : list diff_entry :=
  let sa := spatialReference a in
  let sb := spatialReference b in
  (if negb (Z.eqb (factoryCode sa) (factoryCode sb))
   then [mk_entry data_frame_cs_code_changed (VInt (factoryCode sa)) (VInt (factoryCode sb))]
   else []) ++
  (if negb (String.eqb (sr_type sa) (sr_type sb))
   then [mk_entry data_frame_cs_type_changed (VStr (sr_type sa)) (VStr (sr_type sb))]
   else []) ++
  (if negb (String.eqb (sr_name sa) (sr_name sb))
   then [mk_entry data_frame_cs_name_changed (VStr (sr_name sa)) (VStr (sr_name sb))]
   else []).

(** [for index, a in enumerate(map_a_maps)]; [map_b_maps[index]] raises
    [IndexError] past the end of [map_b_maps]. *)
Fixpoint frames_loop (index : nat) (a_maps b_maps : list MapFrame)
    (diff : list diff_entry) : list diff_entry * result unit :=
  match a_maps with
  | [] => (diff, Ok tt)
  | a :: r =>
      match nth_error b_maps index with
      | None => (diff, Raise IndexError)
      | Some b => frames_loop (S index) r b_maps (diff ++ frame_entries a b)
      end
  end.

(** The body of the [try] of [compare_data_frames]: [diff] when it is left. *)
Definition data_frames_body (map_a map_b : Project) : list diff_entry * result unit :=
  let map_a_maps_len := List.length map_a in
  let map_b_maps_len := List.length map_b in
  let diff :=
    if Nat.eqb map_b_maps_len 0 || negb (Nat.eqb map_a_maps_len map_b_maps_len)
    then [mk_entry map_count_changed (VInt (Z.of_nat map_a_maps_len))
                   (VInt (Z.of_nat map_b_maps_len))]
    else [] in
  frames_loop 0 map_a map_b diff.

(** [except Exception: log], [finally: return diff]. *)
Definition compare_data_frames (map_a map_b : Project) : list diff_entry :=
  fst (data_frames_body map_a map_b).

(** One element of the list [list_document_data_sources] returns: the dict
    with the keys ["layers"] and ["tableViews"]. *)
Record MapSources : Type := mkSources {
  src_layers : list (option dict);
  src_tableViews : list dict
}.

Definition list_document_data_sources (project : Project) : list MapSources :=
  map (fun mp => mkSources (layer_details mp) (table_details mp)) project.

(** [[item for sublist in ls for item in sublist if item is not None]] where
    [ls] is the list under ["layers"]: walking a dict yields its keys,
    walking [None] is a [TypeError]. *)
Fixpoint flatten_layers (ls : list (option dict)) : result (list value) :=
  match ls with
  | [] => Ok []
  | None :: _ => Raise TypeError
  | Some d :: r =>
      rest <- flatten_layers r ;;
      Ok (filter (fun item => negb (is_none item)) (map VStr (keys d)) ++ rest)
  end.

(** [a[0]['layers']], flattened. *)
Definition layer_pool (a : list MapSources) : result (list value) :=
  match nth_error a 0 with
  | None => Raise IndexError
  | Some first => flatten_layers (src_layers first)
  end.

(** The statements of the [try] that come before [added = []]. *)
Definition layer_pools (map_a map_b : Project) : result (list value * list value) :=
  let a := list_document_data_sources map_a in
  let b := list_document_data_sources map_b in
  a_layers <- layer_pool a ;;
  b_layers <- layer_pool b ;;
  Ok (a_layers, b_layers).

(** An exception is logged and [finally] returns the three lists; when it
    was raised before [added = []] the [return] itself raises
    [UnboundLocalError]. *)
Definition compare_layers (map_a map_b : Project) : result LayersResult :=
  match layer_pools map_a map_b with
  | Raise _ => Raise UnboundLocalError
  | Ok (a_layers, b_layers) =>
      Ok (Correlation.layers_result (fst (correlate a_layers b_layers)))
  end.

Definition compare (map_a map_b : Project) : result CompareResult :=
  let data_frames := compare_data_frames map_a map_b in
  ls <- compare_layers map_a map_b ;;
  Ok (mkCompare data_frames ls).

(** *** [create_replacement_data_sources_list] *)

(** What [freeze] returns: scalars as they are, a [frozenset] of pairs for a
    dict, a [tuple] for a list. *)
Inductive frozen : Type :=
| FNone
| FBool (b : bool)
| FInt (n : Z)
| FStr (s : string)
| FSet (ps : list (string * frozen))
| FTuple (xs : list frozen).

Definition freeze_field (f : FieldInfo) : frozen :=
  FSet [("index", FInt (f_index f)); ("name", FStr (f_name f));
        ("visible", FBool (f_visible f))].

Fixpoint freeze (d : value) : frozen :=
  match d with
  | VNone => FNone
  | VBool b => FBool b
  | VInt n => FInt n
  | VStr s => FStr s
  | VDict kv =>
      FSet ((fix items (l : list (string * value)) : list (string * frozen) :=
               match l with
               | [] => []
               | (key, v) :: r => (key, freeze v) :: items r
               end) kv)
  | VFields fs => FTuple (map freeze_field fs)
  | VDiff es =>
      FTuple ((fix each (l : list (Z * value * value)) : list frozen :=
                 match l with
                 | [] => []
                 | (t, w, n) :: r =>
                     FSet [("type", FInt t); ("was", freeze w); ("now", freeze n)]
                     :: each r
                 end) es)
  end.

(** [v == fv] for a hashable value of a template and a frozen value of the
    record. *)
Definition eq_frozen (v : value) (fv : frozen) : bool :=
  match v, fv with
  | VNone, FNone => true
  | VBool a, FBool b => Bool.eqb a b
  | VBool a, FInt n => Z.eqb (Z.b2z a) n
  | VInt n, FBool a => Z.eqb n (Z.b2z a)
  | VInt a, FInt b => Z.eqb a b
  | VStr a, FStr b => String.eqb a b
  | _, _ => false
  end.

(** [(k, v) in items], the pairs comparing as tuples. *)
Definition pair_in (kv : string * value) (items : list (string * frozen)) : bool :=
  existsb (fun p => String.eqb (fst kv) (fst p) && eq_frozen (snd kv) (snd p)) items.

(** [criteria.issubset(items)] *)
Definition issubset (criteria : list (string * value)) (items : list (string * frozen))
  : bool :=
  forallb (fun kv => pair_in kv items) criteria.

(** One element of [template_sets]: the items of the template, and under
    ["matchCriteria"] the set of the pairs of its criteria. *)
Record TemplateSet : Type := mkTemplateSet {
  template_items : dict;
  matchCriteria : list (string * value)
}.

(** [dict(list(template.items()) +
         [("matchCriteria", set(template["matchCriteria"].items()))])] *)
Definition template_set (template : dict) : result TemplateSet :=
  match assoc "matchCriteria" template with
  | None => Raise KeyError
  | Some (VDict c) =>
      if forallb (fun kv => hashable (snd kv)) c
      then Ok (mkTemplateSet template c)
      else Raise TypeError
  | Some _ => Raise AttributeError
  end.

(** [set(freeze(item))] for a record. *)
Definition frozen_items (item : dict) : list (string * frozen) :=
  match freeze (VDict item) with
  | FSet ps => ps
  | _ => []
  end.

(** [for template in template_sets: ...]: [new_conn] when the loop is left. *)
Fixpoint find_conn (template_sets : list TemplateSet) (item : dict) : result value :=
  match template_sets with
  | [] => Ok VNone
  | template :: r =>
      if issubset (matchCriteria template) (frozen_items item)
      then py_getitem (VDict (template_items template)) "dataSource"
      else find_conn r item
  end.

Definition match_new_data_source (template_sets : list TemplateSet)
    (raise_exception_no_change : bool) (item : option dict) : result value :=
  match item with
  | None => Ok VNone
  | Some d =>
      new_conn <- find_conn template_sets d ;;
      if py_eq new_conn VNone && raise_exception_no_change
      then Raise (RuntimeError "No matching data source was found for layer")
      else Ok new_conn
  end.

(** One element of the list returned: [{"layers": [...], "tableViews": [...]}]. *)
Record Replacement : Type := mkReplacement {
  rep_layers : list value;
  rep_tableViews : list value
}.

Definition create_replacement_data_sources_list
    (document_data_sources_list : list MapSources)
    (data_source_templates : list dict)
    (raise_exception_no_change : bool) : result (list Replacement) :=
  template_sets <- mapM template_set data_source_templates ;;
  mapM (fun df =>
          ls <- mapM (match_new_data_source template_sets raise_exception_no_change)
                     (src_layers df) ;;
          ts <- mapM (fun table =>
                        match_new_data_source template_sets raise_exception_no_change
                                              (Some table))
                     (src_tableViews df) ;;
          Ok (mkReplacement ls ts))
       document_data_sources_list.

(** *** [change_data_sources] *)

Definition _change_data_source (layer : LayerObject) (new_props : value) : result unit :=
  match updateConnectionProperties layer new_props with
  | UpdateRaises =>
      Raise (DataSourceUpdate
               (mkUpdateError "Exception raised internally by ArcPy" (lo_name layer)))
  | Updated true =>
      Raise (DataSourceUpdate (mkUpdateError "Layer is now broken." (lo_name layer)))
  | Updated false => Ok tt
  end.

(** The list [errors] and the calls made so far. *)
Record rw_state : Type := mkRw {
  errors : list DataSourceUpdateError;
  calls : list update_call
}.

Fixpoint zip_longest {A B : Type} (la : list A) (lb : list B)
  : list (option A * option B) :=
  match la, lb with
  | [], [] => []
  | a :: ra, [] => (Some a, None) :: zip_longest ra []
  | [], b :: rb => (None, Some b) :: map (fun y => (None, Some y)) rb
  | a :: ra, b :: rb => (Some a, Some b) :: zip_longest ra rb
  end.

(** A value of the replacement list, [None] where [zip_longest] pads. *)
Definition padded (o : option value) : value :=
  match o with
  | Some v => v
  | None => VNone
  end.

(** The [try] statement run for one layer ([props] is the identity) or for
    one table ([props] is [layer_source.get("connectionProperties")]), at
    position [pos]. *)
Definition update_one (call : nat -> value -> update_call)
    (props : value -> result value) (pos : nat)
    (layer : option LayerObject) (layer_source : value) (st : rw_state)
  : rw_state * result unit :=
  if py_eq layer_source VNone then (st, Ok tt)
  else
    match layer with
    | None => (st, Raise AttributeError)
    | Some lo =>
        match props layer_source with
        | Raise e => (st, Raise e)
        | Ok new_props =>
            let st' := mkRw (errors st) (calls st ++ [call pos new_props]) in
            match _change_data_source lo new_props with
            | Ok _ => (st', Ok tt)
            | Raise e =>
                match as_MapLayerError e with
                | Some mle => (mkRw (errors st' ++ [mle]) (calls st'), Ok tt)
                | None => (st', Raise e)
                end
            end
        end
    end.

Fixpoint update_loop (call : nat -> value -> update_call)
    (props : value -> result value) (pos : nat)
    (items : list (option LayerObject * option value)) (st : rw_state)
  : rw_state * result unit :=
  match items with
  | [] => (st, Ok tt)
  | (layer, layer_source) :: r =>
      match update_one call props pos layer (padded layer_source) st with
      | (st', Ok _) => update_loop call props (S pos) r st'
      | (st', Raise e) => (st', Raise e)
      end
  end.

(** [layer_source.get("connectionProperties")] *)
Definition get_connectionProperties (layer_source : value) : result value :=
  match layer_source with
  | VDict d =>
      match assoc "connectionProperties" d with
      | Some v => Ok v
      | None => Ok VNone
      end
  | _ => Raise AttributeError
  end.

(** The dict given for one map: under each key, [None] or a list. *)
Definition MapDataSources : Type := list (string * option (list value)).

(** The body of [for proj_map, map_data_sources in zip_longest(...)]. *)
Definition change_map (m : nat) (proj_map : option MapObject)
    (map_data_sources : option MapDataSources) (st : rw_state)
  : rw_state * result unit :=
  match map_data_sources with
  | None => (st, Raise TypeError)
  | Some mds =>
      if negb (has_key "layers" mds) || negb (has_key "tableViews" mds)
      then (st, Raise (ChangeDataSourcesError
              "Data sources dictionary does not contain both layers and tableViews keys"
              None))
      else
        match proj_map with
        | None => (st, Raise AttributeError)
        | Some pm =>
            let layers := listLayers pm in
            match assoc "layers" mds with
            | Some (Some layer_sources) =>
                if negb (Nat.eqb (List.length layers) (List.length layer_sources))
                then (st, Raise (ChangeDataSourcesError
                        "Number of layers does not match number of data sources." None))
                else
                  match update_loop (LayerUpdate m) (fun v => Ok v) 0
                                    (zip_longest layers layer_sources) st with
                  | (st1, Raise e) => (st1, Raise e)
                  | (st1, Ok _) =>
                      let data_tables := listTables pm in
                      match assoc "tableViews" mds with
                      | Some (Some data_table_sources) =>
                          if negb (Nat.eqb (List.length data_tables)
                                           (List.length data_table_sources))
                          then (st1, Raise (ChangeDataSourcesError
                                  "Number of data tables does not match number of data table data sources."
                                  None))
                          else update_loop (TableUpdate m) get_connectionProperties 0
                                           (zip_longest data_tables data_table_sources) st1
                      | _ => (st1, Raise TypeError)
                      end
                  end
            | _ => (st, Raise (ChangeDataSourcesError
                     "Number of layers does not match number of data sources." None))
            end
        end
  end.

Fixpoint maps_loop (m : nat)
    (items : list (option MapObject * option MapDataSources)) (st : rw_state)
  : rw_state * result unit :=
  match items with
  | [] => (st, Ok tt)
  | (proj_map, map_data_sources) :: r =>
      match change_map m proj_map map_data_sources st with
      | (st', Ok _) => maps_loop (S m) r st'
      | (st', Raise e) => (st', Raise e)
      end
  end.

(** The calls made on the layers and tables, and how the function is left. *)
Definition change_data_sources (project : list MapObject)
    (data_sources : list MapDataSources) : list update_call * result unit :=
  match maps_loop 0 (zip_longest project data_sources) (mkRw [] []) with
  | (st, Raise e) => (calls st, Raise e)
  | (st, Ok _) =>
      if negb (Nat.eqb (List.length (errors st)) 0)
      then (calls st,
            Raise (ChangeDataSourcesError
                     "A number of errors were encountered whilst change layer data sources."
                     (Some (errors st))))
      else (calls st, Ok tt)
  end.

(** *** [list_document_data_sources] on the objects of arcpy *)

Section Details.

(** [str.upper], which is the interpreter's. *)
Variable upper : string -> string.

(** [details[k] = v], under [if layer.supports(k)]. *)
Definition set_supported (layer : Arcpy.Layer) (k : string) (v : value) (details : dict)
  : dict :=
  if Arcpy.supports layer k then set_key k v details else details.

(** [service_type.upper() == "SDE"] *)
Definition is_sde (service_type : value) : result bool :=
  match service_type with
  | VStr s => Ok (String.eqb (upper s) "SDE")
  | _ => Raise AttributeError
  end.

(** The statements under [if layer.supports("serviceProperties")]. *)
Definition service_details (layer : Arcpy.Layer) (details : dict) : result dict :=
  if Arcpy.supports layer "serviceProperties" then
    let sp := Arcpy.serviceProperties layer in
    service_type <- py_getitem sp "ServiceType" ;;
    let details := set_key "serviceType" service_type details in
    has_user <- py_contains "UserName" sp ;;
    details <- (if has_user
                then user <- py_getitem sp "UserName" ;;
                     Ok (set_key "userName" user details)
                else Ok details) ;;
    service_type <- py_getitem sp "ServiceType" ;;
    sde <- is_sde service_type ;;
    if sde then
      server <- py_getitem sp "Server" ;;
      let details := set_key "server" server details in
      service <- py_getitem sp "Service" ;;
      let details := set_key "service" service details in
      database <- py_getitem sp "Database" ;;
      Ok (set_key "database" database details)
    else Ok details
  else Ok details.

(** [for index in range(0, field_info.count)]: the list under ["fields"]
    when the loop is left, at its end or by an exception. *)
Fixpoint fields_loop (field_info : Arcpy.FieldInfoObject) (indices : list nat)
    (fields : list FieldInfo) : list FieldInfo :=
  match indices with
  | [] => fields
  | index :: r =>
      match Arcpy.getFieldName field_info (Z.of_nat index) with
      | Raise _ => fields
      | Ok field_name =>
          match Arcpy.getVisible field_info (Z.of_nat index) with
          | Raise _ => fields
          | Ok v =>
              fields_loop field_info r
                (fields ++ [mkField (Z.of_nat index) field_name (String.eqb v "VISIBLE")])
          end
      end
  end.

(** The [try] statement that resolves the fields: [details] when it is
    left. *)
Definition field_details (layer : Arcpy.Layer) (details : dict) : dict :=
  match Arcpy.Describe layer with
  | Raise _ => details
  | Ok desc =>
      if String.eqb (Arcpy.dataType desc) "FeatureLayer" then
        match Arcpy.fieldInfo desc with
        | Raise _ => details
        | Ok field_info =>
            match Arcpy.count field_info with
            | Raise _ => set_key "fields" (VFields []) details
            | Ok n =>
                set_key "fields"
                        (VFields (fields_loop field_info (seq 0 (Z.to_nat n)) []))
                        details
            end
        end
      else details
  end.

Definition _get_layer_details (layer : Arcpy.Layer) : result (option dict) :=
  if Arcpy.isGroupLayer layer && negb (Arcpy.isNetworkAnalystLayer layer) then Ok None
  else
    let details := [("name", VStr (Arcpy.name layer));
                    ("longName", VStr (Arcpy.longName layer))] in
    let details := set_supported layer "datasetName" (Arcpy.datasetName layer) details in
    let details := set_supported layer "dataSource" (Arcpy.dataSource layer) details in
    details <- service_details layer details ;;
    let details := set_supported layer "workspacePath" (Arcpy.workspacePath layer) details in
    let details := set_supported layer "visible" (Arcpy.visible layer) details in
    let details :=
      set_supported layer "definitionQuery" (Arcpy.definitionQuery layer) details in
    let details :=
      set_supported layer "connectionProperties" (Arcpy.connectionProperties layer)
                    details in
    Ok (Some (field_details layer details)).

Definition _get_table_details (table : Arcpy.Table) : dict :=
  [("connectionProperties", Arcpy.table_connectionProperties table);
   ("dataSource", Arcpy.table_dataSource table);
   ("definitionQuery", Arcpy.table_definitionQuery table);
   ("name", VStr (Arcpy.table_name table))].

(** [list_document_data_sources(project)], from [project.listMaps()]. *)
Definition document_data_sources (maps : list Arcpy.Map) : result (list MapSources) :=
  mapM (fun mp =>
          ls <- mapM _get_layer_details (Arcpy.listLayers mp) ;;
          Ok (mkSources ls (map _get_table_details (Arcpy.listTables mp))))
       maps.

End Details.

End Mapping3.

(** ** The comparison of [mp/_mp.py] *)

Module Mp.

(** [eq = lambda a, b, k: b[k] == a[k] if k in a and k in b else False] *)
Definition eq (a b : value) (k : string) : result bool :=
  c <- and_then (py_contains k a) (py_contains k b) ;;
  if c then bk <- py_getitem b k ;; ak <- py_getitem a k ;; Ok (py_eq bk ak)
  else Ok false.

(** [{"type": type, "was": a[k] if k in a else None,
      "now": b[k] if k in b else None}] *)
Definition _express_diff (a b : value) (k : string) (type : Z) : result diff_entry :=
  was <- (c <- py_contains k a ;; if c then py_getitem a k else Ok VNone) ;;
  now <- (c <- py_contains k b ;; if c then py_getitem b k else Ok VNone) ;;
  Ok (mk_entry type was now).

Definition layer_id_changed : Z := 401.
Definition layer_name_changed : Z := 402.
Definition layer_datasource_changed : Z := 403.
Definition layer_visibility_changed : Z := 404.
Definition layer_fields_changed : Z := 405.
Definition layer_definition_query_changed : Z := 406.

(** ["%s|%s|%s" % (_dict['index'], _dict['name'], _dict['visible'])] *)
Definition hash (f : FieldInfo) : string :=
  str_of_int (f_index f) ++ "|" ++ f_name f ++ "|" ++ str_of_bool (f_visible f).

(** [hash.split("|")[0]] *)
Definition unhash (h : string) : string := split_bar_head h.

Definition tests : list prop_test :=
  [ mkPropTest "id" layer_id_changed None;
    mkPropTest "name" layer_name_changed None;
    mkPropTest "visible" layer_visibility_changed None;
    mkPropTest "workspacePath" layer_datasource_changed None;
    mkPropTest "datasetName" layer_datasource_changed None;
    mkPropTest "database" layer_datasource_changed None;
    mkPropTest "server" layer_datasource_changed None;
    mkPropTest "service" layer_datasource_changed None;
    mkPropTest "definitionQuery" layer_definition_query_changed None;
    mkPropTest "fields" layer_fields_changed (Some true) ].

(** [[hash(_dict) for _dict in v]].  Walking a string or a dict yields
    strings, on which [_dict['index']] is a [TypeError]; an entry of a diff
    list has no ['index']. *)
Definition hash_all (v : value) : result (list string) :=
  match v with
  | VFields fs => Ok (map hash fs)
  | VStr EmptyString | VDict [] | VDiff [] => Ok []
  | VDiff (_ :: _) => Raise KeyError
  | VStr (String _ _) | VDict (_ :: _) => Raise TypeError
  | VNone | VBool _ | VInt _ => Raise TypeError
  end.

(** [[x for x in arr if x['index'] == int(index)][0]] *)
Definition inflate (arr : value) (index : string) : result FieldInfo :=
  match arr with
  | VFields [] | VStr EmptyString | VDict [] | VDiff [] => Raise IndexError
  | VFields fs =>
      i <- py_int index ;;
      match filter (fun x => Z.eqb (f_index x) i) fs with
      | x :: _ => Ok x
      | [] => Raise IndexError
      end
  | VDiff (_ :: _) => Raise KeyError
  | VStr (String _ _) | VDict (_ :: _) => Raise TypeError
  | VNone | VBool _ | VInt _ => Raise TypeError
  end.

(** The body of the loop [for test in tests]: the entries it appends. *)
Definition test_prop (a b : value) (test : prop_test) : result (list diff_entry) :=
  let k := layer_prop_name test in
  let v := change_id test in
  let is_array := match array test with Some t => t | None => false end in
  c <- and_then (py_contains k a) (py_contains k b) ;;
  if c then
    if is_array then
      hashed_a <- (ak <- py_getitem a k ;; hash_all ak) ;;
      hashed_b <- (bk <- py_getitem b k ;; hash_all bk) ;;
      if negb (set_eqb hashed_a hashed_b) then
        let was := set_difference hashed_a hashed_b in
        let now := set_difference hashed_b hashed_a in
        was' <- mapM (fun x => ak <- py_getitem a k ;; inflate ak x) (map unhash was) ;;
        now' <- mapM (fun x => bk <- py_getitem b k ;; inflate bk x) (map unhash now) ;;
        Ok [mk_entry v (VFields was') (VFields now')]
      else Ok []
    else
      e <- eq a b k ;;
      if negb e then d <- _express_diff a b k v ;; Ok [d] else Ok []
  else d <- _express_diff a b k v ;; Ok [d].

Fixpoint run_tests (a b : value) (ts : list prop_test) (diff : list diff_entry)
  : result (list diff_entry) :=
  match ts with
  | [] => Ok diff
  | test :: r => es <- test_prop a b test ;; run_tests a b r (diff ++ es)
  end.

Definition _layer_diff (a b : value) : result (list diff_entry) :=
  run_tests a b tests [].

Definition correlate : list value -> list value -> cstate * result unit :=
  Correlation.correlate eq _layer_diff.

Definition data_frame_count_changed : Z := 301.
Definition data_frame_cs_code_changed : Z := 302.
Definition data_frame_cs_name_changed : Z := 303.
Definition data_frame_cs_type_changed : Z := 304.

Definition frame_entries (a b : MapFrame) : list diff_entry :=
  let sa := spatialReference a in
  let sb := spatialReference b in
  (if negb (Z.eqb (factoryCode sa) (factoryCode sb))
   then [mk_entry data_frame_cs_code_changed (VInt (factoryCode sa)) (VInt (factoryCode sb))]
   else []) ++
  (if negb (String.eqb (sr_type sa) (sr_type sb))
   then [mk_entry data_frame_cs_type_changed (VStr (sr_type sa)) (VStr (sr_type sb))]
   else []) ++
  (if negb (String.eqb (sr_name sa) (sr_name sb))
   then [mk_entry data_frame_cs_name_changed (VStr (sr_name sa)) (VStr (sr_name sb))]
   else []).

Fixpoint frames_loop (index : nat) (a_maps b_maps : list MapFrame)
    (diff : list diff_entry) : list diff_entry * result unit :=
  match a_maps with
  | [] => (diff, Ok tt)
  | a :: r =>
      match nth_error b_maps index with
      | None => (diff, Raise IndexError)
      | Some b => frames_loop (S index) r b_maps (diff ++ frame_entries a b)
      end
  end.

(** The body of the [try] of [compare_data_frames].  The entry for a changed
    number of maps names [map_count_changed], which this file does not
    define ([data_frame_count_changed] is what it defines): building the
    entry raises [NameError] before anything is appended. *)
Definition data_frames_body (map_a map_b : Project) : list diff_entry * result unit :=
  let map_a_maps_len := List.length map_a in
  let map_b_maps_len := List.length map_b in
  if Nat.eqb map_b_maps_len 0 || negb (Nat.eqb map_a_maps_len map_b_maps_len)
  then ([], Raise NameError)
  else frames_loop 0 map_a map_b [].

Definition compare_data_frames (map_a map_b : Project) : list diff_entry :=
  fst (data_frames_body map_a map_b).

(** What [list_document_data_sources] returns: the dict with the keys
    ["layers"] and ["tableViews"], each holding one list per data frame.
    The details of a layer are taken as they stand once the function has
    added what it reads through arcobjects. *)
Record DocumentSources : Type := mkDocSources {
  doc_layers : list (list (option dict));
  doc_tableViews : list (list dict)
}.

Definition list_document_data_sources (project : Project) : DocumentSources :=
  mkDocSources (map layer_details project) (map table_details project).

Definition details_value (o : option dict) : value :=
  match o with
  | None => VNone
  | Some d => VDict d
  end.

(** [[item for sublist in a['layers'] for item in sublist if item is not None]] *)
Definition layer_pool (a : DocumentSources) : list value :=
  flat_map (fun sublist =>
              filter (fun item => negb (is_none item)) (map details_value sublist))
           (doc_layers a).

Definition layer_pools (map_a map_b : Project) : result (list value * list value) :=
  let a := list_document_data_sources map_a in
  let b := list_document_data_sources map_b in
  Ok (layer_pool a, layer_pool b).

Definition compare_layers (map_a map_b : Project) : result LayersResult :=
  match layer_pools map_a map_b with
  | Raise _ => Raise UnboundLocalError
  | Ok (a_layers, b_layers) =>
      Ok (Correlation.layers_result (fst (correlate a_layers b_layers)))
  end.

Definition compare (map_a map_b : Project) : result CompareResult :=
  let data_frames := compare_data_frames map_a map_b in
  ls <- compare_layers map_a map_b ;;
  Ok (mkCompare data_frames ls).

(** *** [list_document_data_sources] on the objects of arcpy *)

Section Details.

(** [str.upper], which is the interpreter's. *)
Variable upper : string -> string.

(** [details[k] = v], under [if layer.supports(k)]. *)
Definition set_supported (layer : Arcpy.Layer) (k : string) (v : value) (details : dict)
  : dict :=
  if Arcpy.supports layer k then set_key k v details else details.

(** [service_type.upper() == "SDE"] *)
Definition is_sde (service_type : value) : result bool :=
  match service_type with
  | VStr s => Ok (String.eqb (upper s) "SDE")
  | _ => Raise AttributeError
  end.

(** The statements under [if layer.supports("serviceProperties")]. *)
Definition service_details (layer : Arcpy.Layer) (details : dict) : result dict :=
  if Arcpy.supports layer "serviceProperties" then
    let sp := Arcpy.serviceProperties layer in
    service_type <- py_getitem sp "ServiceType" ;;
    let details := set_key "serviceType" service_type details in
    has_user <- py_contains "UserName" sp ;;
    details <- (if has_user
                then user <- py_getitem sp "UserName" ;;
                     Ok (set_key "userName" user details)
                else Ok details) ;;
    service_type <- py_getitem sp "ServiceType" ;;
    sde <- is_sde service_type ;;
    if sde then
      server <- py_getitem sp "Server" ;;
      let details := set_key "server" server details in
      service <- py_getitem sp "Service" ;;
      let details := set_key "service" service details in
      database <- py_getitem sp "Database" ;;
      Ok (set_key "database" database details)
    else Ok details
  else Ok details.

(** [for index in range(0, field_info.count)]: the list under ["fields"]
    when the loop is left, at its end or by an exception. *)
Fixpoint fields_loop (field_info : Arcpy.FieldInfoObject) (indices : list nat)
    (fields : list FieldInfo) : list FieldInfo :=
  match indices with
  | [] => fields
  | index :: r =>
      match Arcpy.getFieldName field_info (Z.of_nat index) with
      | Raise _ => fields
      | Ok field_name =>
          match Arcpy.getVisible field_info (Z.of_nat index) with
          | Raise _ => fields
          | Ok v =>
              fields_loop field_info r
                (fields ++ [mkField (Z.of_nat index) field_name (String.eqb v "VISIBLE")])
          end
      end
  end.

(** The [try] statement that resolves the fields: [details] when it is
    left. *)
Definition field_details (layer : Arcpy.Layer) (details : dict) : dict :=
  match Arcpy.Describe layer with
  | Raise _ => details
  | Ok desc =>
      if String.eqb (Arcpy.dataType desc) "FeatureLayer" then
        match Arcpy.fieldInfo desc with
        | Raise _ => details
        | Ok field_info =>
            match Arcpy.count field_info with
            | Raise _ => set_key "fields" (VFields []) details
            | Ok n =>
                set_key "fields"
                        (VFields (fields_loop field_info (seq 0 (Z.to_nat n)) []))
                        details
            end
        end
      else details
  end.

Definition _get_layer_details (layer : Arcpy.Layer) : result (option dict) :=
  if Arcpy.isGroupLayer layer && negb (Arcpy.isNetworkAnalystLayer layer) then Ok None
  else
    let details := [("name", VStr (Arcpy.name layer));
                    ("longName", VStr (Arcpy.longName layer))] in
    let details := set_supported layer "datasetName" (Arcpy.datasetName layer) details in
    let details := set_supported layer "dataSource" (Arcpy.dataSource layer) details in
    details <- service_details layer details ;;
    let details := set_supported layer "workspacePath" (Arcpy.workspacePath layer) details in
    Ok (Some (field_details layer details)).

Definition _get_table_details (table : Arcpy.Table) : dict :=
  [("connectionProperties", Arcpy.table_connectionProperties table);
   ("dataSource", Arcpy.table_dataSource table);
   ("definitionQuery", Arcpy.table_definitionQuery table);
   ("name", VStr (Arcpy.table_name table))].

(** [additional_layer_info[layerName]] *)
Definition layer_info_of (additional_layer_info : dict) (layerName : value)
  : result value :=
  match layerName with
  | VStr n =>
      match assoc n additional_layer_info with
      | Some info => Ok info
      | None => Raise KeyError
      end
  | VNone | VBool _ | VInt _ => Raise KeyError
  | VDict _ | VFields _ | VDiff _ => Raise TypeError
  end.

(** [l[k] = layer_info[k]] for the four keys in turn: the record when the
    statements are left, at their end or by an exception. *)
Fixpoint copy_keys (layer_info : value) (ks : list string) (l : dict)
  : dict * result unit :=
  match ks with
  | [] => (l, Ok tt)
  | k :: r =>
      match py_getitem layer_info k with
      | Raise e => (l, Raise e)
      | Ok v => copy_keys layer_info r (set_key k v l)
      end
  end.

(** The body of [for l in layerGroup], for a record that is not [None]. *)
Definition enrich_layer (additional_layer_info : dict) (l : dict) : dict * result unit :=
  match (layerName <- py_getitem (VDict l) "name" ;;
         layer_info_of additional_layer_info layerName) with
  | Raise e => (l, Raise e)
  | Ok layer_info =>
      if is_none layer_info then (l, Ok tt)
      else copy_keys layer_info ["id"; "hasFixedId"; "visible"; "definitionQuery"] l
  end.

(** [for l in layerGroup] *)
Fixpoint enrich_group (additional_layer_info : dict) (layerGroup : list (option dict))
  : list (option dict) * result unit :=
  match layerGroup with
  | [] => ([], Ok tt)
  | None :: r =>
      let (r', res) := enrich_group additional_layer_info r in (None :: r', res)
  | Some l :: r =>
      match enrich_layer additional_layer_info l with
      | (l', Raise e) => (Some l' :: r, Raise e)
      | (l', Ok _) =>
          let (r', res) := enrich_group additional_layer_info r in (Some l' :: r', res)
      end
  end.

(** [for layerGroup in layers] *)
Fixpoint enrich_groups (additional_layer_info : dict)
    (layers : list (list (option dict))) : list (list (option dict)) * result unit :=
  match layers with
  | [] => ([], Ok tt)
  | layerGroup :: r =>
      match enrich_group additional_layer_info layerGroup with
      | (g', Raise e) => (g' :: r, Raise e)
      | (g', Ok _) =>
          let (r', res) := enrich_groups additional_layer_info r in (g' :: r', res)
      end
  end.

(** [list_document_data_sources(project)], from [project.listMaps()] and
    from what the three calls to arcobjects give: the dict that
    [list_layers] returns, or the exception that one of them raises. *)
Definition document_data_sources (maps : list Arcpy.Map)
    (arcobjects : result dict) : result DocumentSources :=
  layers <- mapM (fun df => mapM _get_layer_details (Arcpy.listLayers df)) maps ;;
  let tableViews := map (fun df => map _get_table_details (Arcpy.listTables df)) maps in
  let layers :=
    match arcobjects with
    | Raise _ => layers
    | Ok additional_layer_info => fst (enrich_groups additional_layer_info layers)
    end in
  Ok (mkDocSources layers tableViews).

End Details.

End Mp.

(** * Properties *)

(** ** Sample documents *)

Definition roads_2020 : dict :=
  [("id", VInt 1); ("name", VStr "Roads"); ("datasetName", VStr "roads_2020")].
Definition roads_2021 : dict :=
  [("id", VInt 1); ("name", VStr "Roads"); ("datasetName", VStr "roads_2021")].
Definition rivers : dict :=
  [("id", VInt 2); ("name", VStr "Rivers"); ("datasetName", VStr "rivers")].
Definition wgs84 : SpatialReference := mkSR 4326 "Geographic" "GCS_WGS_1984".

(** ** The two copies of [_layer_diff] *)

(** C9: the [_layer_diff] of [mp/_mp.py] and the one of
    [mapping/_mapping3.py] return the same list of entries, or raise the
    same exception, on every pair of records. *)
Theorem layer_diff_mp_mapping3 :
  forall a b : value, Mp._layer_diff a b = Mapping3._layer_diff a b.
Proof.
  intros a b.
  unfold Mp._layer_diff, Mapping3._layer_diff.
  assert (Hrow : forall t, Mp.test_prop a b t = Mapping3.test_prop a b t)
    by (intro t; reflexivity).
  assert (Hrun : forall ts diff, Mp.run_tests a b ts diff = Mapping3.run_tests a b ts diff).
  { induction ts as [|t ts IH]; intro diff; simpl.
    - reflexivity.
    - rewrite Hrow. destruct (Mapping3.test_prop a b t); simpl; [apply IH | reflexivity]. }
  apply Hrun.
Qed.

(** ** The template matcher on a group layer *)

(** C10: for the [None] that stands for a group layer,
    [match_new_data_source] returns [None] whatever the templates are, also
    when [raise_exception_no_change] is set. *)
Theorem match_none_record :
  forall (template_sets : list Mapping3.TemplateSet) (raise_exception_no_change : bool),
    Mapping3.match_new_data_source template_sets raise_exception_no_change None
    = Ok VNone.
Proof.
  intros template_sets strict. reflexivity.
Qed.

(** ** Exceptions in [compare] *)

(** C5, at a document without maps: [a[0]] raises [IndexError] before
    [added] is bound, the handler logs it, and the [return] of the [finally]
    clause raises [UnboundLocalError], which leaves [compare]. *)
Theorem compare_no_maps_raises :
  Mapping3.compare [] [] = Raise UnboundLocalError.
Proof.
  reflexivity.
Qed.

(** ** The field-level diff on the documented scenario *)

(** A row for a scalar attribute that neither record has appends the entry
    [{"type": v, "was": None, "now": None}]. *)
Lemma scalar_row_absent_both :
  forall (da db : dict) (k : string) (v : Z),
    assoc k da = None -> assoc k db = None ->
    Mapping3.test_prop (VDict da) (VDict db) (mkPropTest k v None)
    = Ok [mk_entry v VNone VNone].
Proof.
  intros da db k v Ha Hb.
  unfold Mapping3.test_prop, Mapping3._express_diff, and_then, has_key; simpl.
  unfold has_key. rewrite Ha, Hb. reflexivity.
Qed.

(** C3, at the scenario of the specification: the diff of the two versions
    of the layer Roads holds the entry for the changed [datasetName] and,
    beside it, one entry from [None] to [None] for each of the seven
    attributes that both records lack. *)
Theorem layer_diff_roads :
  Mapping3._layer_diff (VDict roads_2020) (VDict roads_2021)
  = Ok [ mk_entry 404 VNone VNone;
         mk_entry 403 VNone VNone;
         mk_entry 403 (VStr "roads_2020") (VStr "roads_2021");
         mk_entry 403 VNone VNone;
         mk_entry 403 VNone VNone;
         mk_entry 403 VNone VNone;
         mk_entry 406 VNone VNone;
         mk_entry 405 VNone VNone ].
Proof.
  vm_compute. reflexivity.
Qed.

(** ** The candidate pools *)

(** What C4 describes: the layers of every map, in order, group layers left
    out. *)
Definition flatten_all_layers (S : Project) : list value :=
  flat_map (fun mp =>
              flat_map (fun o => match o with
                                 | Some d => [VDict d]
                                 | None => []
                                 end) (layer_details mp)) S.

Definition two_maps : Project :=
  [mkMap wgs84 [] []; mkMap wgs84 [Some rivers] []].

(** C4 fails for [mapping/_mapping3.py]: a layer of the second map is not in
    the pool. *)
Lemma mapping3_pool_not_all_maps :
  Mapping3.layer_pool (Mapping3.list_document_data_sources two_maps)
  <> Ok (flatten_all_layers two_maps).
Proof.
  vm_compute. discriminate.
Qed.

Lemma filter_details_flat (ls : list (option dict)) :
  filter (fun item => negb (is_none item)) (map Mp.details_value ls)
  = flat_map (fun o => match o with
                       | Some d => [VDict d]
                       | None => []
                       end) ls.
Proof.
  induction ls as [|[d|] ls IH]; simpl; [reflexivity | f_equal; exact IH | exact IH].
Qed.

(** C4, amended: [mp/_mp.py] flattens the layer lists of all data frames,
    group layers left out; [mapping/_mapping3.py] reads the list of the first
    map only, so that the maps after the first do not change its pool. *)
Theorem layer_pools_of_the_two_files :
  (forall S : Project,
      Mp.layer_pool (Mp.list_document_data_sources S) = flatten_all_layers S)
  /\
  (forall (first : MapFrame) (rest : Project),
      Mapping3.layer_pool (Mapping3.list_document_data_sources (first :: rest))
      = Mapping3.layer_pool (Mapping3.list_document_data_sources [first])).
Proof.
  split.
  - intro S. unfold Mp.layer_pool, Mp.list_document_data_sources, flatten_all_layers.
    simpl. induction S as [|mp S IH]; simpl.
    + reflexivity.
    + rewrite IH, filter_details_flat. reflexivity.
  - intros first rest. reflexivity.
Qed.

(** ** Comparing a document with itself *)

(** C1 fails at a document without maps: the data-frame phase reports the
    number of maps as changed, from 0 to 0, and [compare] does not return the
    empty result. *)
Lemma compare_no_maps_not_empty :
  Mapping3.compare_data_frames [] []
  = [mk_entry Mapping3.map_count_changed (VInt 0) (VInt 0)]
  /\ Mapping3.compare [] [] <> Ok (mkCompare [] (mkLayers [] [] [])).
Proof.
  split; [reflexivity | vm_compute; discriminate].
Qed.

Lemma frame_entries_same (a : MapFrame) : Mapping3.frame_entries a a = [].
Proof.
  unfold Mapping3.frame_entries.
  rewrite Z.eqb_refl, !String.eqb_refl. reflexivity.
Qed.

Lemma frames_loop_same (suf pre : list MapFrame) (diff : list diff_entry) :
  Mapping3.frames_loop (List.length pre) suf (pre ++ suf) diff = (diff, Ok tt).
Proof.
  revert pre. induction suf as [|a suf IH]; intro pre; simpl.
  - reflexivity.
  - rewrite nth_error_app2 by lia. rewrite Nat.sub_diag. simpl.
    rewrite frame_entries_same, app_nil_r.
    specialize (IH (pre ++ [a])).
    rewrite length_app, <- app_assoc in IH. simpl in IH.
    rewrite Nat.add_1_r in IH. exact IH.
Qed.

Lemma compare_data_frames_same (S : Project) :
  S <> [] -> Mapping3.compare_data_frames S S = [].
Proof.
  intro HS. unfold Mapping3.compare_data_frames, Mapping3.data_frames_body.
  rewrite Nat.eqb_refl. simpl.
  destruct S as [|mp S]; [contradiction|]. simpl List.length. simpl Nat.eqb. simpl orb.
  cbv iota. exact (f_equal fst (frames_loop_same (mp :: S) [] [])).
Qed.

(** No entry of the first map stands for a group layer. *)
Definition no_group_layer (ls : list (option dict)) : bool :=
  forallb (fun o => match o with Some _ => true | None => false end) ls.

Lemma flatten_layers_strings (ls : list (option dict)) :
  no_group_layer ls = true ->
  exists ks : list string, Mapping3.flatten_layers ls = Ok (map VStr ks).
Proof.
  induction ls as [|[d|] ls IH]; simpl; intro H.
  - exists []. reflexivity.
  - destruct (IH H) as [ks Hks]. rewrite Hks. simpl.
    exists (keys d ++ ks). rewrite map_app. f_equal. f_equal.
    induction (keys d) as [|k l IHl]; simpl; [reflexivity | f_equal; exact IHl].
  - discriminate.
Qed.

(** On two strings [eq] is [False] or raises: the key is a substring of
    both, and indexing a string with a string is a [TypeError]. *)
Lemma eq_strings (x y k : string) :
  Mapping3.eq (VStr x) (VStr y) k = Ok false \/
  Mapping3.eq (VStr x) (VStr y) k = Raise TypeError.
Proof.
  unfold Mapping3.eq, and_then; simpl.
  destruct (substring_of k x); simpl; [|left; reflexivity].
  destruct (substring_of k y); simpl; [right|left]; reflexivity.
Qed.

(** The matchers on two strings: [None], or a [TypeError]. *)
Lemma fn_strings (t : match_test) (ra rb : list value) (x y : string) :
  In t (Correlation.tests Mapping3.eq) ->
  fn t ra rb (VStr x) (VStr y) = Ok VNone \/
  fn t ra rb (VStr x) (VStr y) = Raise TypeError.
Proof.
  unfold Correlation.tests. simpl.
  intros [<-|[<-|[<-|[<-|[<-|[<-|[]]]]]]]; simpl;
    unfold Correlation.same_id, Correlation.same_name, Correlation.b_if, and_then;
    destruct (eq_strings x y "id") as [Hid|Hid];
    destruct (eq_strings x y "name") as [Hn|Hn];
    rewrite ?Hid, ?Hn; simpl; auto.
Qed.

(** The loop over the matchers on two strings leaves the variables as they
    were. *)
Lemma tests_loop_strings (x y : string) (i j : nat) (ts : list match_test) :
  (forall t, In t ts -> In t (Correlation.tests Mapping3.eq)) ->
  forall (matched : bool) (s : cstate),
    nth j (b_objs s) VNone = VStr y ->
    Correlation.tests_loop Mapping3._layer_diff i (VStr x) j ts matched s
      = (s, Ok (match ts with [] => matched | _ => false end))
    \/
    Correlation.tests_loop Mapping3._layer_diff i (VStr x) j ts matched s
      = (s, Raise TypeError).
Proof.
  induction ts as [|t ts IH]; intros Hts matched s Hb.
  - left. reflexivity.
  - simpl. unfold mbind, get_b, gets, lift. rewrite Hb.
    destruct (fn_strings t (resolved_a s) (resolved_b s) x y (Hts t (or_introl eq_refl)))
      as [H|H]; rewrite H; simpl.
    + destruct (IH (fun t' Ht' => Hts t' (or_intror Ht')) false s Hb) as [H'|H'];
        rewrite H'; [left | right]; [destruct ts|]; reflexivity.
    + right. reflexivity.
Qed.

Lemma a_loop_strings (y : string) (j : nat) (s : cstate) :
  nth j (b_objs s) VNone = VStr y ->
  forall (xs : list string) (i : nat) (matched : bool),
    matched = false \/ xs <> [] ->
    Correlation.a_loop Mapping3.eq Mapping3._layer_diff i (map VStr xs) j matched s
      = (s, Ok false)
    \/
    Correlation.a_loop Mapping3.eq Mapping3._layer_diff i (map VStr xs) j matched s
      = (s, Raise TypeError).
Proof.
  intros Hb xs. induction xs as [|x xs IH]; intros i matched Hm;
    cbn [Correlation.a_loop map].
  - destruct Hm as [-> | Hm]; [left; reflexivity | contradiction].
  - unfold mbind.
    destruct (tests_loop_strings x y i j (Correlation.tests Mapping3.eq)
                (fun t Ht => Ht) matched s Hb) as [H|H]; rewrite H.
    + apply IH. left; reflexivity.
    + right; reflexivity.
Qed.

(** The loop on pools of strings: whatever the strings are, the three
    lists are empty when the statements are left. *)
Lemma correlate_strings (xs ys : list string) :
  Correlation.layers_result (fst (Mapping3.correlate (map VStr xs) (map VStr ys)))
  = mkLayers [] [] [].
Proof.
  unfold Mapping3.correlate, Correlation.correlate.
  destruct ys as [|y ys].
  - simpl. unfold mbind, ret; simpl.
    destruct xs as [|x xs]; reflexivity.
  - simpl. unfold mbind at 1. unfold mbind at 1.
    unfold Correlation.b_body. unfold mbind at 1.
    set (s0 := init_state (VStr y :: map VStr ys)).
    assert (Hb : nth 0 (b_objs s0) VNone = VStr y) by reflexivity.
    destruct (a_loop_strings y 0 s0 Hb xs 0 false (or_introl eq_refl)) as [H|H];
      rewrite H; reflexivity.
Qed.

(** C1, amended: for a document with at least one map, and no group layer
    among the layers of its first map, [compare] of the document with itself
    returns no data-frame entry and three empty lists of layers. *)
Theorem compare_same_document (S : Project) :
  S <> [] ->
  no_group_layer (layer_details (nth 0 S (mkMap wgs84 [] []))) = true ->
  Mapping3.compare S S = Ok (mkCompare [] (mkLayers [] [] [])).
Proof.
  intros HS Hg. unfold Mapping3.compare.
  rewrite (compare_data_frames_same S HS).
  unfold Mapping3.compare_layers, Mapping3.layer_pools, Mapping3.layer_pool.
  destruct S as [|mp S]; [contradiction|]. simpl in Hg. simpl.
  destruct (flatten_layers_strings _ Hg) as [ks Hks]. rewrite Hks. simpl.
  rewrite correlate_strings. reflexivity.
Qed.

Lemma compare_same_document_witness :
  Mapping3.compare [mkMap wgs84 [Some roads_2020] []] [mkMap wgs84 [Some roads_2020] []]
  = Ok (mkCompare [] (mkLayers [] [] [])).
Proof.
  apply (compare_same_document [mkMap wgs84 [Some roads_2020] []]).
  - discriminate.
  - reflexivity.
Defined.

(** ** The bulk rewriter *)

(** The failure that one update leaves in [errors], if any. *)
Definition failure_of (lo : LayerObject) (new_props : value) : list DataSourceUpdateError :=
  match updateConnectionProperties lo new_props with
  | UpdateRaises => [mkUpdateError "Exception raised internally by ArcPy" (lo_name lo)]
  | Updated true => [mkUpdateError "Layer is now broken." (lo_name lo)]
  | Updated false => []
  end.

(** The connection handed to a table: the value under
    ["connectionProperties"] of its entry, [None] when the key is missing. *)
Definition table_props (layer_source : value) : value :=
  match layer_source with
  | VDict d => match assoc "connectionProperties" d with
               | Some v => v
               | None => VNone
               end
  | _ => VNone
  end.

(** The updates due for the items of one list: one for every entry of the
    replacement list that is not [None], whatever happened before it. *)
Fixpoint due_calls (call : nat -> value -> update_call) (props : value -> value)
    (pos : nat) (items : list LayerObject) (sources : list value) : list update_call :=
  match items, sources with
  | _ :: items', src :: sources' =>
      (if is_none src then [] else [call pos (props src)])
      ++ due_calls call props (S pos) items' sources'
  | _, _ => []
  end.

(** The failures among them. *)
Fixpoint due_failures (props : value -> value)
    (items : list LayerObject) (sources : list value) : list DataSourceUpdateError :=
  match items, sources with
  | lo :: items', src :: sources' =>
      (if is_none src then [] else failure_of lo (props src))
      ++ due_failures props items' sources'
  | _, _ => []
  end.

Definition sources_of (key : string) (mds : Mapping3.MapDataSources) : list value :=
  match assoc key mds with
  | Some (Some l) => l
  | _ => []
  end.

Definition map_calls (m : nat) (pm : MapObject) (mds : Mapping3.MapDataSources)
  : list update_call :=
  due_calls (LayerUpdate m) (fun v => v) 0 (listLayers pm) (sources_of "layers" mds)
  ++ due_calls (TableUpdate m) table_props 0 (listTables pm) (sources_of "tableViews" mds).

Definition map_failures (pm : MapObject) (mds : Mapping3.MapDataSources)
  : list DataSourceUpdateError :=
  due_failures (fun v => v) (listLayers pm) (sources_of "layers" mds)
  ++ due_failures table_props (listTables pm) (sources_of "tableViews" mds).

Fixpoint project_calls (m : nat) (project : list MapObject)
    (data_sources : list Mapping3.MapDataSources) : list update_call :=
  match project, data_sources with
  | pm :: project', mds :: data_sources' =>
      map_calls m pm mds ++ project_calls (S m) project' data_sources'
  | _, _ => []
  end.

Fixpoint project_failures (project : list MapObject)
    (data_sources : list Mapping3.MapDataSources) : list DataSourceUpdateError :=
  match project, data_sources with
  | pm :: project', mds :: data_sources' =>
      map_failures pm mds ++ project_failures project' data_sources'
  | _, _ => []
  end.

(** An entry for a table is [None] or a dict. *)
Definition table_source_ok (v : value) : bool :=
  match v with
  | VNone | VDict _ => true
  | _ => false
  end.

(** The replacement given for a map fits the map: both keys, a list of the
    length of the layer list, a list of the length of the table list. *)
Definition map_fits (pm : MapObject) (mds : Mapping3.MapDataSources) : bool :=
  match assoc "layers" mds, assoc "tableViews" mds with
  | Some (Some ls), Some (Some ts) =>
      Nat.eqb (List.length (listLayers pm)) (List.length ls)
      && Nat.eqb (List.length (listTables pm)) (List.length ts)
      && forallb table_source_ok ts
  | _, _ => false
  end.

(** The replacement list fits the project: one fitting entry per map. *)
Fixpoint fits (project : list MapObject) (data_sources : list Mapping3.MapDataSources)
  : bool :=
  match project, data_sources with
  | [], [] => true
  | pm :: project', mds :: data_sources' => map_fits pm mds && fits project' data_sources'
  | _, _ => false
  end.

Lemma py_eq_none (v : value) : py_eq v VNone = is_none v.
Proof. destruct v; try reflexivity. destruct fs; reflexivity. destruct es; reflexivity. Qed.

(** One loop of updates over a list that fits. *)
Lemma update_loop_fits (call : nat -> value -> update_call)
    (props : value -> result value) (props' : value -> value)
    (items : list LayerObject) :
  forall (sources : list value) (pos : nat) (st : Mapping3.rw_state),
    List.length items = List.length sources ->
    (forall src, In src sources -> is_none src = false -> props src = Ok (props' src)) ->
    Mapping3.update_loop call props pos (Mapping3.zip_longest items sources) st
    = (Mapping3.mkRw (Mapping3.errors st ++ due_failures props' items sources)
                     (Mapping3.calls st ++ due_calls call props' pos items sources),
       Ok tt).
Proof.
  induction items as [|lo items IH]; intros [|src sources] pos st Hlen Hp;
    try discriminate.
  - simpl. rewrite !app_nil_r. destruct st; reflexivity.
  - cbn [Mapping3.zip_longest Mapping3.update_loop due_calls due_failures Mapping3.padded].
    unfold Mapping3.update_one. rewrite py_eq_none.
    destruct (is_none src) eqn:Hn.
    + rewrite IH; [reflexivity | simpl in Hlen; lia | intros; apply Hp; simpl; auto].
    + rewrite (Hp src (or_introl eq_refl) Hn).
      unfold Mapping3._change_data_source, failure_of.
      destruct (updateConnectionProperties lo (props' src)) as [|[|]];
        cbn [as_MapLayerError];
        (rewrite IH; [|simpl in Hlen; lia | intros; apply Hp; simpl; auto]);
        cbn [Mapping3.errors Mapping3.calls]; rewrite <- ?app_assoc; reflexivity.
Qed.

Lemma table_props_ok (sources : list value) :
  forallb table_source_ok sources = true ->
  forall src, In src sources -> is_none src = false ->
              Mapping3.get_connectionProperties src = Ok (table_props src).
Proof.
  intros H src Hin Hn. rewrite forallb_forall in H. specialize (H src Hin).
  destruct src; try discriminate. simpl.
  destruct (assoc "connectionProperties" d); reflexivity.
Qed.

Lemma map_fits_keys (pm : MapObject) (mds : Mapping3.MapDataSources) :
  map_fits pm mds = true ->
  exists ls ts,
    assoc "layers" mds = Some (Some ls) /\ assoc "tableViews" mds = Some (Some ts) /\
    List.length (listLayers pm) = List.length ls /\
    List.length (listTables pm) = List.length ts /\
    forallb table_source_ok ts = true.
Proof.
  unfold map_fits.
  destruct (assoc "layers" mds) as [[ls|]|]; try discriminate.
  destruct (assoc "tableViews" mds) as [[ts|]|]; try discriminate.
  intro H. apply andb_prop in H as [H H3]. apply andb_prop in H as [H1 H2].
  apply Nat.eqb_eq in H1, H2. exists ls, ts. auto.
Qed.

(** The body of the loop over the maps, on a replacement that fits. *)
Lemma change_map_fits (m : nat) (pm : MapObject) (mds : Mapping3.MapDataSources)
    (st : Mapping3.rw_state) :
  map_fits pm mds = true ->
  Mapping3.change_map m (Some pm) (Some mds) st
  = (Mapping3.mkRw (Mapping3.errors st ++ map_failures pm mds)
                   (Mapping3.calls st ++ map_calls m pm mds), Ok tt).
Proof.
  intro H. destruct (map_fits_keys pm mds H) as (ls & ts & Hl & Ht & Hll & Hlt & Hok).
  unfold Mapping3.change_map, has_key, map_calls, map_failures, sources_of.
  rewrite Hl, Ht. simpl. rewrite Hll, Hlt, !Nat.eqb_refl. simpl.
  rewrite (update_loop_fits (LayerUpdate m) (fun v => Ok v) (fun v => v));
    [|exact Hll | reflexivity].
  rewrite (update_loop_fits (TableUpdate m) Mapping3.get_connectionProperties table_props);
    [|exact Hlt | exact (table_props_ok ts Hok)].
  cbn [Mapping3.errors Mapping3.calls]. rewrite <- !app_assoc. reflexivity.
Qed.

(** The loop over the maps runs through a prefix that fits. *)
Lemma maps_loop_prefix (pre : list MapObject) :
  forall (pre_ds : list Mapping3.MapDataSources) (m : nat) (st : Mapping3.rw_state)
         (rest : list MapObject) (rest_ds : list Mapping3.MapDataSources),
    fits pre pre_ds = true ->
    Mapping3.maps_loop m (Mapping3.zip_longest (pre ++ rest) (pre_ds ++ rest_ds)) st
    = Mapping3.maps_loop (m + List.length pre) (Mapping3.zip_longest rest rest_ds)
        (Mapping3.mkRw (Mapping3.errors st ++ project_failures pre pre_ds)
                       (Mapping3.calls st ++ project_calls m pre pre_ds)).
Proof.
  induction pre as [|pm pre IH]; intros [|mds pre_ds] m st rest rest_ds Hf;
    try discriminate.
  - simpl. rewrite !app_nil_r, Nat.add_0_r. destruct st; reflexivity.
  - simpl in Hf. apply andb_prop in Hf as [Hm Hf].
    rewrite <- !app_comm_cons.
    assert (Hz : Mapping3.zip_longest (pm :: pre ++ rest) (mds :: pre_ds ++ rest_ds)
                 = (Some pm, Some mds) :: Mapping3.zip_longest (pre ++ rest) (pre_ds ++ rest_ds))
      by reflexivity.
    rewrite Hz. cbn [Mapping3.maps_loop].
    rewrite (change_map_fits m pm mds st Hm).
    rewrite (IH pre_ds (S m) _ rest rest_ds Hf).
    cbn [Mapping3.errors Mapping3.calls project_calls project_failures List.length].
    rewrite <- !app_assoc. replace (S m + List.length pre) with (m + S (List.length pre)) by lia.
    reflexivity.
Qed.

(** C7, amended: on a replacement list that fits the project (one dict for
    each map, with both keys, a list of the length of the layer list, a list
    of the length of the table list, and [None] or a dict for each table),
    every layer and table with a replacement gets its update, whether the
    updates before it failed or not; the failures (an update that raises, a
    layer broken after its update) are collected in order, and the aggregate
    error that carries them is raised at the end exactly when there is
    one. *)
Theorem change_data_sources_collects
    (project : list MapObject) (data_sources : list Mapping3.MapDataSources) :
  fits project data_sources = true ->
  Mapping3.change_data_sources project data_sources
  = (project_calls 0 project data_sources,
     match project_failures project data_sources with
     | [] => Ok tt
     | failures =>
         Raise (ChangeDataSourcesError
                  "A number of errors were encountered whilst change layer data sources."
                  (Some failures))
     end).
Proof.
  intro Hf. unfold Mapping3.change_data_sources.
  pose proof (maps_loop_prefix project data_sources 0 (Mapping3.mkRw [] []) [] [] Hf) as H.
  rewrite !app_nil_r in H. rewrite H. simpl.
  destruct (project_failures project data_sources); reflexivity.
Qed.

(** A project of one map: a layer whose update raises, a layer that is
    broken after its update, a layer that takes its update, and a table. *)
Definition props_a : value := VDict [("database", VStr "a.gdb")].
Definition sample_project : list MapObject :=
  [mkMapObject [mkLayerObject "L0" (fun _ => UpdateRaises);
                mkLayerObject "L1" (fun _ => Updated true);
                mkLayerObject "L2" (fun _ => Updated false)]
               [mkLayerObject "T0" (fun _ => Updated false)]].
Definition sample_sources : list Mapping3.MapDataSources :=
  [[("layers", Some [props_a; props_a; props_a]);
    ("tableViews", Some [VDict [("connectionProperties", props_a)]])]].

Lemma change_data_sources_collects_witness :
  Mapping3.change_data_sources sample_project sample_sources
  = ([LayerUpdate 0 0 props_a; LayerUpdate 0 1 props_a; LayerUpdate 0 2 props_a;
      TableUpdate 0 0 props_a],
     Raise (ChangeDataSourcesError
              "A number of errors were encountered whilst change layer data sources."
              (Some [mkUpdateError "Exception raised internally by ArcPy" "L0";
                     mkUpdateError "Layer is now broken." "L1"]))).
Proof.
  exact (change_data_sources_collects sample_project sample_sources eq_refl).
Defined.

(** The replacement given for the layers of a map is not a list of the
    length of the layer list. *)
Definition layers_mismatch (pm : MapObject) (mds : Mapping3.MapDataSources) : bool :=
  match assoc "layers" mds with
  | Some (Some ls) => negb (Nat.eqb (List.length (listLayers pm)) (List.length ls))
  | _ => true
  end.

(** The replacement given for the tables of a map is a list, of another
    length than the table list. *)
Definition tables_mismatch (pm : MapObject) (mds : Mapping3.MapDataSources) : bool :=
  match assoc "tableViews" mds with
  | Some (Some ts) => negb (Nat.eqb (List.length (listTables pm)) (List.length ts))
  | _ => false
  end.

Definition layers_error : exn :=
  ChangeDataSourcesError "Number of layers does not match number of data sources." None.
Definition tables_error : exn :=
  ChangeDataSourcesError
    "Number of data tables does not match number of data table data sources." None.

(** A map with one layer and no table, and a replacement that names one
    table. *)
Definition one_layer_project : list MapObject :=
  [mkMapObject [mkLayerObject "L0" (fun _ => Updated false)] []].
Definition one_table_too_many : list Mapping3.MapDataSources :=
  [[("layers", Some [props_a]); ("tableViews", Some [VNone])]].

(** C6 fails for the list of tables: when the error is raised, the layer of
    the same map has had its update. *)
Lemma tables_error_after_layer_update :
  Mapping3.change_data_sources one_layer_project one_table_too_many
  = ([LayerUpdate 0 0 props_a], Raise tables_error).
Proof.
  reflexivity.
Qed.

(** C7 fails on a replacement list that does not fit: the failures of two
    layers of the first map are collected, the list for the tables of the
    second map has another length than its table list, and the error raised
    for that carries no failure; the aggregate error is not raised although
    the list of failures is not empty. *)
Lemma collected_failures_not_raised :
  Mapping3.errors
    (fst (Mapping3.maps_loop 0
            (Mapping3.zip_longest (sample_project ++ one_layer_project)
                                  (sample_sources ++ one_table_too_many))
            (Mapping3.mkRw [] [])))
  = [mkUpdateError "Exception raised internally by ArcPy" "L0";
     mkUpdateError "Layer is now broken." "L1"]
  /\ snd (Mapping3.change_data_sources (sample_project ++ one_layer_project)
                                       (sample_sources ++ one_table_too_many))
     = Raise (ChangeDataSourcesError
                "Number of data tables does not match number of data table data sources."
                None).
Proof.
  split; reflexivity.
Qed.

Lemma due_calls_map (m : nat) (call : nat -> nat -> value -> update_call)
    (props : value -> value) (items : list LayerObject) :
  (forall pos v, call_map (call m pos v) = m) ->
  forall (sources : list value) (pos : nat) (c : update_call),
    In c (due_calls (call m) props pos items sources) -> call_map c = m.
Proof.
  intro Hc. induction items as [|lo items IH]; intros [|src sources] pos c Hin;
    simpl in Hin; try contradiction.
  apply in_app_or in Hin as [Hin|Hin].
  - destruct (is_none src); [contradiction|]. destruct Hin as [<-|[]]. apply Hc.
  - exact (IH sources (S pos) c Hin).
Qed.

Lemma due_calls_layers (m : nat) (items : list LayerObject) :
  forall (sources : list value) (pos : nat) (c : update_call),
    In c (due_calls (LayerUpdate m) (fun v => v) pos items sources) ->
    is_layer_call c = true.
Proof.
  induction items as [|lo items IH]; intros [|src sources] pos c Hin;
    simpl in Hin; try contradiction.
  apply in_app_or in Hin as [Hin|Hin].
  - destruct (is_none src); [contradiction|]. destruct Hin as [<-|[]]. reflexivity.
  - exact (IH sources (S pos) c Hin).
Qed.

Lemma map_calls_map (m : nat) (pm : MapObject) (mds : Mapping3.MapDataSources)
    (c : update_call) :
  In c (map_calls m pm mds) -> call_map c = m.
Proof.
  unfold map_calls. intro Hin. apply in_app_or in Hin as [Hin|Hin].
  - exact (due_calls_map m LayerUpdate _ _ (fun _ _ => eq_refl) _ _ c Hin).
  - exact (due_calls_map m TableUpdate _ _ (fun _ _ => eq_refl) _ _ c Hin).
Qed.

(** The updates of a prefix of the maps are updates on these maps. *)
Lemma project_calls_range (project : list MapObject) :
  forall (data_sources : list Mapping3.MapDataSources) (m : nat) (c : update_call),
    In c (project_calls m project data_sources) ->
    m <= call_map c < m + List.length project.
Proof.
  induction project as [|pm project IH]; intros [|mds data_sources] m c Hin;
    simpl in Hin; try contradiction.
  apply in_app_or in Hin as [Hin|Hin].
  - rewrite (map_calls_map m pm mds c Hin). simpl. lia.
  - specialize (IH data_sources (S m) c Hin). simpl. lia.
Qed.

(** A layer whose replacement is not [None] has its update among the
    updates due. *)
Lemma due_calls_in (call : nat -> value -> update_call) (props : value -> value)
    (items : list LayerObject) :
  forall (sources : list value) (pos k : nat) (src : value),
    k < List.length items -> nth_error sources k = Some src -> is_none src = false ->
    In (call (pos + k) (props src)) (due_calls call props pos items sources).
Proof.
  induction items as [|lo items IH]; intros [|s0 sources] pos [|k] src Hk Hn Hs;
    simpl in Hk, Hn; try lia; try discriminate.
  - injection Hn as ->. cbn [due_calls]. rewrite Hs, Nat.add_0_r.
    left. reflexivity.
  - cbn [due_calls]. apply in_or_app. right.
    replace (pos + S k) with (S pos + k) by lia.
    apply IH; [lia | exact Hn | exact Hs].
Qed.

(** C6, amended: when the maps before it were given replacements that fit,
    a map whose replacement for the layers is not a list of the length of
    its layer list raises the error before any layer or table of that map
    is updated: the updates made are those of the maps before it.  A map
    whose replacement for the tables is a list of another length than its
    table list raises the error before any table of that map is updated,
    after the layers of that map have had their updates: the updates made
    are those of the maps before it followed by one update for each layer
    of the map whose replacement is not [None], in the order of the
    layers. *)
Theorem length_mismatch_is_fatal
    (pre post : list MapObject) (pm : MapObject)
    (pre_ds post_ds : list Mapping3.MapDataSources) (mds : Mapping3.MapDataSources) :
  fits pre pre_ds = true ->
  has_key "layers" mds = true ->
  has_key "tableViews" mds = true ->
  let m := List.length pre in
  let run := Mapping3.change_data_sources (pre ++ pm :: post) (pre_ds ++ mds :: post_ds) in
  (layers_mismatch pm mds = true ->
   run = (project_calls 0 pre pre_ds, Raise layers_error) /\
   forall c, In c (fst run) -> call_map c <> m)
  /\
  (layers_mismatch pm mds = false -> tables_mismatch pm mds = true ->
   run = (project_calls 0 pre pre_ds
          ++ due_calls (LayerUpdate m) (fun v => v) 0 (listLayers pm)
                       (sources_of "layers" mds),
          Raise tables_error) /\
   (forall k src,
       k < List.length (listLayers pm) ->
       nth_error (sources_of "layers" mds) k = Some src -> is_none src = false ->
       In (LayerUpdate m k src) (fst run)) /\
   forall c, In c (fst run) -> call_map c = m -> is_layer_call c = true).
Proof.
  intros Hf Hkl Hkt m run.
  assert (Hrun : run =
    match Mapping3.maps_loop m ((Some pm, Some mds) :: Mapping3.zip_longest post post_ds)
            (Mapping3.mkRw (project_failures pre pre_ds) (project_calls 0 pre pre_ds)) with
    | (st, Raise e) => (Mapping3.calls st, Raise e)
    | (st, Ok _) =>
        if negb (Nat.eqb (List.length (Mapping3.errors st)) 0)
        then (Mapping3.calls st,
              Raise (ChangeDataSourcesError
                       "A number of errors were encountered whilst change layer data sources."
                       (Some (Mapping3.errors st))))
        else (Mapping3.calls st, Ok tt)
    end).
  { unfold run, Mapping3.change_data_sources.
    rewrite (maps_loop_prefix pre pre_ds 0 (Mapping3.mkRw [] []) (pm :: post) (mds :: post_ds) Hf).
    reflexivity. }
  cbn [Mapping3.maps_loop] in Hrun.
  unfold Mapping3.change_map in Hrun. rewrite Hkl, Hkt in Hrun. cbn [negb orb] in Hrun.
  split.
  - intro Hm. unfold layers_mismatch in Hm.
    assert (Hrun' : run = (project_calls 0 pre pre_ds, Raise layers_error)).
    { rewrite Hrun. destruct (assoc "layers" mds) as [[ls|]|]; try reflexivity.
      rewrite Hm. reflexivity. }
    rewrite Hrun'. split; [reflexivity|]. cbn [fst]. intros c Hin.
    apply project_calls_range in Hin. fold m in Hin. lia.
  - intros Hl Ht. unfold layers_mismatch in Hl. unfold tables_mismatch in Ht.
    unfold sources_of.
    destruct (assoc "layers" mds) as [[ls|]|]; try discriminate.
    destruct (assoc "tableViews" mds) as [[ts|]|]; try discriminate.
    rewrite Hl in Hrun.
    apply negb_false_iff, Nat.eqb_eq in Hl.
    rewrite (update_loop_fits (LayerUpdate m) (fun v => Ok v) (fun v => v)) in Hrun;
      [|exact Hl | reflexivity].
    rewrite Ht in Hrun. cbn [Mapping3.errors Mapping3.calls] in Hrun.
    rewrite Hrun. split; [reflexivity|]. cbn [fst Mapping3.calls]. split.
    + intros k src Hk Hn Hs. apply in_or_app. right.
      exact (due_calls_in (LayerUpdate m) (fun v => v) (listLayers pm) ls 0 k src Hk Hn Hs).
    + intros c Hin Hc. apply in_app_or in Hin as [Hin|Hin].
      * apply project_calls_range in Hin. fold m in Hin. lia.
      * exact (due_calls_layers m _ _ _ c Hin).
Qed.

Lemma length_mismatch_is_fatal_witness :
  Mapping3.change_data_sources (sample_project ++ one_layer_project)
                               (sample_sources ++ one_table_too_many)
  = (project_calls 0 sample_project sample_sources
     ++ due_calls (LayerUpdate 1) (fun v => v) 0
                  [mkLayerObject "L0" (fun _ => Updated false)] [props_a],
     Raise tables_error) /\
  (forall k src,
      k < 1 -> nth_error [props_a] k = Some src -> is_none src = false ->
      In (LayerUpdate 1 k src)
         (fst (Mapping3.change_data_sources (sample_project ++ one_layer_project)
                                            (sample_sources ++ one_table_too_many)))) /\
  forall c,
    In c (fst (Mapping3.change_data_sources (sample_project ++ one_layer_project)
                                            (sample_sources ++ one_table_too_many))) ->
    call_map c = 1 -> is_layer_call c = true.
Proof.
  exact (proj2 (length_mismatch_is_fatal sample_project []
                  (mkMapObject [mkLayerObject "L0" (fun _ => Updated false)] [])
                  sample_sources [] [("layers", Some [props_a]); ("tableViews", Some [VNone])]
                  eq_refl eq_refl eq_refl) eq_refl eq_refl).
Defined.

(** ** The template matcher *)

(** Every criterion of a template is an item of the frozen record: the key
    is there and the frozen value under it equals the value asked for. *)
Definition criteria_hold (criteria : list (string * value)) (item : dict) : Prop :=
  forall k v, In (k, v) criteria ->
              exists fv, In (k, fv) (Mapping3.frozen_items item)
                         /\ Mapping3.eq_frozen v fv = true.

Definition no_match_error : exn :=
  RuntimeError "No matching data source was found for layer".

(** A template that matches every record named Roads and gives no
    connection. *)
Definition roads_unchanged : Mapping3.TemplateSet :=
  Mapping3.mkTemplateSet
    [("matchCriteria", VDict [("name", VStr "Roads")]); ("dataSource", VNone)]
    [("name", VStr "Roads")].

(** C8 fails in strict mode at a template whose payload is [None]: its
    criteria are a subset of the frozen record, and the matcher raises
    instead of returning the payload. *)
Lemma strict_mode_raises_on_none_payload :
  Mapping3.issubset (Mapping3.matchCriteria roads_unchanged)
                    (Mapping3.frozen_items roads_2020) = true
  /\ assoc "dataSource" (Mapping3.template_items roads_unchanged) = Some VNone
  /\ Mapping3.match_new_data_source [roads_unchanged] true (Some roads_2020)
     = Raise no_match_error.
Proof.
  repeat split.
Qed.

Lemma issubset_iff (criteria : list (string * value)) (item : dict) :
  Mapping3.issubset criteria (Mapping3.frozen_items item) = true
  <-> criteria_hold criteria item.
Proof.
  unfold Mapping3.issubset, criteria_hold. rewrite forallb_forall. split.
  - intros H k v Hin. specialize (H (k, v) Hin).
    unfold Mapping3.pair_in in H. apply existsb_exists in H as [[k' fv] [Hin' H]].
    simpl in H. apply andb_prop in H as [Hk Hv]. apply String.eqb_eq in Hk. subst k'.
    exists fv. auto.
  - intros H [k v] Hin. destruct (H k v Hin) as [fv [Hin' Hv]].
    unfold Mapping3.pair_in. apply existsb_exists. exists (k, fv). simpl.
    rewrite String.eqb_refl, Hv. auto.
Qed.

(** The loop over the templates stops at the first one whose criteria
    hold. *)
Lemma find_conn_first (pre : list Mapping3.TemplateSet) (t : Mapping3.TemplateSet)
    (post : list Mapping3.TemplateSet) (item : dict) :
  (forall t', In t' pre -> ~ criteria_hold (Mapping3.matchCriteria t') item) ->
  criteria_hold (Mapping3.matchCriteria t) item ->
  Mapping3.find_conn (pre ++ t :: post) item
  = py_getitem (VDict (Mapping3.template_items t)) "dataSource".
Proof.
  intros Hpre Ht. induction pre as [|t' pre IH]; simpl.
  - apply issubset_iff in Ht. rewrite Ht. reflexivity.
  - destruct (Mapping3.issubset (Mapping3.matchCriteria t') (Mapping3.frozen_items item)) eqn:E.
    + apply issubset_iff in E. exfalso. exact (Hpre t' (or_introl eq_refl) E).
    + apply IH. intros t'' Hin. apply Hpre. right. exact Hin.
Qed.

Lemma find_conn_none (template_sets : list Mapping3.TemplateSet) (item : dict) :
  (forall t, In t template_sets -> ~ criteria_hold (Mapping3.matchCriteria t) item) ->
  Mapping3.find_conn template_sets item = Ok VNone.
Proof.
  induction template_sets as [|t ts IH]; intro H; simpl.
  - reflexivity.
  - destruct (Mapping3.issubset (Mapping3.matchCriteria t) (Mapping3.frozen_items item)) eqn:E.
    + apply issubset_iff in E. exfalso. exact (H t (or_introl eq_refl) E).
    + apply IH. intros t' Hin. apply H. right. exact Hin.
Qed.

Lemma freeze_dict (kv : dict) :
  Mapping3.freeze (VDict kv)
  = Mapping3.FSet (map (fun p => (fst p, Mapping3.freeze (snd p))) kv).
Proof.
  simpl. f_equal. induction kv as [|[k v] kv IH]; simpl; [reflexivity | f_equal; exact IH].
Qed.

(** C8, amended: a dict is frozen into the set of its pairs of key and
    frozen value, a list into the tuple of its frozen elements.  For a
    record, the matcher takes the payload of the first template, in the order
    of declaration, whose criteria are all among the frozen items of the
    record.  It returns that payload; when no template matches, or the
    payload taken is [None], it returns [None], and raises in strict mode
    instead. *)
Theorem match_first_template :
  (forall kv : dict,
      Mapping3.freeze (VDict kv)
      = Mapping3.FSet (map (fun p => (fst p, Mapping3.freeze (snd p))) kv))
  /\ (forall fs : list FieldInfo,
         Mapping3.freeze (VFields fs) = Mapping3.FTuple (map Mapping3.freeze_field fs))
  /\ (forall (pre : list Mapping3.TemplateSet) (t : Mapping3.TemplateSet)
             (post : list Mapping3.TemplateSet) (item : dict) (payload : value)
             (strict : bool),
         (forall t', In t' pre -> ~ criteria_hold (Mapping3.matchCriteria t') item) ->
         criteria_hold (Mapping3.matchCriteria t) item ->
         assoc "dataSource" (Mapping3.template_items t) = Some payload ->
         Mapping3.match_new_data_source (pre ++ t :: post) strict (Some item)
         = if is_none payload && strict then Raise no_match_error else Ok payload)
  /\ (forall (template_sets : list Mapping3.TemplateSet) (item : dict) (strict : bool),
         (forall t, In t template_sets ->
                    ~ criteria_hold (Mapping3.matchCriteria t) item) ->
         Mapping3.match_new_data_source template_sets strict (Some item)
         = if strict then Raise no_match_error else Ok VNone).
Proof.
  split; [exact freeze_dict|]. split; [reflexivity|]. split.
  - intros pre t post item payload strict Hpre Ht Hp.
    unfold Mapping3.match_new_data_source.
    rewrite (find_conn_first pre t post item Hpre Ht). simpl. rewrite Hp. simpl.
    rewrite py_eq_none. reflexivity.
  - intros ts item strict H. unfold Mapping3.match_new_data_source.
    rewrite (find_conn_none ts item H). simpl. reflexivity.
Qed.

(** Two templates: the first asks for the name Rivers, the second for the
    name Roads and gives a connection. *)
Definition rivers_template : Mapping3.TemplateSet :=
  Mapping3.mkTemplateSet
    [("matchCriteria", VDict [("name", VStr "Rivers")]); ("dataSource", props_a)]
    [("name", VStr "Rivers")].
Definition roads_template : Mapping3.TemplateSet :=
  Mapping3.mkTemplateSet
    [("matchCriteria", VDict [("name", VStr "Roads"); ("id", VInt 1)]);
     ("dataSource", VDict [("database", VStr "b.gdb")])]
    [("name", VStr "Roads"); ("id", VInt 1)].

Lemma rivers_criteria_fail : ~ criteria_hold (Mapping3.matchCriteria rivers_template) roads_2020.
Proof.
  intro H. apply issubset_iff in H. discriminate H.
Defined.

Lemma roads_criteria_hold : criteria_hold (Mapping3.matchCriteria roads_template) roads_2020.
Proof.
  apply issubset_iff. reflexivity.
Defined.

Lemma match_first_template_witness :
  Mapping3.match_new_data_source [rivers_template; roads_template; roads_unchanged]
                                 true (Some roads_2020)
  = Ok (VDict [("database", VStr "b.gdb")])
  /\ Mapping3.match_new_data_source [rivers_template] false (Some roads_2020) = Ok VNone.
Proof.
  destruct match_first_template as (_ & _ & Hfirst & Hnone). split.
  - apply (Hfirst [rivers_template] roads_template [roads_unchanged] roads_2020
                  (VDict [("database", VStr "b.gdb")]) true).
    + intros t' [<-|[]]. exact rivers_criteria_fail.
    + exact roads_criteria_hold.
    + reflexivity.
  - apply (Hnone [rivers_template] roads_2020 false).
    intros t [<-|[]]. exact rivers_criteria_fail.
Defined.

(** ** The correlation of the layers *)

(** The value under a key of a record. *)
Definition look (k : string) (x : value) : option value :=
  match x with
  | VDict d => assoc k d
  | _ => None
  end.

Definition name_of (x : value) : option string :=
  match look "name" x with
  | Some (VStr n) => Some n
  | _ => None
  end.

(** [eq(a, b, k)] on two records. *)
Definition same_at (k : string) (a b : value) : bool :=
  match look k a, look k b with
  | Some x, Some y => py_eq y x
  | _, _ => false
  end.

(** A layer record of the data model: a dict with a name that is a string;
    its id, if any, is a scalar; its fields, if any, are a field list. *)
Definition layer_ok (x : value) : bool :=
  match x with
  | VDict d =>
      match assoc "name" d with Some (VStr _) => true | _ => false end
      && match assoc "id" d with Some v => hashable v | None => true end
      && match assoc "fields" d with
         | Some (VFields _) => true
         | Some _ => false
         | None => true
         end
  | _ => false
  end.

(** No two records of the list agree on the key. *)
Fixpoint distinct_at (k : string) (l : list value) : bool :=
  match l with
  | [] => true
  | x :: r => forallb (fun y => negb (same_at k x y)) r && distinct_at k r
  end.

(** A pool of one snapshot as the data model has it: layer records, with
    names that differ and ids that differ. *)
Definition pool_ok (l : list value) : bool :=
  forallb layer_ok l && distinct_at "name" l && distinct_at "id" l.

Definition matched_a (s : cstate) (i : nat) : bool :=
  existsb (fun p => Nat.eqb (fst p) i) (pairs s).
Definition matched_b (s : cstate) (j : nat) : bool :=
  existsb (fun p => Nat.eqb (snd p) j) (pairs s).

(** The name of a record is among the keys of a dict of resolved names. *)
Definition rmem (n : string) (resolved : list value) : bool :=
  existsb (py_eq (VStr n)) resolved.

(** What C2 says of the variables when the loops are left: no layer is
    matched twice; [added] holds the after-layers that were not matched and
    [removed] the before-layers that were not matched, each once; the two
    members of a matched pair are resolved. *)
Definition partitioned (a_layers b_layers : list value) (s : cstate) : Prop :=
  NoDup (map fst (pairs s)) /\ NoDup (map snd (pairs s))
  /\ added s = filter (fun j => negb (matched_b s j)) (seq 0 (List.length b_layers))
  /\ removed s
     = map snd (filter (fun p => negb (matched_a s (fst p)))
                       (combine (seq 0 (List.length a_layers)) a_layers))
  /\ (forall i j n, In (i, j) (pairs s) ->
                    name_of (nth i a_layers VNone) = Some n ->
                    rmem n (resolved_a s) = true)
  /\ (forall i j n, In (i, j) (pairs s) ->
                    name_of (nth j b_layers VNone) = Some n ->
                    rmem n (resolved_b s) = true).

Definition layer_A : value := VDict [("name", VStr "A")].

(** On pools of records the partition fails when two layers of a pool
    have one name: the second of them is neither matched nor removed. *)
Lemma same_name_layer_lost :
  ~ partitioned [layer_A; layer_A] [] (fst (Mapping3.correlate [layer_A; layer_A] [])).
Proof.
  intros (_ & _ & _ & H & _). vm_compute in H. discriminate H.
Qed.

(** *** Decimal writing of field indexes *)

Lemma py_int_str_of_int (z : Z) : py_int (str_of_int z) = Ok z.
Proof.
  unfold py_int, str_of_int.
  rewrite NilZero.isi.
  - rewrite DecimalZ.of_to. reflexivity.
  - destruct z; simpl; try discriminate.
    intro H. injection H as H. exact (DecimalPos.Unsigned.to_uint_nonnil _ H).
  - destruct z; simpl; try discriminate.
    intro H. injection H as H. exact (DecimalPos.Unsigned.to_uint_nonnil _ H).
Qed.

Fixpoint no_bar (s : string) : bool :=
  match s with
  | EmptyString => true
  | String c r => negb (Ascii.eqb c "|") && no_bar r
  end.

Lemma split_bar_head_app (s rest : string) :
  no_bar s = true -> split_bar_head (s ++ String "|" rest)%string = s.
Proof.
  induction s as [|c s IH]; simpl; intro H.
  - reflexivity.
  - apply andb_prop in H as [Hc Hs]. apply negb_true_iff in Hc. rewrite Hc.
    f_equal. exact (IH Hs).
Qed.

Lemma no_bar_uint (d : uint) : no_bar (NilEmpty.string_of_uint d) = true.
Proof.
  induction d; simpl; auto.
Qed.

Lemma no_bar_str_of_int (z : Z) : no_bar (str_of_int z) = true.
Proof.
  unfold str_of_int, NilZero.string_of_int, NilZero.string_of_uint.
  destruct (Z.to_int z) as [d|d]; destruct d; simpl; auto using no_bar_uint.
Qed.

Lemma unhash_hash (f : FieldInfo) :
  Mapping3.unhash (Mapping3.hash f) = str_of_int (f_index f).
Proof.
  unfold Mapping3.unhash, Mapping3.hash.
  change ("|" ++ f_name f ++ "|" ++ str_of_bool (f_visible f))%string
    with (String "|" (f_name f ++ "|" ++ str_of_bool (f_visible f))%string).
  apply split_bar_head_app, no_bar_str_of_int.
Qed.

(** [inflate] finds a field for the hash of every field of the list. *)
Lemma inflate_member (fs : list FieldInfo) (f : FieldInfo) :
  In f fs ->
  exists f', Mapping3.inflate (VFields fs) (Mapping3.unhash (Mapping3.hash f)) = Ok f'.
Proof.
  intro Hin. rewrite unhash_hash.
  destruct fs as [|f0 fs]; [contradiction|].
  unfold Mapping3.inflate. rewrite py_int_str_of_int. cbn [bind].
  destruct (filter (fun x => Z.eqb (f_index x) (f_index f)) (f0 :: fs)) as [|x l] eqn:E.
  - exfalso. assert (H : In f (filter (fun x => Z.eqb (f_index x) (f_index f)) (f0 :: fs))).
    { apply filter_In. split; [exact Hin | apply Z.eqb_refl]. }
    rewrite E in H. exact H.
  - exists x. reflexivity.
Qed.

Lemma mapM_ok {A B : Type} (f : A -> result B) (l : list A) :
  (forall x, In x l -> exists y, f x = Ok y) -> exists ys, mapM f l = Ok ys.
Proof.
  induction l as [|x l IH]; intro H; simpl.
  - exists []. reflexivity.
  - destruct (H x (or_introl eq_refl)) as [y Hy]. rewrite Hy. simpl.
    destruct (IH (fun x' Hx' => H x' (or_intror Hx'))) as [ys Hys]. rewrite Hys.
    exists (y :: ys). reflexivity.
Qed.

Lemma set_difference_incl (l1 l2 : list string) (x : string) :
  In x (set_difference l1 l2) -> In x l1.
Proof.
  unfold set_difference. intro H. apply nodup_In, filter_In in H. tauto.
Qed.

Lemma inflate_all (fs : list FieldInfo) (other : list string) :
  exists l,
    mapM (fun x => ak <- Ok (VFields fs) ;; Mapping3.inflate ak x)
         (map Mapping3.unhash (set_difference (map Mapping3.hash fs) other)) = Ok l.
Proof.
  apply mapM_ok. intros x Hx. apply in_map_iff in Hx as [h [<- Hh]].
  apply set_difference_incl, in_map_iff in Hh as [f [<- Hf]].
  simpl. exact (inflate_member fs f Hf).
Qed.

(** *** [_layer_diff] on layer records *)

Lemma test_prop_scalar_ok (da db : dict) (k : string) (v : Z) :
  exists es, Mapping3.test_prop (VDict da) (VDict db) (mkPropTest k v None) = Ok es.
Proof.
  unfold Mapping3.test_prop, Mapping3._express_diff, Mapping3.eq, and_then; simpl.
  unfold has_key.
  destruct (assoc k da) as [x|]; destruct (assoc k db) as [y|]; simpl; eauto.
  destruct (py_eq y x); simpl; eauto.
Qed.

Lemma test_prop_fields_ok (da db : dict) (v : Z) :
  layer_ok (VDict da) = true -> layer_ok (VDict db) = true ->
  exists es, Mapping3.test_prop (VDict da) (VDict db) (mkPropTest "fields" v (Some true))
             = Ok es.
Proof.
  unfold layer_ok. intros Ha Hb.
  apply andb_prop in Ha as [_ Ha]. apply andb_prop in Hb as [_ Hb].
  unfold Mapping3.test_prop, Mapping3._express_diff, and_then; simpl.
  unfold has_key.
  destruct (assoc "fields" da) as [[| | | | |fa|]|]; try discriminate;
    destruct (assoc "fields" db) as [[| | | | |fb|]|]; try discriminate; simpl; eauto.
  destruct (set_eqb (map Mapping3.hash fa) (map Mapping3.hash fb)); simpl; eauto.
  destruct (inflate_all fa (map Mapping3.hash fb)) as [wa Hwa].
  destruct (inflate_all fb (map Mapping3.hash fa)) as [wb Hwb].
  simpl in Hwa, Hwb. rewrite Hwa, Hwb. simpl. eauto.
Qed.

Lemma run_tests_ok (a b : value) (ts : list prop_test) :
  (forall t, In t ts -> exists es, Mapping3.test_prop a b t = Ok es) ->
  forall diff, exists d, Mapping3.run_tests a b ts diff = Ok d.
Proof.
  induction ts as [|t ts IH]; intros H diff; simpl.
  - eauto.
  - destruct (H t (or_introl eq_refl)) as [es Hes]. rewrite Hes. simpl.
    apply IH. intros t' Ht'. apply H. right. exact Ht'.
Qed.

(** On two layer records [_layer_diff] returns a list. *)
Lemma layer_diff_ok (a b : value) :
  layer_ok a = true -> layer_ok b = true ->
  exists d, Mapping3._layer_diff a b = Ok d.
Proof.
  intros Ha Hb. destruct a as [| | | |da| |]; try discriminate.
  destruct b as [| | | |db| |]; try discriminate.
  apply run_tests_ok. unfold Mapping3.tests.
  intros t [<-|[<-|[<-|[<-|[<-|[<-|[<-|[<-|[<-|[<-|[]]]]]]]]]]];
    auto using test_prop_scalar_ok, test_prop_fields_ok.
Qed.

(** *** Equality of names and ids *)

Lemma py_eq_sym (x y : value) :
  hashable x = true -> hashable y = true -> py_eq x y = py_eq y x.
Proof.
  destruct x, y; simpl; intros; try reflexivity; try discriminate.
  - destruct b, b0; reflexivity.
  - apply Z.eqb_sym.
  - apply Z.eqb_sym.
  - apply Z.eqb_sym.
  - apply String.eqb_sym.
Qed.

Lemma py_eq_trans (x y z : value) :
  hashable x = true -> hashable y = true -> hashable z = true ->
  py_eq x y = true -> py_eq y z = true -> py_eq x z = true.
Proof.
  destruct x, y, z; cbn [py_eq hashable]; intros Hx Hy Hz H1 H2;
    try discriminate; try reflexivity;
    rewrite ?Z.eqb_eq, ?String.eqb_eq, ?Bool.eqb_true_iff in *;
    repeat match goal with b : bool |- _ => destruct b end; cbn [Z.b2z] in *;
    try congruence; try lia.
Qed.

Lemma key_hashable (k : string) (x v : value) :
  layer_ok x = true -> k = "id" \/ k = "name" -> look k x = Some v -> hashable v = true.
Proof.
  destruct x as [| | | |d| |]; try discriminate. unfold layer_ok, look.
  intros H [-> | ->] Hl; rewrite Hl in H.
  - apply andb_prop in H as [H _]. apply andb_prop in H as [_ H]. exact H.
  - destruct v; try discriminate. reflexivity.
Qed.

Lemma same_at_sym (k : string) (a b : value) :
  layer_ok a = true -> layer_ok b = true -> k = "id" \/ k = "name" ->
  same_at k a b = same_at k b a.
Proof.
  intros Ha Hb Hk. unfold same_at.
  destruct (look k a) as [x|] eqn:Ex; destruct (look k b) as [y|] eqn:Ey; try reflexivity.
  apply py_eq_sym; eauto using key_hashable.
Qed.

Lemma same_at_trans (k : string) (a b c : value) :
  layer_ok a = true -> layer_ok b = true -> layer_ok c = true ->
  k = "id" \/ k = "name" ->
  same_at k a b = true -> same_at k b c = true -> same_at k a c = true.
Proof.
  intros Ha Hb Hc Hk. unfold same_at.
  destruct (look k a) as [x|] eqn:Ex; destruct (look k b) as [y|] eqn:Ey;
    destruct (look k c) as [z|] eqn:Ez; try discriminate.
  intros H1 H2. apply (py_eq_trans z y x); eauto using key_hashable.
Qed.

Lemma layer_ok_name (x : value) :
  layer_ok x = true -> exists d n, x = VDict d /\ name_of x = Some n.
Proof.
  destruct x as [| | | |d| |]; try discriminate. unfold layer_ok, name_of, look.
  intro H. apply andb_prop in H as [H _]. apply andb_prop in H as [H _].
  destruct (assoc "name" d) as [[| | |n| | |]|]; try discriminate. eauto.
Qed.

Lemma same_name_eqb (a b : value) (na nb : string) :
  name_of a = Some na -> name_of b = Some nb -> same_at "name" a b = String.eqb nb na.
Proof.
  unfold name_of, same_at.
  destruct (look "name" a) as [[| | |x| | |]|]; try discriminate.
  destruct (look "name" b) as [[| | |y| | |]|]; try discriminate.
  intros [= ->] [= ->]. reflexivity.
Qed.

(** Records that differ on a key, by position. *)
Lemma distinct_at_nth (k : string) (l : list value) :
  distinct_at k l = true ->
  forall i j, i < j -> j < List.length l ->
              same_at k (nth i l VNone) (nth j l VNone) = false.
Proof.
  induction l as [|x l IH]; intros H i j Hij Hj; simpl in Hj; [lia|].
  simpl in H. apply andb_prop in H as [Hx Hl].
  destruct j as [|j]; [lia|]. destruct i as [|i]; simpl.
  - rewrite forallb_forall in Hx. apply negb_true_iff, Hx, nth_In. lia.
  - apply IH; [exact Hl | lia | lia].
Qed.

Lemma distinct_positions (k : string) (l : list value) :
  forallb layer_ok l = true -> distinct_at k l = true -> k = "id" \/ k = "name" ->
  forall i j, i < List.length l -> j < List.length l ->
              same_at k (nth i l VNone) (nth j l VNone) = true -> i = j.
Proof.
  intros Hok Hd Hk i j Hi Hj H.
  assert (Hn : forall n, n < List.length l -> layer_ok (nth n l VNone) = true).
  { intros n Hn. rewrite forallb_forall in Hok. apply Hok, nth_In, Hn. }
  destruct (Nat.lt_trichotomy i j) as [Hlt|[Heq|Hgt]]; [|exact Heq|].
  - rewrite (distinct_at_nth k l Hd i j Hlt Hj) in H. discriminate.
  - rewrite same_at_sym in H by auto.
    rewrite (distinct_at_nth k l Hd j i Hgt Hi) in H. discriminate.
Qed.

(** *** Records that differ by their ['diff'] only *)

Definition same_core (x y : value) : Prop :=
  exists dx dy, x = VDict dx /\ y = VDict dy /\
                forall k, k <> "diff" -> assoc k dx = assoc k dy.

Lemma assoc_set_key_other {A : Type} (k k' : string) (v : A) (d : list (string * A)) :
  k <> k' -> assoc k (set_key k' v d) = assoc k d.
Proof.
  intro Hk. induction d as [|[k0 v0] d IH]; simpl.
  - destruct (String.eqb_spec k k'); [contradiction | reflexivity].
  - destruct (String.eqb_spec k' k0) as [->|Hne]; simpl.
    + destruct (String.eqb_spec k k0); [contradiction | reflexivity].
    + destruct (String.eqb_spec k k0); [reflexivity | exact IH].
Qed.

Lemma same_core_refl (d : dict) : same_core (VDict d) (VDict d).
Proof. exists d, d. auto. Qed.

Lemma same_core_set_diff (x : value) (d : dict) (v : value) :
  same_core x (VDict d) -> same_core x (VDict (set_key "diff" v d)).
Proof.
  intros (dx & dy & -> & [= <-] & H). exists dx, (set_key "diff" v d).
  repeat split. intros k Hk. rewrite assoc_set_key_other by exact Hk. auto.
Qed.

Lemma same_core_look (x y : value) (k : string) :
  same_core x y -> k <> "diff" -> look k y = look k x.
Proof.
  intros (dx & dy & -> & -> & H) Hk. simpl. symmetry. auto.
Qed.

Lemma same_core_layer_ok (x y : value) :
  same_core x y -> layer_ok y = layer_ok x.
Proof.
  intros (dx & dy & -> & -> & H). unfold layer_ok.
  rewrite !H by discriminate. reflexivity.
Qed.

Lemma same_core_same_at (x y a : value) (k : string) :
  same_core x y -> k <> "diff" -> same_at k a y = same_at k a x.
Proof.
  intros Hc Hk. unfold same_at. rewrite (same_core_look x y k Hc Hk). reflexivity.
Qed.

Lemma same_core_name (x y : value) : same_core x y -> name_of y = name_of x.
Proof.
  intro Hc. unfold name_of. rewrite (same_core_look x y "name" Hc) by discriminate.
  reflexivity.
Qed.

(** *** The statements of the loop on layer records *)

Lemma eq_dict (da db : dict) (k : string) :
  Mapping3.eq (VDict da) (VDict db) k = Ok (same_at k (VDict da) (VDict db)).
Proof.
  unfold Mapping3.eq, and_then, same_at, has_key; simpl. unfold has_key.
  destruct (assoc k da); destruct (assoc k db); reflexivity.
Qed.

(** [resolved[x['name']] = True] on the keys. *)
Definition radd (n : string) (resolved : list value) : list value :=
  if rmem n resolved then resolved else resolved ++ [VStr n].

Lemma rmem_radd (n n' : string) (r : list value) :
  rmem n' (radd n r) = rmem n' r || String.eqb n' n.
Proof.
  unfold radd. destruct (rmem n r) eqn:E.
  - destruct (String.eqb_spec n' n) as [->|]; [rewrite E|rewrite orb_false_r]; reflexivity.
  - unfold rmem. rewrite existsb_app. simpl. rewrite orb_false_r. reflexivity.
Qed.

Lemma is_resolved_spec (r : list value) (x : value) (n : string) :
  name_of x = Some n -> is_resolved r x = Ok (rmem n r).
Proof.
  unfold name_of, look, is_resolved, py_getitem.
  destruct x as [| | | |d| |]; try discriminate.
  destruct (assoc "name" d) as [[| | |m| | |]|]; try discriminate.
  intros [= ->]. reflexivity.
Qed.

Lemma mark_spec (r : list value) (x : value) (n : string) :
  name_of x = Some n -> mark r x = Ok (radd n r).
Proof.
  unfold name_of, look, mark, py_getitem.
  destruct x as [| | | |d| |]; try discriminate.
  destruct (assoc "name" d) as [[| | |m| | |]|]; try discriminate.
  intros [= ->]. reflexivity.
Qed.

(** The object of a matched after-layer, once its diff is stored. *)
Definition with_diff (b : value) (d : list diff_entry) : value :=
  match b with
  | VDict db => VDict (set_key "diff" (VDiff d) db)
  | _ => b
  end.

(** The variables after the statements run on a match of the before-layer
    at [i], named [na], with the after-layer at [j], named [nb]. *)
Definition fire_state (i j : nat) (na nb : string) (d : list diff_entry)
    (stop : bool) (s : cstate) : cstate :=
  mkState (added s)
          (if stop then updated s ++ [j] else updated s)
          (removed s)
          (radd na (resolved_a s))
          (radd nb (resolved_b s))
          (set_nth j (with_diff (nth j (b_objs s) VNone) d) (b_objs s))
          (pairs s ++ [(i, j)]).

Section Partition.

Variable eqf : value -> value -> string -> result bool.
Variable ld : value -> value -> result (list diff_entry).

Hypothesis eqf_dict :
  forall (da db : dict) (k : string),
    eqf (VDict da) (VDict db) k = Ok (same_at k (VDict da) (VDict db)).
Hypothesis ld_ok :
  forall a b, layer_ok a = true -> layer_ok b = true -> exists d, ld a b = Ok d.

Lemma on_match_spec (i j : nat) (a : value) (t : match_test) (s : cstate)
    (na nb : string) :
  layer_ok a = true -> name_of a = Some na ->
  layer_ok (nth j (b_objs s) VNone) = true ->
  name_of (nth j (b_objs s) VNone) = Some nb ->
  exists d,
    let stop := negb (match ignore t with Some f => f | None => false end)
                || Nat.ltb 0 (List.length d) in
    Correlation.on_match ld i a j t s = (fire_state i j na nb d stop s, Ok stop).
Proof.
  intros Ha Hna Hb Hnb.
  destruct (ld_ok a _ Ha Hb) as [d Hd]. exists d. intro stop.
  unfold Correlation.on_match.
  cbv [mbind modify gets lift get_b ret log_pair set_resolved_a set_resolved_b
       set_b_obj append_updated added updated removed resolved_a resolved_b
       b_objs pairs].
  rewrite (mark_spec _ a na Hna).
  change (match s with mkState _ _ _ _ _ o _ => o end) with (b_objs s).
  rewrite (mark_spec _ _ nb Hnb). rewrite Hd.
  destruct (nth j (b_objs s) VNone) as [| | | |db| |] eqn:Eb; try discriminate.
  cbn [py_setitem]. fold stop. unfold fire_state. rewrite Eb. cbn [with_diff].
  destruct stop; destruct s; reflexivity.
Qed.


Lemma tests_loop_cons (i j : nat) (a : value) (t : match_test) (r : list match_test)
    (m : bool) (s : cstate) :
  Correlation.tests_loop ld i a j (t :: r) m s
  = match fn t (resolved_a s) (resolved_b s) a (nth j (b_objs s) VNone) with
    | Raise e => (s, Raise e)
    | Ok mv =>
        if is_none mv then Correlation.tests_loop ld i a j r false s
        else match Correlation.on_match ld i a j t s with
             | (s', Ok stop) =>
                 if stop then (s', Ok true)
                 else Correlation.tests_loop ld i a j r true s'
             | (s', Raise e) => (s', Raise e)
             end
    end.
Proof.
  cbn [Correlation.tests_loop]. cbv [mbind gets get_b lift ret].
  destruct (fn t (resolved_a s) (resolved_b s) a (nth j (b_objs s) VNone)) as [mv|e];
    [|reflexivity].
  destruct (is_none mv); [reflexivity|].
  destruct (Correlation.on_match ld i a j t s) as [s' [stop|e]]; [|reflexivity].
  destruct stop; reflexivity.
Qed.

(** Neither record has its name among the resolved names. *)
Definition free (ra rb : list value) (na nb : string) : bool :=
  negb (rmem na ra) && negb (rmem nb rb).

Lemma unresolved_spec (ra rb : list value) (a b : value) (na nb : string) :
  name_of a = Some na -> name_of b = Some nb ->
  Correlation.unresolved ra rb a b = Ok (free ra rb na nb).
Proof.
  intros Ha Hb. unfold Correlation.unresolved, and_then, not_, free.
  rewrite (is_resolved_spec ra a na Ha), (is_resolved_spec rb b nb Hb). simpl.
  destruct (rmem na ra); reflexivity.
Qed.

(** A matcher that asks for both layers to be unresolved and is not
    flagged ['ignore']; [g] is what it asks of the two records. *)
Definition guarded (t : match_test) (g : value -> value -> bool) : Prop :=
  ignore t = None /\
  forall ra rb a b na nb,
    layer_ok a = true -> layer_ok b = true ->
    name_of a = Some na -> name_of b = Some nb ->
    fn t ra rb a b = Ok (if g a b && free ra rb na nb then b else VNone).

Definition guards : list (value -> value -> bool) :=
  [ (fun a b => same_at "id" a b && same_at "name" a b);
    (fun a b => same_at "id" a b && same_at "datasetName" a b);
    (fun a b => same_at "id" a b);
    (fun a b => same_at "name" a b && same_at "datasetName" a b);
    (fun a b => same_at "name" a b) ].

Lemma and_then_ok (x y : bool) : and_then (Ok x) (Ok y) = Ok (x && y).
Proof. destruct x; reflexivity. Qed.

Lemma tests_guarded : Forall2 guarded (tl (Correlation.tests eqf)) guards.
Proof.
  unfold Correlation.tests, guards. cbn [tl].
  repeat constructor; cbn [ignore fn]; try reflexivity;
    intros ra rb a b na nb Ha Hb Hna Hnb;
    destruct (layer_ok_name a Ha) as (da & _ & -> & _);
    destruct (layer_ok_name b Hb) as (db & _ & -> & _);
    unfold Correlation.same_id, Correlation.same_name, Correlation.same_datasource,
      Correlation.b_if;
    rewrite ?eqf_dict, (unresolved_spec ra rb _ _ na nb Hna Hnb), ?and_then_ok;
    rewrite ?andb_assoc; reflexivity.
Qed.

Lemma first_test_spec (ra rb : list value) (da db : dict) :
  ignore (hd (mkTest (fun _ _ _ _ => Ok VNone) "" None) (Correlation.tests eqf)) = Some true
  /\ fn (hd (mkTest (fun _ _ _ _ => Ok VNone) "" None) (Correlation.tests eqf))
        ra rb (VDict da) (VDict db)
     = Ok (if same_at "id" (VDict da) (VDict db) && same_at "name" (VDict da) (VDict db)
              && same_at "datasetName" (VDict da) (VDict db)
           then VDict db else VNone).
Proof.
  split; [reflexivity|]. cbn [Correlation.tests hd fn].
  unfold Correlation.same_id, Correlation.same_name, Correlation.same_datasource,
    Correlation.b_if.
  rewrite !eqf_dict, !and_then_ok, andb_assoc. reflexivity.
Qed.

Lemma nth_inbounds (j : nat) (l : list value) :
  layer_ok (nth j l VNone) = true -> j < List.length l.
Proof.
  intro H. destruct (Nat.lt_ge_cases j (List.length l)) as [Hlt|Hge]; [exact Hlt|].
  rewrite nth_overflow in H by exact Hge. discriminate.
Qed.

Lemma nth_set_nth_same {A : Type} (j : nat) (x d : A) (l : list A) :
  j < List.length l -> nth j (set_nth j x l) d = x.
Proof.
  revert j. induction l as [|y l IH]; intros [|j] H; simpl in *; try lia.
  - reflexivity.
  - apply IH. lia.
Qed.

Lemma nth_set_nth_other {A : Type} (j j' : nat) (x d : A) (l : list A) :
  j' <> j -> nth j' (set_nth j x l) d = nth j' l d.
Proof.
  revert j j'. induction l as [|y l IH]; intros [|j] [|j'] H; simpl; try reflexivity;
    try contradiction.
  apply IH. lia.
Qed.

Lemma length_set_nth {A : Type} (j : nat) (x : A) (l : list A) :
  List.length (set_nth j x l) = List.length l.
Proof.
  revert j. induction l as [|y l IH]; intros [|j]; simpl; auto.
Qed.

(** The matchers that ask for unresolved layers, on two layer records: the
    first whose condition holds stores the match and leaves the loop. *)
Lemma guarded_loop (i j : nat) (a : value) (na nb : string)
    (ts : list match_test) (gs : list (value -> value -> bool)) :
  Forall2 guarded ts gs ->
  forall (m : bool) (s : cstate),
    layer_ok a = true -> name_of a = Some na ->
    layer_ok (nth j (b_objs s) VNone) = true ->
    name_of (nth j (b_objs s) VNone) = Some nb ->
    if free (resolved_a s) (resolved_b s) na nb
       && existsb (fun g => g a (nth j (b_objs s) VNone)) gs
    then exists d, Correlation.tests_loop ld i a j ts m s
                   = (fire_state i j na nb d true s, Ok true)
    else Correlation.tests_loop ld i a j ts m s
         = (s, Ok (match ts with [] => m | _ => false end)).
Proof.
  induction 1 as [|t g ts gs [Hign Hfn] _ IH]; intros m s Ha Hna Hb Hnb.
  - cbn [existsb]. rewrite andb_false_r. reflexivity.
  - rewrite tests_loop_cons, (Hfn _ _ a _ na nb Ha Hb Hna Hnb).
    cbn [existsb]. specialize (IH false s Ha Hna Hb Hnb).
    destruct (free (resolved_a s) (resolved_b s) na nb);
      destruct (g a (nth j (b_objs s) VNone)); cbn [andb orb] in *.
    + destruct (layer_ok_name _ Hb) as (db & _ & Eb & _).
      replace (is_none (nth j (b_objs s) VNone)) with false by (rewrite Eb; reflexivity).
      destruct (on_match_spec i j a t s na nb Ha Hna Hb Hnb) as [d Hd].
      rewrite Hign in Hd. cbn [negb orb] in Hd. rewrite Hd. exists d. reflexivity.
    + cbn [is_none].
      destruct (existsb (fun g0 => g0 a (nth j (b_objs s) VNone)) gs);
        [exact IH | rewrite IH; destruct ts; reflexivity].
    + cbn [is_none]. rewrite IH. destruct ts; reflexivity.
    + cbn [is_none]. rewrite IH. destruct ts; reflexivity.
Qed.

(** Some matcher holds for a before-layer and an after-layer. *)
Definition fires (ra rb : list value) (a b : value) (na nb : string) : bool :=
  (same_at "id" a b && same_at "name" a b && same_at "datasetName" a b)
  || (free ra rb na nb && (same_at "id" a b || same_at "name" a b)).

Lemma with_diff_core (b : value) (d : list diff_entry) :
  layer_ok b = true -> same_core b (with_diff b d).
Proof.
  intro H. destruct (layer_ok_name b H) as (db & _ & -> & _). cbn [with_diff].
  apply same_core_set_diff, same_core_refl.
Qed.

(** The loop over the matchers for one before-layer and one after-layer:
    when a matcher holds, the match is stored once; otherwise nothing
    changes and [match] is [None]. *)
Lemma pair_step (i j : nat) (a : value) (na nb : string) (m : bool) (s : cstate) :
  layer_ok a = true -> name_of a = Some na ->
  layer_ok (nth j (b_objs s) VNone) = true ->
  name_of (nth j (b_objs s) VNone) = Some nb ->
  if fires (resolved_a s) (resolved_b s) a (nth j (b_objs s) VNone) na nb
  then exists d stop m',
      Correlation.tests_loop ld i a j (Correlation.tests eqf) m s
      = (fire_state i j na nb d stop s, Ok m')
  else Correlation.tests_loop ld i a j (Correlation.tests eqf) m s = (s, Ok false).
Proof.
  intros Ha Hna Hb Hnb.
  set (t1 := hd (mkTest (fun _ _ _ _ => Ok VNone) "" None) (Correlation.tests eqf)).
  set (rest := tl (Correlation.tests eqf)).
  pose proof (guarded_loop i j a na nb _ _ tests_guarded false s Ha Hna Hb Hnb) as Hg.
  fold rest in Hg.
  destruct (on_match_spec i j a t1 s na nb Ha Hna Hb Hnb) as [d Hd].
  cbn zeta in Hd. replace (ignore t1) with (Some true) in Hd by reflexivity.
  cbn [negb orb] in Hd.
  pose proof (nth_inbounds j _ Hb) as Hj.
  destruct (layer_ok_name a Ha) as (da & _ & -> & _).
  destruct (layer_ok_name _ Hb) as (db & _ & Edb & _).
  assert (Hstep :
    Correlation.tests_loop ld i (VDict da) j (Correlation.tests eqf) m s
    = if same_at "id" (VDict da) (VDict db) && same_at "name" (VDict da) (VDict db)
         && same_at "datasetName" (VDict da) (VDict db)
      then if Nat.ltb 0 (List.length d)
           then (fire_state i j na nb d true s, Ok true)
           else Correlation.tests_loop ld i (VDict da) j rest true
                  (fire_state i j na nb d false s)
      else Correlation.tests_loop ld i (VDict da) j rest false s).
  { change (Correlation.tests eqf) with (t1 :: rest).
    rewrite tests_loop_cons, Hd, Edb. unfold t1.
    rewrite (proj2 (first_test_spec _ _ da db)). fold t1.
    destruct (same_at "id" (VDict da) (VDict db) && same_at "name" (VDict da) (VDict db)
              && same_at "datasetName" (VDict da) (VDict db)); cbn [is_none];
      [destruct (Nat.ltb 0 (List.length d))|]; reflexivity. }
  rewrite Hstep. clear Hstep. unfold fires. rewrite Edb in *.
  unfold guards in Hg. cbn [existsb] in Hg.
  destruct (same_at "id" (VDict da) (VDict db));
    destruct (same_at "name" (VDict da) (VDict db));
    destruct (same_at "datasetName" (VDict da) (VDict db));
    cbn [andb orb] in *; rewrite ?andb_true_r, ?andb_false_r in *;
    try solve
      [ rewrite Hg; reflexivity
      | destruct (free (resolved_a s) (resolved_b s) na nb);
        match type of Hg with
        | ex _ => destruct Hg as [d' Hg]; exists d', true, true; exact Hg
        | _ = _ => rewrite Hg; reflexivity
        end ].
  (* the first matcher holds *)
  destruct (Nat.ltb 0 (List.length d)); [exists d, true, true; reflexivity|].
  exists d, false, false.
  set (s' := fire_state i j na nb d false s).
  assert (Hobj : nth j (b_objs s') VNone = with_diff (VDict db) d).
  { unfold s', fire_state. cbn [b_objs]. rewrite Edb. apply nth_set_nth_same, Hj. }
  pose proof (with_diff_core (VDict db) d Hb) as Hcore.
  assert (Hb' : layer_ok (nth j (b_objs s') VNone) = true)
    by (rewrite Hobj, (same_core_layer_ok _ _ Hcore); exact Hb).
  assert (Hnb' : name_of (nth j (b_objs s') VNone) = Some nb)
    by (rewrite Hobj, (same_core_name _ _ Hcore); exact Hnb).
  pose proof (guarded_loop i j (VDict da) na nb _ _ tests_guarded true s' Ha Hna Hb' Hnb')
    as Hg'.
  fold rest in Hg'.
  replace (free (resolved_a s') (resolved_b s') na nb) with false in Hg'.
  - cbn [andb] in Hg'. exact Hg'.
  - unfold s', fire_state, free. cbn [resolved_a resolved_b].
    rewrite rmem_radd, String.eqb_refl, orb_true_r. reflexivity.
Qed.


(** *** The invariant of the loop over the after-layers *)

Variables A B : list value.
Hypothesis A_ok : pool_ok A = true.
Hypothesis B_ok : pool_ok B = true.

Lemma pool_layer_ok (l : list value) (n : nat) :
  pool_ok l = true -> n < List.length l -> layer_ok (nth n l VNone) = true.
Proof.
  unfold pool_ok. intros H Hn.
  apply andb_prop in H as [H _]. apply andb_prop in H as [H _].
  rewrite forallb_forall in H. apply H, nth_In, Hn.
Qed.

Lemma pool_distinct (l : list value) (k : string) (i j : nat) :
  pool_ok l = true -> k = "id" \/ k = "name" ->
  i < List.length l -> j < List.length l ->
  same_at k (nth i l VNone) (nth j l VNone) = true -> i = j.
Proof.
  unfold pool_ok. intros H Hk.
  apply andb_prop in H as [H Hid]. apply andb_prop in H as [Hok Hname].
  destruct Hk as [-> | ->]; apply distinct_positions; auto.
Qed.

Lemma name_in_bounds (l : list value) (n : nat) (x : string) :
  name_of (nth n l VNone) = Some x -> n < List.length l.
Proof.
  intro H. destruct (Nat.lt_ge_cases n (List.length l)) as [Hlt|Hge]; [exact Hlt|].
  rewrite nth_overflow in H by exact Hge. discriminate.
Qed.

(** Two layers of one pool with one name are one layer. *)
Lemma pool_same_name (l : list value) (i j : nat) (n : string) :
  pool_ok l = true ->
  name_of (nth i l VNone) = Some n -> name_of (nth j l VNone) = Some n -> i = j.
Proof.
  intros H Hi Hj. apply (pool_distinct l "name"); eauto using name_in_bounds.
  rewrite (same_name_eqb _ _ n n Hi Hj). apply String.eqb_refl.
Qed.

(** A before-layer and an after-layer agree on the id or on the name. *)
Definition linked (a b : value) : bool := same_at "id" a b || same_at "name" a b.

(** Two layers of one pool linked to one layer of the other pool are one
    layer. *)
Lemma linked_same (l l' : list value) (i i' j : nat) :
  pool_ok l = true -> pool_ok l' = true ->
  i < List.length l -> i' < List.length l -> j < List.length l' ->
  same_at "id" (nth i l VNone) (nth j l' VNone) = true ->
  same_at "name" (nth i l VNone) (nth j l' VNone) = true ->
  linked (nth i' l VNone) (nth j l' VNone) = true -> i' = i.
Proof.
  intros Hl Hl' Hi Hi' Hj Hid Hname Hlink.
  pose proof (pool_layer_ok l i Hl Hi) as Oi.
  pose proof (pool_layer_ok l i' Hl Hi') as Oi'.
  pose proof (pool_layer_ok l' j Hl' Hj) as Oj.
  unfold linked in Hlink. apply orb_prop in Hlink as [H|H].
  - apply (pool_distinct l "id"); auto.
    apply (same_at_trans "id" _ (nth j l' VNone)); auto.
    rewrite same_at_sym; auto.
  - apply (pool_distinct l "name"); auto.
    apply (same_at_trans "name" _ (nth j l' VNone)); auto.
    rewrite same_at_sym; auto.
Qed.

Lemma linked_same_r (l l' : list value) (i j j' : nat) :
  pool_ok l = true -> pool_ok l' = true ->
  i < List.length l -> j < List.length l' -> j' < List.length l' ->
  same_at "id" (nth i l VNone) (nth j l' VNone) = true ->
  same_at "name" (nth i l VNone) (nth j l' VNone) = true ->
  linked (nth i l VNone) (nth j' l' VNone) = true -> j' = j.
Proof.
  intros Hl Hl' Hi Hj Hj' Hid Hname Hlink.
  pose proof (pool_layer_ok l i Hl Hi) as Oi.
  pose proof (pool_layer_ok l' j Hl' Hj) as Oj.
  pose proof (pool_layer_ok l' j' Hl' Hj') as Oj'.
  unfold linked in Hlink. apply orb_prop in Hlink as [H|H].
  - apply (pool_distinct l' "id"); auto.
    apply (same_at_trans "id" _ (nth i l VNone)); auto.
    rewrite same_at_sym; auto.
  - apply (pool_distinct l' "name"); auto.
    apply (same_at_trans "name" _ (nth i l VNone)); auto.
    rewrite same_at_sym; auto.
Qed.

Record inv (s : cstate) (j i : nat) : Prop := mkInv {
  inv_objs : Forall2 same_core B (b_objs s);
  inv_removed : removed s = [];
  inv_pairs :
    forall i' j', In (i', j') (pairs s) ->
      i' < List.length A /\ j' < List.length B /\ j' <= j /\ (j' = j -> i' < i)
      /\ linked (nth i' A VNone) (nth j' B VNone) = true;
  inv_nodup_a : NoDup (map fst (pairs s));
  inv_nodup_b : NoDup (map snd (pairs s));
  inv_ra :
    forall n, rmem n (resolved_a s) = true <->
              exists i' j', In (i', j') (pairs s) /\ name_of (nth i' A VNone) = Some n;
  inv_rb :
    forall n, rmem n (resolved_b s) = true <->
              (exists j', j' < j /\ name_of (nth j' B VNone) = Some n)
              \/ (exists i', In (i', j) (pairs s) /\ name_of (nth j B VNone) = Some n);
  inv_added : added s = filter (fun j' => negb (matched_b s j')) (seq 0 j)
}.

Lemma forall2_nth {X Y : Type} (R : X -> Y -> Prop) (l : list X) (l' : list Y)
    (d : X) (d' : Y) :
  Forall2 R l l' -> forall n, n < List.length l -> R (nth n l d) (nth n l' d').
Proof.
  induction 1 as [|x y l l' Hxy _ IH]; intros [|n] Hn; simpl in *; try lia; auto.
  apply IH. lia.
Qed.

Lemma forall2_set_nth {X Y : Type} (R : X -> Y -> Prop) (l : list X) (l' : list Y)
    (d : X) (y : Y) :
  Forall2 R l l' -> forall n, R (nth n l d) y -> Forall2 R l (set_nth n y l').
Proof.
  induction 1 as [|x y0 l l' Hxy H IH]; intros [|n] Hn; simpl in *; constructor; auto.
Qed.

Lemma same_core_all (l : list value) :
  forallb layer_ok l = true -> Forall2 same_core l l.
Proof.
  induction l as [|x l IH]; simpl; intro H; constructor.
  - apply andb_prop in H as [Hx _].
    destruct (layer_ok_name x Hx) as (d & _ & -> & _). apply same_core_refl.
  - apply IH. apply andb_prop in H as [_ H]. exact H.
Qed.

Lemma inv_init : inv (init_state B) 0 0.
Proof.
  constructor; cbn [init_state b_objs removed pairs resolved_a resolved_b added map seq filter].
  - apply same_core_all. pose proof B_ok as H. unfold pool_ok in H.
    apply andb_prop in H as [H _]. apply andb_prop in H as [H _]. exact H.
  - reflexivity.
  - intros i' j' [].
  - constructor.
  - constructor.
  - intro n. split; [discriminate | intros (i' & j' & [] & _)].
  - intro n. split; [discriminate | intros [(j' & Hj & _) | (i' & [] & _)]; lia].
  - reflexivity.
Qed.

Lemma inv_b_obj (s : cstate) (j i : nat) :
  inv s j i -> j < List.length B ->
  same_core (nth j B VNone) (nth j (b_objs s) VNone).
Proof.
  intros H Hj. exact (forall2_nth same_core B (b_objs s) VNone VNone (inv_objs s j i H) j Hj).
Qed.


(** A matcher that holds finds both layers unresolved: the first one, which
    does not ask for it, cannot hold for a layer matched before. *)
Lemma fires_free (s : cstate) (j i : nat) (na nb : string) :
  inv s j i -> i < List.length A -> j < List.length B ->
  name_of (nth i A VNone) = Some na -> name_of (nth j B VNone) = Some nb ->
  fires (resolved_a s) (resolved_b s) (nth i A VNone) (nth j B VNone) na nb = true ->
  free (resolved_a s) (resolved_b s) na nb = true.
Proof.
  intros I Hi Hj Hna Hnb. unfold fires.
  destruct (free (resolved_a s) (resolved_b s) na nb) eqn:F; [reflexivity|].
  rewrite andb_false_l, orb_false_r. intro C.
  apply andb_prop in C as [C _]. apply andb_prop in C as [Hid Hname].
  exfalso. unfold free in F. apply andb_false_iff in F as [F|F]; apply negb_false_iff in F.
  - apply (inv_ra s j i I) in F as (i' & j' & Hin & Hn').
    assert (i' = i) by exact (pool_same_name A i' i na A_ok Hn' Hna). subst i'.
    destruct (inv_pairs s j i I i j' Hin) as (_ & Hj' & Hle & Hlt & Hlink).
    assert (j' = j) by exact (linked_same_r A B i j j' A_ok B_ok Hi Hj Hj' Hid Hname Hlink).
    specialize (Hlt H). lia.
  - apply (inv_rb s j i I) in F as [(j' & Hlt & Hn') | (i' & Hin & _)].
    + assert (j' = j) by exact (pool_same_name B j' j nb B_ok Hn' Hnb). lia.
    + destruct (inv_pairs s j i I i' j Hin) as (Hi' & _ & _ & Hlt & Hlink).
      assert (i' = i) by exact (linked_same A B i i' j A_ok B_ok Hi Hi' Hj Hid Hname Hlink).
      specialize (Hlt eq_refl). lia.
Qed.

Lemma nodup_snoc {X : Type} (l : list X) (x : X) :
  NoDup l -> ~ In x l -> NoDup (l ++ [x]).
Proof.
  induction l as [|y l IH]; intros Hl Hx; simpl.
  - constructor; [intros [] | constructor].
  - inversion Hl as [|? ? Hy Hl']; subst. constructor.
    + intro Hin. apply in_app_or in Hin as [Hin|[<-|[]]]; [exact (Hy Hin)|].
      apply Hx. left. reflexivity.
    + apply IH; [exact Hl'|]. intro Hin. apply Hx. right. exact Hin.
Qed.

Lemma matched_b_in (s : cstate) (j : nat) :
  matched_b s j = true <-> exists i, In (i, j) (pairs s).
Proof.
  unfold matched_b. rewrite existsb_exists. split.
  - intros [[i j'] [Hin H]]. simpl in H. apply Nat.eqb_eq in H. subst. eauto.
  - intros [i Hin]. exists (i, j). split; [exact Hin | apply Nat.eqb_refl].
Qed.

Lemma matched_a_in (s : cstate) (i : nat) :
  matched_a s i = true <-> exists j, In (i, j) (pairs s).
Proof.
  unfold matched_a. rewrite existsb_exists. split.
  - intros [[i' j] [Hin H]]. simpl in H. apply Nat.eqb_eq in H. subst. eauto.
  - intros [j Hin]. exists (i, j). split; [exact Hin | apply Nat.eqb_refl].
Qed.

(** The invariant after a match of the layers at [i] and [j]. *)
Lemma inv_fire (s : cstate) (j i : nat) (na nb : string) (d : list diff_entry)
    (stop : bool) :
  inv s j i -> i < List.length A -> j < List.length B ->
  name_of (nth i A VNone) = Some na -> name_of (nth j B VNone) = Some nb ->
  free (resolved_a s) (resolved_b s) na nb = true ->
  linked (nth i A VNone) (nth j B VNone) = true ->
  inv (fire_state i j na nb d stop s) j (S i).
Proof.
  intros I Hi Hj Hna Hnb F Hlink.
  apply andb_prop in F as [Fa Fb]. apply negb_true_iff in Fa, Fb.
  assert (Hia : ~ In i (map fst (pairs s))).
  { intro Hin. apply in_map_iff in Hin as [[i' j'] [E Hin]]. simpl in E. subst i'.
    assert (H : rmem na (resolved_a s) = true) by (apply (inv_ra s j i I); eauto).
    congruence. }
  assert (Hjb : ~ In j (map snd (pairs s))).
  { intro Hin. apply in_map_iff in Hin as [[i' j'] [E Hin]]. simpl in E. subst j'.
    assert (H : rmem nb (resolved_b s) = true) by (apply (inv_rb s j i I); eauto).
    congruence. }
  constructor; cbn [fire_state b_objs removed pairs resolved_a resolved_b added].
  - apply (forall2_set_nth same_core B (b_objs s) VNone); [exact (inv_objs s j i I)|].
    pose proof (inv_b_obj s j i I Hj) as Hc.
    destruct Hc as (dx & dy & Ex & Ey & Hk). rewrite Ey. cbn [with_diff].
    apply same_core_set_diff. exists dx, dy. auto.
  - exact (inv_removed s j i I).
  - intros i' j' Hin. apply in_app_or in Hin as [Hin|[[= <- <-]|[]]].
    + destruct (inv_pairs s j i I i' j' Hin) as (H1 & H2 & H3 & H4 & H5).
      repeat split; auto. intro E. specialize (H4 E). lia.
    + repeat split; auto.
  - rewrite map_app. apply nodup_snoc; [exact (inv_nodup_a s j i I) | exact Hia].
  - rewrite map_app. apply nodup_snoc; [exact (inv_nodup_b s j i I) | exact Hjb].
  - intro n. rewrite rmem_radd. split.
    + intro H. apply orb_prop in H as [H|H].
      * apply (inv_ra s j i I) in H as (i' & j' & Hin & Hn).
        exists i', j'. split; [apply in_or_app; left; exact Hin | exact Hn].
      * apply String.eqb_eq in H. subst n. exists i, j.
        split; [apply in_or_app; right; left; reflexivity | exact Hna].
    + intros (i' & j' & Hin & Hn). apply in_app_or in Hin as [Hin|[[= <- <-]|[]]].
      * apply orb_true_intro. left. apply (inv_ra s j i I). eauto.
      * apply orb_true_intro. right. rewrite Hna in Hn. injection Hn as <-.
        apply String.eqb_refl.
  - intro n. rewrite rmem_radd. split.
    + intro H. apply orb_prop in H as [H|H].
      * apply (inv_rb s j i I) in H as [H | (i' & Hin & Hn)]; [left; exact H|].
        right. exists i'. split; [apply in_or_app; left; exact Hin | exact Hn].
      * apply String.eqb_eq in H. subst n. right. exists i.
        split; [apply in_or_app; right; left; reflexivity | exact Hnb].
    + intros [H | (i' & Hin & Hn)].
      * apply orb_true_intro. left. apply (inv_rb s j i I). left. exact H.
      * apply orb_true_intro. apply in_app_or in Hin as [Hin|[[= <-]|[]]].
        -- left. apply (inv_rb s j i I). right. eauto.
        -- right. rewrite Hnb in Hn. injection Hn as <-. apply String.eqb_refl.
  - rewrite (inv_added s j i I). apply filter_ext_in. intros j' Hj'.
    apply in_seq in Hj'. unfold matched_b. cbn [fire_state pairs]. rewrite existsb_app.
    cbn [existsb snd]. replace (Nat.eqb j j') with false by (symmetry; apply Nat.eqb_neq; lia).
    rewrite !orb_false_r. reflexivity.
Qed.

(** One before-layer against the after-layer at [j]. *)
Lemma a_step (s : cstate) (j i : nat) (m : bool) :
  inv s j i -> i < List.length A -> j < List.length B ->
  exists s' m',
    Correlation.tests_loop ld i (nth i A VNone) j (Correlation.tests eqf) m s = (s', Ok m')
    /\ inv s' j (S i) /\ (m' = true -> matched_b s' j = true).
Proof.
  intros I Hi Hj.
  pose proof (pool_layer_ok A i A_ok Hi) as Ha.
  pose proof (pool_layer_ok B j B_ok Hj) as HBj.
  pose proof (inv_b_obj s j i I Hj) as Hc.
  destruct (layer_ok_name _ Ha) as (da & na & Ea & Hna).
  destruct (layer_ok_name _ HBj) as (dB & nb & EB & HnB).
  assert (Hb : layer_ok (nth j (b_objs s) VNone) = true)
    by (rewrite (same_core_layer_ok _ _ Hc); exact HBj).
  assert (Hnb : name_of (nth j (b_objs s) VNone) = Some nb)
    by (rewrite (same_core_name _ _ Hc); exact HnB).
  pose proof (pair_step i j (nth i A VNone) na nb m s Ha Hna Hb Hnb) as Hstep.
  assert (Hfires : fires (resolved_a s) (resolved_b s) (nth i A VNone)
                         (nth j (b_objs s) VNone) na nb
                   = fires (resolved_a s) (resolved_b s) (nth i A VNone)
                           (nth j B VNone) na nb).
  { unfold fires. rewrite !(same_core_same_at _ _ _ _ Hc) by discriminate. reflexivity. }
  rewrite Hfires in Hstep.
  destruct (fires (resolved_a s) (resolved_b s) (nth i A VNone) (nth j B VNone) na nb)
    eqn:Ef.
  - destruct Hstep as (d & stop & m' & Hstep). rewrite Hstep.
    pose proof (fires_free s j i na nb I Hi Hj Hna HnB Ef) as F.
    assert (Hlink : linked (nth i A VNone) (nth j B VNone) = true).
    { unfold fires in Ef. unfold linked. rewrite F in Ef.
      destruct (same_at "id" (nth i A VNone) (nth j B VNone));
        destruct (same_at "name" (nth i A VNone) (nth j B VNone)); auto. }
    exists (fire_state i j na nb d stop s), m'. split; [reflexivity|]. split.
    + exact (inv_fire s j i na nb d stop I Hi Hj Hna HnB F Hlink).
    + intros _. apply matched_b_in. exists i. cbn [fire_state pairs].
      apply in_or_app. right. left. reflexivity.
  - rewrite Hstep. exists s, false. split; [reflexivity|]. split; [|discriminate].
    destruct I as [I1 I2 I3 I4 I5 I6 I7 I8]. constructor; try assumption.
    intros i' j' Hin. destruct (I3 i' j' Hin) as (H1 & H2 & H3 & H4 & H5).
    repeat split; auto. intro E. specialize (H4 E). lia.
Qed.


Lemma skipn_nth {X : Type} (l : list X) (d : X) :
  forall i, i < List.length l -> skipn i l = nth i l d :: skipn (S i) l.
Proof.
  induction l as [|x l IH]; intros [|i] H; simpl in *; try lia.
  - reflexivity.
  - apply IH. lia.
Qed.

(** The loop over the before-layers for the after-layer at [j]. *)
Lemma a_loop_inv (j : nat) :
  j < List.length B ->
  forall (k i : nat) (s : cstate) (m : bool),
    i + k = List.length A -> inv s j i ->
    (m = true -> matched_b s j = true) ->
    exists s' m',
      Correlation.a_loop eqf ld i (skipn i A) j m s = (s', Ok m')
      /\ inv s' j (List.length A) /\ (m' = true -> matched_b s' j = true).
Proof.
  intro Hj. induction k as [|k IH]; intros i s m Hik I Hm.
  - assert (i = List.length A) by lia. subst i. rewrite skipn_all.
    exists s, m. auto.
  - assert (Hi : i < List.length A) by lia.
    rewrite (skipn_nth A VNone i Hi). cbn [Correlation.a_loop]. unfold mbind.
    destruct (a_step s j i m I Hi Hj) as (s1 & m1 & E & I1 & Hm1). rewrite E.
    apply IH; [lia | exact I1 | exact Hm1].
Qed.

(** The body of the loop over the after-layers. *)
Lemma b_body_inv (j : nat) (s : cstate) :
  j < List.length B -> inv s j 0 ->
  exists s', Correlation.b_body eqf ld A j s = (s', Ok tt) /\ inv s' (S j) 0.
Proof.
  intros Hj I.
  destruct (a_loop_inv j Hj (List.length A) 0 s false eq_refl I) as (s1 & m1 & E & I1 & Hm1);
    [discriminate|].
  unfold Correlation.b_body, mbind. rewrite skipn_O in E. rewrite E.
  pose proof (pool_layer_ok B j B_ok Hj) as HBj.
  destruct (layer_ok_name _ HBj) as (dB & nb & EB & HnB).
  pose proof (inv_b_obj s1 j _ I1 Hj) as Hc.
  assert (Hnb : name_of (nth j (b_objs s1) VNone) = Some nb)
    by (rewrite (same_core_name _ _ Hc); exact HnB).
  assert (Hres : rmem nb (resolved_b s1) = matched_b s1 j).
  { destruct (matched_b s1 j) eqn:Em.
    - apply matched_b_in in Em as [i' Hin]. apply (inv_rb s1 j _ I1). right. eauto.
    - destruct (rmem nb (resolved_b s1)) eqn:Er; [|reflexivity].
      apply (inv_rb s1 j _ I1) in Er as [(j' & Hlt & Hn') | (i' & Hin & _)].
      + pose proof (pool_same_name B j' j nb B_ok Hn' HnB). lia.
      + assert (matched_b s1 j = true) by (apply matched_b_in; eauto). congruence. }
  destruct I1 as [I1 I2 I3 I4 I5 I6 I7 I8].
  assert (Hpairs : forall i' j', In (i', j') (pairs s1) ->
            i' < List.length A /\ j' < List.length B /\ j' <= S j /\ (j' = S j -> i' < 0)
            /\ linked (nth i' A VNone) (nth j' B VNone) = true).
  { intros i' j' Hin. destruct (I3 i' j' Hin) as (H1 & H2 & H3 & H4 & H5).
    repeat split; auto; lia. }
  assert (Hno : forall i', ~ In (i', S j) (pairs s1)).
  { intros i' Hin. destruct (I3 i' (S j) Hin) as (_ & _ & H3 & _). lia. }
  assert (Hseq : filter (fun j' => negb (matched_b s1 j')) (seq 0 (S j))
                 = filter (fun j' => negb (matched_b s1 j')) (seq 0 j)
                   ++ (if matched_b s1 j then [] else [j])).
  { rewrite seq_S, filter_app. cbn [filter Nat.add].
    destruct (matched_b s1 j); reflexivity. }
  assert (Hmatched : matched_b s1 j = true -> inv s1 (S j) 0).
  { intro Em. constructor; auto.
    - intro n. rewrite I7. split.
      + intros [(j' & Hlt & Hn') | (i' & Hin & Hn')]; left; eauto.
      + intros [(j' & Hlt & Hn') | (i' & Hin & _)]; [|destruct (Hno i' Hin)].
        destruct (Nat.eq_dec j' j) as [->|Hne].
        * apply matched_b_in in Em as [i' Hin]. right. eauto.
        * left. exists j'. split; [lia | exact Hn'].
    - rewrite I8, Hseq, Em, app_nil_r. reflexivity. }
  destruct m1.
  - cbn [negb]. exists s1. split; [reflexivity | exact (Hmatched (Hm1 eq_refl))].
  - cbn [negb]. cbv [mbind get_b gets lift].
    rewrite (is_resolved_spec _ _ nb Hnb), Hres.
    destruct (matched_b s1 j) eqn:Em; cbn [negb].
    + exists s1. split; [reflexivity | exact (Hmatched eq_refl)].
    + rewrite (mark_spec _ _ nb Hnb). cbv [modify].
      eexists. split; [reflexivity|].
      constructor; cbn [append_added set_resolved_b b_objs removed pairs resolved_a
                        resolved_b added]; auto.
      * intro n. rewrite rmem_radd. split.
        -- intro H. apply orb_prop in H as [H|H].
           ++ apply I7 in H as [(j' & Hlt & Hn') | (i' & Hin & Hn')]; left; eauto.
           ++ apply String.eqb_eq in H. subst n. left. eauto.
        -- intros [(j' & Hlt & Hn') | (i' & Hin & _)]; [|destruct (Hno i' Hin)].
           apply orb_true_intro. destruct (Nat.eq_dec j' j) as [->|Hne].
           ++ right. rewrite HnB in Hn'. injection Hn' as <-. apply String.eqb_refl.
           ++ left. apply I7. left. exists j'. split; [lia | exact Hn'].
      * match goal with
        | |- _ = filter ?f ?l =>
            replace (filter f l)
              with (filter (fun j' => negb (matched_b s1 j')) (seq 0 (S j)))
              by reflexivity
        end.
        rewrite Hseq, ?Em, I8. reflexivity.
Qed.


(** The loop over the after-layers. *)
Lemma b_loop_inv :
  forall (k j : nat) (s : cstate),
    j + k = List.length B -> inv s j 0 ->
    exists s', Correlation.b_loop eqf ld A (seq j k) s = (s', Ok tt)
               /\ inv s' (List.length B) 0.
Proof.
  induction k as [|k IH]; intros j s Hjk I.
  - assert (j = List.length B) by lia. subst j. exists s. auto.
  - cbn [seq Correlation.b_loop]. unfold mbind.
    destruct (b_body_inv j s ltac:(lia) I) as (s1 & E & I1). rewrite E.
    apply IH; [lia | exact I1].
Qed.

(** The loop over the before-layers that were not resolved. *)
Lemma removed_loop_inv (s0 : cstate) :
  inv s0 (List.length B) 0 ->
  forall (k i : nat) (s : cstate),
    i + k = List.length A ->
    pairs s = pairs s0 -> added s = added s0 -> resolved_b s = resolved_b s0 ->
    (forall n, rmem n (resolved_a s) = true <->
               rmem n (resolved_a s0) = true
               \/ exists i', i' < i /\ matched_a s0 i' = false
                             /\ name_of (nth i' A VNone) = Some n) ->
    exists s',
      Correlation.removed_loop (skipn i A) s = (s', Ok tt)
      /\ pairs s' = pairs s0 /\ added s' = added s0 /\ resolved_b s' = resolved_b s0
      /\ removed s'
         = removed s ++ map snd (filter (fun p => negb (matched_a s0 (fst p)))
                                        (combine (seq i k) (skipn i A)))
      /\ (forall n, rmem n (resolved_a s0) = true -> rmem n (resolved_a s') = true).
Proof.
  intro I0. induction k as [|k IH]; intros i s Hik Hp Had Hrb Hra.
  - assert (i = List.length A) by lia. subst i. rewrite skipn_all.
    exists s. cbn [Correlation.removed_loop ret seq combine filter map].
    rewrite app_nil_r. repeat split; auto. intros n Hn. apply Hra. left. exact Hn.
  - assert (Hi : i < List.length A) by lia.
    rewrite (skipn_nth A VNone i Hi).
    pose proof (pool_layer_ok A i A_ok Hi) as Ha.
    destruct (layer_ok_name _ Ha) as (da & na & Ea & Hna).
    assert (Hres : rmem na (resolved_a s) = matched_a s0 i).
    { destruct (matched_a s0 i) eqn:Em.
      - apply matched_a_in in Em as [j' Hin]. apply Hra. left.
        apply (inv_ra s0 _ _ I0). eauto.
      - destruct (rmem na (resolved_a s)) eqn:Er; [|reflexivity].
        apply Hra in Er as [Hr | (i' & Hlt & _ & Hn')].
        + apply (inv_ra s0 _ _ I0) in Hr as (i' & j' & Hin & Hn').
          pose proof (pool_same_name A i' i na A_ok Hn' Hna). subst i'.
          assert (matched_a s0 i = true) by (apply matched_a_in; eauto). congruence.
        + pose proof (pool_same_name A i' i na A_ok Hn' Hna). lia. }
    cbn [Correlation.removed_loop seq combine filter map fst]. cbv [mbind gets lift].
    rewrite (is_resolved_spec _ _ na Hna), Hres.
    destruct (matched_a s0 i) eqn:Em; cbn [negb].
    + cbv [ret]. destruct (IH (S i) s ltac:(lia) Hp Had Hrb) as (s' & E & H1 & H2 & H3 & H4 & H5).
      * intro n. rewrite Hra. split.
        -- intros [H | (i' & Hlt & Hu & Hn')]; [left; exact H|].
           right. exists i'. repeat split; auto.
        -- intros [H | (i' & Hlt & Hu & Hn')]; [left; exact H|].
           right. exists i'. repeat split; auto.
           destruct (Nat.eq_dec i' i) as [->|Hne]; [congruence | lia].
      * exists s'. rewrite E. repeat split; auto.
    + rewrite (mark_spec _ _ na Hna). cbv [modify ret].
      set (s1 := append_removed (nth i A VNone) (set_resolved_a (radd na (resolved_a s)) s)).
      destruct (IH (S i) s1 ltac:(lia) Hp Had Hrb) as (s' & E & H1 & H2 & H3 & H4 & H5).
      * intro n. unfold s1. cbn [append_removed set_resolved_a resolved_a].
        rewrite rmem_radd. split.
        -- intro H. apply orb_prop in H as [H|H].
           ++ apply Hra in H as [H | (i' & Hlt & Hu & Hn')]; [left; exact H|].
              right. exists i'. repeat split; auto.
           ++ apply String.eqb_eq in H. subst n. right. exists i. repeat split; auto.
        -- intros [H | (i' & Hlt & Hu & Hn')]; apply orb_true_intro.
           ++ left. apply Hra. left. exact H.
           ++ destruct (Nat.eq_dec i' i) as [->|Hne].
              ** right. rewrite Hna in Hn'. injection Hn' as <-. apply String.eqb_refl.
              ** left. apply Hra. right. exists i'. repeat split; auto. lia.
      * exists s'. rewrite E. repeat split; auto.
        rewrite H4. unfold s1. cbn [append_removed set_resolved_a removed snd].
        rewrite <- app_assoc. reflexivity.
Qed.

(** The loops of [compare_layers] on two pools of the data model. *)
Lemma correlate_inv :
  snd (Correlation.correlate eqf ld A B) = Ok tt
  /\ partitioned A B (fst (Correlation.correlate eqf ld A B)).
Proof.
  unfold Correlation.correlate, mbind.
  destruct (b_loop_inv (List.length B) 0 (init_state B) eq_refl inv_init) as (s1 & E1 & I1).
  rewrite E1.
  destruct (removed_loop_inv s1 I1 (List.length A) 0 s1 eq_refl eq_refl eq_refl eq_refl)
    as (s2 & E2 & Hp & Had & Hrb & Hrem & Hra).
  { intro n. split; [auto|]. intros [H | (i' & Hlt & _)]; [exact H | lia]. }
  rewrite skipn_O in E2, Hrem. rewrite E2. cbn [fst snd]. split; [reflexivity|].
  assert (Hma : forall i, matched_a s2 i = matched_a s1 i)
    by (intro i; unfold matched_a; rewrite Hp; reflexivity).
  assert (Hmb : forall j, matched_b s2 j = matched_b s1 j)
    by (intro j; unfold matched_b; rewrite Hp; reflexivity).
  unfold partitioned. rewrite Hp. repeat split.
  - exact (inv_nodup_a _ _ _ I1).
  - exact (inv_nodup_b _ _ _ I1).
  - rewrite Had, (inv_added _ _ _ I1). apply filter_ext. intro j. rewrite Hmb. reflexivity.
  - rewrite Hrem, (inv_removed _ _ _ I1), app_nil_l. f_equal.
    apply filter_ext. intro p. rewrite Hma. reflexivity.
  - intros i j n Hin Hn. apply Hra. apply (inv_ra _ _ _ I1). eauto.
  - intros i j n Hin Hn. rewrite Hrb. apply (inv_rb _ _ _ I1). left.
    destruct (inv_pairs _ _ _ I1 i j Hin) as (_ & Hj & _). eauto.
Qed.

End Partition.

(** The loops of [compare_layers] on two pools as the data model has them
    (layer records whose names differ within a pool and whose ids differ
    within a pool), which is not what [mapping/_mapping3.py] hands to them:
    the loops run to their end; no layer is matched twice; each after-layer
    is matched or, if not, once in [added]; each before-layer is matched
    or, if not, once in [removed]; and both members of a matched pair are
    resolved under their names. *)
Theorem correlate_partitions (a_layers b_layers : list value) :
  pool_ok a_layers = true -> pool_ok b_layers = true ->
  snd (Mapping3.correlate a_layers b_layers) = Ok tt
  /\ partitioned a_layers b_layers (fst (Mapping3.correlate a_layers b_layers)).
Proof.
  intros Ha Hb.
  exact (correlate_inv Mapping3.eq Mapping3._layer_diff eq_dict layer_diff_ok
                       a_layers b_layers Ha Hb).
Qed.

Lemma correlate_partitions_witness :
  snd (Mapping3.correlate [VDict roads_2020; VDict rivers] [VDict roads_2021; layer_A])
  = Ok tt
  /\ partitioned [VDict roads_2020; VDict rivers] [VDict roads_2021; layer_A]
       (fst (Mapping3.correlate [VDict roads_2020; VDict rivers]
                                [VDict roads_2021; layer_A])).
Proof.
  apply (correlate_partitions [VDict roads_2020; VDict rivers] [VDict roads_2021; layer_A]);
    reflexivity.
Defined.

(** Why the ids must differ: the first matcher does not ask for unresolved
    layers, and [break] leaves only the loop over the matchers.  An
    after-layer matched by id to a first before-layer is matched again to a
    second before-layer of the same id that also has its name and dataset,
    and stands twice in [updated]. *)
Lemma shared_id_matched_twice :
  let other := VDict [("id", VInt 1); ("name", VStr "X"); ("datasetName", VStr "d")] in
  let s := fst (Mapping3.correlate [other; VDict roads_2021] [VDict roads_2021]) in
  pairs s = [(0, 0); (1, 0)] /\ updated s = [0; 0].
Proof.
  vm_compute. split; reflexivity.
Qed.

(** * Further properties of the code *)

(** ** The data-frame phase *)

(** The entries of the pairs of maps at equal positions. *)
Definition paired_entries (entries : MapFrame -> MapFrame -> list diff_entry)
    (map_a map_b : Project) : list diff_entry :=
  flat_map (fun p => entries (fst p) (snd p)) (combine map_a map_b).

Lemma frames_loop_closed (a_maps : list MapFrame) :
  forall (pre b_maps : list MapFrame) (diff : list diff_entry),
    fst (Mapping3.frames_loop (List.length pre) a_maps (pre ++ b_maps) diff)
    = diff ++ paired_entries Mapping3.frame_entries a_maps b_maps.
Proof.
  unfold paired_entries.
  induction a_maps as [|a a_maps IH]; intros pre b_maps diff; simpl.
  - rewrite app_nil_r. reflexivity.
  - rewrite nth_error_app2 by lia. rewrite Nat.sub_diag.
    destruct b_maps as [|b b_maps]; simpl.
    + rewrite app_nil_r. reflexivity.
    + specialize (IH (pre ++ [b]) b_maps (diff ++ Mapping3.frame_entries a b)).
      rewrite length_app, <- app_assoc in IH. simpl in IH.
      rewrite Nat.add_1_r in IH. rewrite IH, <- app_assoc. reflexivity.
Qed.

(** The entry for the number of maps. *)
Definition count_entries (map_a map_b : Project) : list diff_entry :=
  if Nat.eqb (List.length map_b) 0
     || negb (Nat.eqb (List.length map_a) (List.length map_b))
  then [mk_entry Mapping3.map_count_changed
                 (VInt (Z.of_nat (List.length map_a)))
                 (VInt (Z.of_nat (List.length map_b)))]
  else [].

Lemma data_frames_form (map_a map_b : Project) :
  Mapping3.compare_data_frames map_a map_b
  = count_entries map_a map_b ++ paired_entries Mapping3.frame_entries map_a map_b.
Proof.
  unfold Mapping3.compare_data_frames, Mapping3.data_frames_body.
  exact (frames_loop_closed map_a [] map_b _).
Qed.

(** X1.  [compare_data_frames] of [mapping/_mapping3.py] never fails: the
    [IndexError] raised when document b has fewer maps than document a is
    swallowed, and what was found so far is returned.  The result is the
    entry for the number of maps, when document b has no map or the numbers
    differ, followed by the entries of the maps both documents have, in
    order. *)
Theorem compare_data_frames_closed (map_a map_b : Project) :
  Mapping3.compare_data_frames map_a map_b
  = (if Nat.eqb (List.length map_b) 0
        || negb (Nat.eqb (List.length map_a) (List.length map_b))
     then [mk_entry Mapping3.map_count_changed
                    (VInt (Z.of_nat (List.length map_a)))
                    (VInt (Z.of_nat (List.length map_b)))]
     else [])
    ++ flat_map (fun p => Mapping3.frame_entries (fst p) (snd p))
                (combine map_a map_b).
Proof.
  exact (data_frames_form map_a map_b).
Qed.

Lemma frame_entries_nil (a b : MapFrame) :
  Mapping3.frame_entries a b = [] <-> spatialReference a = spatialReference b.
Proof.
  unfold Mapping3.frame_entries.
  destruct (spatialReference a) as [ca ta na], (spatialReference b) as [cb tb nb].
  cbn [factoryCode sr_type sr_name]. split.
  - destruct (Z.eqb_spec ca cb); [|discriminate].
    destruct (String.eqb_spec ta tb); [|discriminate].
    destruct (String.eqb_spec na nb); [|discriminate].
    intros _. congruence.
  - intro E. injection E as -> -> ->.
    rewrite Z.eqb_refl, !String.eqb_refl. reflexivity.
Qed.

Lemma paired_entries_nil (a_maps : list MapFrame) :
  forall b_maps : list MapFrame,
    List.length a_maps = List.length b_maps ->
    (paired_entries Mapping3.frame_entries a_maps b_maps = []
     <-> map spatialReference a_maps = map spatialReference b_maps).
Proof.
  unfold paired_entries.
  induction a_maps as [|a a_maps IH]; intros [|b b_maps] Hlen; simpl in *;
    try discriminate.
  - tauto.
  - injection Hlen as Hlen. specialize (IH b_maps Hlen). split.
    + intro H. apply app_eq_nil in H as [H1 H2].
      apply frame_entries_nil in H1. apply IH in H2. congruence.
    + intro H. injection H as H1 H2.
      apply frame_entries_nil in H1. apply IH in H2. rewrite H1, H2. reflexivity.
Qed.

(** X2.  The data-frame phase of [mapping/_mapping3.py] reports nothing exactly
    when document b has a map, both documents have as many maps, and the
    spatial references (code, type and name) agree map by map. *)
Theorem compare_data_frames_silent (map_a map_b : Project) :
  Mapping3.compare_data_frames map_a map_b = []
  <-> map_b <> [] /\ map spatialReference map_a = map spatialReference map_b.
Proof.
  rewrite data_frames_form. unfold count_entries. split.
  - intro H. apply app_eq_nil in H as [H1 H2].
    destruct (Nat.eqb (List.length map_b) 0) eqn:E0; [discriminate|].
    destruct (Nat.eqb (List.length map_a) (List.length map_b)) eqn:El; [|discriminate].
    apply Nat.eqb_eq in El. split.
    + intros ->. discriminate.
    + apply paired_entries_nil; assumption.
  - intros [Hb Hsr].
    assert (Hlen : List.length map_a = List.length map_b).
    { rewrite <- (length_map spatialReference map_a), Hsr. apply length_map. }
    rewrite Hlen, Nat.eqb_refl.
    destruct map_b as [|b map_b]; [contradiction|]. cbn [List.length Nat.eqb orb negb].
    apply (paired_entries_nil map_a (b :: map_b) Hlen). exact Hsr.
Qed.

Lemma mp_frames_loop_closed (a_maps : list MapFrame) :
  forall (pre b_maps : list MapFrame) (diff : list diff_entry),
    fst (Mp.frames_loop (List.length pre) a_maps (pre ++ b_maps) diff)
    = diff ++ paired_entries Mp.frame_entries a_maps b_maps.
Proof.
  unfold paired_entries.
  induction a_maps as [|a a_maps IH]; intros pre b_maps diff; simpl.
  - rewrite app_nil_r. reflexivity.
  - rewrite nth_error_app2 by lia. rewrite Nat.sub_diag.
    destruct b_maps as [|b b_maps]; simpl.
    + rewrite app_nil_r. reflexivity.
    + specialize (IH (pre ++ [b]) b_maps (diff ++ Mp.frame_entries a b)).
      rewrite length_app, <- app_assoc in IH. simpl in IH.
      rewrite Nat.add_1_r in IH. rewrite IH, <- app_assoc. reflexivity.
Qed.

Lemma mp_data_frames_form (map_a map_b : Project) :
  Mp.compare_data_frames map_a map_b
  = if Nat.eqb (List.length map_b) 0
       || negb (Nat.eqb (List.length map_a) (List.length map_b))
    then []
    else paired_entries Mp.frame_entries map_a map_b.
Proof.
  unfold Mp.compare_data_frames, Mp.data_frames_body.
  destruct (Nat.eqb (List.length map_b) 0
            || negb (Nat.eqb (List.length map_a) (List.length map_b))).
  - reflexivity.
  - exact (mp_frames_loop_closed map_a [] map_b []).
Qed.

(** X3.  [compare_data_frames] of [mp/_mp.py]: where document b has no map or
    the numbers of data frames differ, building the entry for that change
    reads the name [map_count_changed], which the function does not define;
    the [NameError] is swallowed and the empty list returned.  Otherwise the
    result is the entries of the pairs of data frames, in order. *)
Theorem mp_compare_data_frames_closed (map_a map_b : Project) :
  Mp.compare_data_frames map_a map_b
  = if Nat.eqb (List.length map_b) 0
       || negb (Nat.eqb (List.length map_a) (List.length map_b))
    then []
    else flat_map (fun p => Mp.frame_entries (fst p) (snd p)) (combine map_a map_b).
Proof.
  exact (mp_data_frames_form map_a map_b).
Qed.

Lemma paired_entries_types (a_maps : list MapFrame) :
  forall (b_maps : list MapFrame) (e : diff_entry),
    In e (paired_entries Mp.frame_entries a_maps b_maps) ->
    In (entry_type e) [302; 303; 304]%Z.
Proof.
  unfold paired_entries.
  induction a_maps as [|a a_maps IH]; intros [|b b_maps] e; simpl;
    try contradiction.
  intro H. apply in_app_or in H as [H|H]; [|exact (IH _ _ H)].
  unfold Mp.frame_entries in H.
  repeat (apply in_app_or in H as [H|H]);
    match type of H with
    | In _ (if ?c then _ else _) => destruct c
    end; simpl in H; try contradiction;
    destruct H as [<-|[]]; simpl; tauto.
Qed.

(** X4.  Whatever the two documents, no entry of the data-frame list of
    [mp/_mp.py] has the change code 301 of a changed number of data frames;
    and when the numbers of data frames differ the list is empty, so that
    the change goes unreported. *)
Theorem mp_data_frame_count_never_reported (map_a map_b : Project) :
  (forall e, In e (Mp.compare_data_frames map_a map_b) ->
             entry_type e <> Mp.data_frame_count_changed)
  /\ (List.length map_a <> List.length map_b ->
      Mp.compare_data_frames map_a map_b = []).
Proof.
  rewrite mp_data_frames_form. split.
  - intros e H.
    destruct (Nat.eqb (List.length map_b) 0
              || negb (Nat.eqb (List.length map_a) (List.length map_b)));
      [contradiction|].
    apply paired_entries_types in H. unfold Mp.data_frame_count_changed.
    simpl in H. intuition lia.
  - intro Hne. apply Nat.eqb_neq in Hne. rewrite Hne, orb_true_r. reflexivity.
Qed.

(** X5.  Where the numbers of maps agree and are not zero, the data-frame phases
    of the two files return the same list. *)
Theorem compare_data_frames_agree (map_a map_b : Project) :
  map_b <> [] -> List.length map_a = List.length map_b ->
  Mp.compare_data_frames map_a map_b = Mapping3.compare_data_frames map_a map_b.
Proof.
  intros Hb Hlen.
  rewrite mp_data_frames_form, data_frames_form. unfold count_entries.
  rewrite Hlen, Nat.eqb_refl.
  destruct map_b as [|b map_b]; [contradiction|].
  reflexivity.
Qed.

Lemma compare_data_frames_agree_witness :
  Mp.compare_data_frames [mkMap wgs84 [] []] [mkMap (mkSR 3857 "Projected" "WGS_1984") [] []]
  = Mapping3.compare_data_frames [mkMap wgs84 [] []]
                                 [mkMap (mkSR 3857 "Projected" "WGS_1984") [] []].
Proof.
  apply (compare_data_frames_agree [mkMap wgs84 [] []]
           [mkMap (mkSR 3857 "Projected" "WGS_1984") [] []]);
    [discriminate | reflexivity].
Defined.

(** ** The layer phase of [mapping/_mapping3.py] *)

Lemma flatten_layers_group (ls : list (option dict)) :
  no_group_layer ls = false -> Mapping3.flatten_layers ls = Raise TypeError.
Proof.
  induction ls as [|[d|] ls IH]; simpl; intro H.
  - discriminate.
  - rewrite (IH H). reflexivity.
  - reflexivity.
Qed.

(** The document has a first map, and no layer of that map is a group
    layer. *)
Definition first_map_flat (S : Project) : bool :=
  match S with
  | [] => false
  | first :: _ => no_group_layer (layer_details first)
  end.

Lemma layer_pool_first_map (S : Project) :
  if first_map_flat S
  then exists ks : list string,
      Mapping3.layer_pool (Mapping3.list_document_data_sources S) = Ok (map VStr ks)
  else exists e : exn,
      Mapping3.layer_pool (Mapping3.list_document_data_sources S) = Raise e.
Proof.
  destruct S as [|first S]; simpl.
  - exists IndexError. reflexivity.
  - unfold Mapping3.layer_pool. simpl.
    destruct (no_group_layer (layer_details first)) eqn:E.
    + exact (flatten_layers_strings _ E).
    + exists TypeError. exact (flatten_layers_group _ E).
Qed.

(** On pools of strings no statement of the loops changes a variable. *)
Lemma correlate_strings_state (xs ys : list string) :
  fst (Mapping3.correlate (map VStr xs) (map VStr ys)) = init_state (map VStr ys).
Proof.
  unfold Mapping3.correlate, Correlation.correlate.
  destruct ys as [|y ys].
  - simpl. unfold mbind, ret; simpl.
    destruct xs as [|x xs]; reflexivity.
  - simpl. unfold mbind at 1. unfold mbind at 1.
    unfold Correlation.b_body. unfold mbind at 1.
    set (s0 := init_state (VStr y :: map VStr ys)).
    assert (Hb : nth 0 (b_objs s0) VNone = VStr y) by reflexivity.
    destruct (a_loop_strings y 0 s0 Hb xs 0 false (or_introl eq_refl)) as [H|H];
      rewrite H; reflexivity.
Qed.

Lemma layer_pool_strings (S : Project) (l : list value) :
  Mapping3.layer_pool (Mapping3.list_document_data_sources S) = Ok l ->
  exists ks : list string, l = map VStr ks.
Proof.
  intro H. pose proof (layer_pool_first_map S) as Hp.
  destruct (first_map_flat S).
  - destruct Hp as [ks Hks]. exists ks. congruence.
  - destruct Hp as [e He]. congruence.
Qed.

Lemma strings_not_partitioned (xs ys : list string) :
  xs <> [] \/ ys <> [] ->
  ~ partitioned (map VStr xs) (map VStr ys) (init_state (map VStr ys)).
Proof.
  intros Hne (_ & _ & Hadd & Hrem & _).
  cbn [init_state added removed] in Hadd, Hrem.
  destruct Hne as [Hx|Hy].
  - destruct xs as [|x xs]; [contradiction|]. discriminate Hrem.
  - destruct ys as [|y ys]; [contradiction|]. discriminate Hadd.
Qed.

(** C2 fails in [mapping/_mapping3.py] for every pair of snapshots that
    have a layer: the pools that [compare_layers] hands to its loops hold
    the keys of the records of the first map, which are strings, and on
    strings no matcher holds and the first read of a name raises.  When the
    loops are left no layer is matched, added, updated or removed, and the
    three lists returned are empty: a layer is in none of the sets of the
    claim.  Where a pool cannot be built the function raises. *)
Theorem compare_layers_loses_layers (map_a map_b : Project) :
  match Mapping3.layer_pools map_a map_b with
  | Ok (a_layers, b_layers) =>
      (exists xs ys : list string, a_layers = map VStr xs /\ b_layers = map VStr ys)
      /\ pairs (fst (Mapping3.correlate a_layers b_layers)) = []
      /\ added (fst (Mapping3.correlate a_layers b_layers)) = []
      /\ updated (fst (Mapping3.correlate a_layers b_layers)) = []
      /\ removed (fst (Mapping3.correlate a_layers b_layers)) = []
      /\ Mapping3.compare_layers map_a map_b = Ok (mkLayers [] [] [])
      /\ (a_layers <> [] \/ b_layers <> [] ->
          ~ partitioned a_layers b_layers (fst (Mapping3.correlate a_layers b_layers)))
  | Raise _ => Mapping3.compare_layers map_a map_b = Raise UnboundLocalError
  end.
Proof.
  unfold Mapping3.compare_layers, Mapping3.layer_pools.
  destruct (Mapping3.layer_pool (Mapping3.list_document_data_sources map_a))
    as [a_layers|] eqn:Ea; cbn [bind]; [|reflexivity].
  destruct (Mapping3.layer_pool (Mapping3.list_document_data_sources map_b))
    as [b_layers|] eqn:Eb; cbn [bind]; [|reflexivity].
  destruct (layer_pool_strings map_a a_layers Ea) as [xs ->].
  destruct (layer_pool_strings map_b b_layers Eb) as [ys ->].
  rewrite (correlate_strings_state xs ys).
  split; [exists xs, ys; split; reflexivity|].
  repeat (split; [reflexivity|]).
  intros Hne. apply strings_not_partitioned.
  destruct Hne as [H|H]; [left | right]; intros ->; apply H; reflexivity.
Qed.

(** The loss at two snapshots of one map each: Roads is in both, Rivers
    only in the first.  The pools are the keys of the records; the first
    matcher reads [b['id']] on the string ['id'], the [TypeError] ends the
    loops, and neither Roads nor Rivers is reported. *)
Example roads_and_rivers_lost :
  Mapping3.layer_pools [mkMap wgs84 [Some roads_2020; Some rivers] []]
                       [mkMap wgs84 [Some roads_2021] []]
  = Ok (map VStr ["id"; "name"; "datasetName"; "id"; "name"; "datasetName"],
        map VStr ["id"; "name"; "datasetName"])
  /\ snd (Mapping3.correlate
            (map VStr ["id"; "name"; "datasetName"; "id"; "name"; "datasetName"])
            (map VStr ["id"; "name"; "datasetName"]))
     = Raise TypeError
  /\ Mapping3.compare_layers [mkMap wgs84 [Some roads_2020; Some rivers] []]
                             [mkMap wgs84 [Some roads_2021] []]
     = Ok (mkLayers [] [] []).
Proof.
  repeat split; reflexivity.
Qed.

(** X6.  [compare_layers] of [mapping/_mapping3.py] never reports a layer: the
    pools it compares hold the keys of the records of the first map, not the
    records, and no matcher can read a key.  Its result is the three empty
    lists when both documents have a first map without group layer, and the
    [UnboundLocalError] of [finally: return] otherwise. *)
Theorem compare_layers_never_reports (map_a map_b : Project) :
  Mapping3.compare_layers map_a map_b
  = if first_map_flat map_a && first_map_flat map_b
    then Ok (mkLayers [] [] [])
    else Raise UnboundLocalError.
Proof.
  unfold Mapping3.compare_layers, Mapping3.layer_pools.
  pose proof (layer_pool_first_map map_a) as Ha.
  pose proof (layer_pool_first_map map_b) as Hb.
  destruct (first_map_flat map_a).
  - destruct Ha as [xs ->]. cbn [bind andb].
    destruct (first_map_flat map_b).
    + destruct Hb as [ys ->]. cbn [bind]. rewrite correlate_strings. reflexivity.
    + destruct Hb as [e ->]. reflexivity.
  - destruct Ha as [e ->]. reflexivity.
Qed.

(** ** [_layer_diff] *)

Lemma run_tests_concat (a b : value) (ts : list prop_test) :
  forall diff : list diff_entry,
    Mapping3.run_tests a b ts diff
    = rs <- mapM (Mapping3.test_prop a b) ts ;; Ok (diff ++ List.concat rs).
Proof.
  induction ts as [|t ts IH]; intro diff; simpl.
  - rewrite app_nil_r. reflexivity.
  - destruct (Mapping3.test_prop a b t) as [es|e]; simpl; [|reflexivity].
    rewrite IH. destruct (mapM (Mapping3.test_prop a b) ts) as [rs|e]; simpl;
      [|reflexivity].
    rewrite app_assoc. reflexivity.
Qed.

Lemma mapM_ext_in {A B : Type} (f : A -> result B) (g : A -> B) (l : list A) :
  (forall x, In x l -> f x = Ok (g x)) -> mapM f l = Ok (map g l).
Proof.
  induction l as [|x l IH]; intro H; simpl.
  - reflexivity.
  - rewrite (H x (or_introl eq_refl)). simpl.
    rewrite (IH (fun x' Hx' => H x' (or_intror Hx'))). reflexivity.
Qed.

(** What a record may hold under an attribute of the table of
    [_layer_diff]: a list of fields under an attribute compared as an array,
    a string, a number, a truth value or [None] under the others. *)
Definition attr_ok (d : dict) (t : prop_test) : bool :=
  match assoc (layer_prop_name t) d with
  | None => true
  | Some v =>
      match array t with
      | Some true => match v with VFields _ => true | _ => false end
      | _ => hashable v
      end
  end.

Definition record_ok (d : dict) : bool := forallb (attr_ok d) Mapping3.tests.

Lemma py_eq_refl (v : value) : hashable v = true -> py_eq v v = true.
Proof.
  destruct v; simpl; try discriminate; intros _.
  - reflexivity.
  - destruct b; reflexivity.
  - apply Z.eqb_refl.
  - apply String.eqb_refl.
Qed.

Lemma set_eqb_refl (l : list string) : set_eqb l l = true.
Proof.
  unfold set_eqb.
  assert (H : forallb (fun x => mem x l) l = true).
  { apply forallb_forall. intros x Hx. unfold mem. apply existsb_exists.
    exists x. split; [exact Hx | apply String.eqb_refl]. }
  rewrite H. reflexivity.
Qed.

(** The entry of an attribute that a record lacks, when the record is
    compared with itself. *)
Definition missing_entry (d : dict) (t : prop_test) : list diff_entry :=
  if has_key (layer_prop_name t) d then []
  else [mk_entry (change_id t) VNone VNone].

Lemma test_prop_self (d : dict) (t : prop_test) :
  attr_ok d t = true ->
  Mapping3.test_prop (VDict d) (VDict d) t = Ok (missing_entry d t).
Proof.
  unfold attr_ok, missing_entry, Mapping3.test_prop, Mapping3._express_diff,
    Mapping3.eq, and_then.
  destruct t as [k v arr]. cbn [layer_prop_name change_id array py_contains bind].
  unfold has_key. cbn [py_getitem].
  destruct (assoc k d) as [x|] eqn:E; cbn [bind]; [|reflexivity].
  destruct arr as [[|]|]; intro H.
  - destruct x; try discriminate. cbn [bind Mapping3.hash_all].
    rewrite set_eqb_refl. reflexivity.
  - cbn [bind]. rewrite (py_eq_refl x H). reflexivity.
  - cbn [bind]. rewrite (py_eq_refl x H). reflexivity.
Qed.

Lemma layer_diff_self_form (d : dict) :
  record_ok d = true ->
  Mapping3._layer_diff (VDict d) (VDict d)
  = Ok (flat_map (missing_entry d) Mapping3.tests).
Proof.
  intro H. unfold Mapping3._layer_diff. rewrite run_tests_concat.
  rewrite (mapM_ext_in _ (missing_entry d)).
  - cbn [bind app]. rewrite flat_map_concat_map. reflexivity.
  - intros t Ht. apply test_prop_self.
    unfold record_ok in H. rewrite forallb_forall in H. exact (H t Ht).
Qed.

(** X7.  A layer record compared with itself by [_layer_diff] gives one entry
    for each of the ten attributes of the table that the record lacks, in
    the order of the table, with the change code of the attribute and
    [None] for both values; nothing else is reported. *)
Theorem layer_diff_self (d : dict) :
  record_ok d = true ->
  Mapping3._layer_diff (VDict d) (VDict d)
  = Ok (flat_map (fun t => if has_key (layer_prop_name t) d then []
                           else [mk_entry (change_id t) VNone VNone])
                 Mapping3.tests).
Proof.
  exact (layer_diff_self_form d).
Qed.

Lemma layer_diff_self_witness :
  Mapping3._layer_diff (VDict rivers) (VDict rivers)
  = Ok (flat_map (fun t => if has_key (layer_prop_name t) rivers then []
                           else [mk_entry (change_id t) VNone VNone])
                 Mapping3.tests).
Proof.
  apply (layer_diff_self rivers). reflexivity.
Defined.

Lemma flat_map_nil {X Y : Type} (f : X -> list Y) (l : list X) :
  flat_map f l = [] <-> forall x, In x l -> f x = [].
Proof.
  induction l as [|x l IH]; simpl.
  - tauto.
  - split.
    + intros H y [<-|Hy]; apply app_eq_nil in H as [H1 H2]; [exact H1|].
      apply IH; assumption.
    + intro H. rewrite (H x (or_introl eq_refl)). apply IH.
      intros y Hy. apply H. right. exact Hy.
Qed.

(** X8.  A layer record is found unchanged against itself exactly when it has
    all ten attributes of the table: ["id"], ["name"], ["visible"],
    ["workspacePath"], ["datasetName"], ["database"], ["server"],
    ["service"], ["definitionQuery"] and ["fields"]. *)
Theorem layer_diff_self_empty (d : dict) :
  record_ok d = true ->
  (Mapping3._layer_diff (VDict d) (VDict d) = Ok []
   <-> forall k, In k ["id"; "name"; "visible"; "workspacePath"; "datasetName";
                      "database"; "server"; "service"; "definitionQuery"; "fields"] ->
                 has_key k d = true).
Proof.
  intro H. rewrite (layer_diff_self_form d H). split.
  - intros E k Hk.
    assert (E' : flat_map (missing_entry d) Mapping3.tests = []) by congruence.
    clear E. pose proof (proj1 (flat_map_nil _ _) E') as E.
    change (In k (map layer_prop_name Mapping3.tests)) in Hk.
    apply in_map_iff in Hk as (t & <- & Ht).
    specialize (E t Ht). unfold missing_entry in E.
    destruct (has_key (layer_prop_name t) d); [reflexivity | discriminate].
  - intro Hall. f_equal. apply flat_map_nil. intros t Ht. unfold missing_entry.
    rewrite Hall; [reflexivity|].
    exact (in_map layer_prop_name _ _ Ht).
Qed.

Definition full_record : dict :=
  [("id", VInt 7); ("name", VStr "Parcels"); ("visible", VBool true);
   ("workspacePath", VStr "C:\data\cadastre.gdb"); ("datasetName", VStr "parcels");
   ("database", VStr "cadastre"); ("server", VStr "gis01"); ("service", VStr "5151");
   ("definitionQuery", VStr ""); ("fields", VFields [mkField 0 "OBJECTID" true])].

Lemma layer_diff_self_empty_witness :
  Mapping3._layer_diff (VDict full_record) (VDict full_record) = Ok []
  <-> forall k, In k ["id"; "name"; "visible"; "workspacePath"; "datasetName";
                     "database"; "server"; "service"; "definitionQuery"; "fields"] ->
                has_key k full_record = true.
Proof.
  apply (layer_diff_self_empty full_record). reflexivity.
Defined.

(** The entry with its two values exchanged. *)
Definition swap_entry (e : diff_entry) : diff_entry :=
  mk_entry (entry_type e) (entry_now e) (entry_was e).

Lemma set_eqb_sym (l1 l2 : list string) : set_eqb l1 l2 = set_eqb l2 l1.
Proof.
  unfold set_eqb. apply andb_comm.
Qed.

Lemma test_prop_swap (da db : dict) (t : prop_test) :
  attr_ok da t = true -> attr_ok db t = true ->
  exists es,
    Mapping3.test_prop (VDict da) (VDict db) t = Ok es
    /\ Mapping3.test_prop (VDict db) (VDict da) t = Ok (map swap_entry es).
Proof.
  unfold attr_ok, Mapping3.test_prop, Mapping3._express_diff, Mapping3.eq, and_then.
  destruct t as [k v arr]. cbn [layer_prop_name change_id array py_contains bind].
  unfold has_key. cbn [py_getitem].
  destruct (assoc k da) as [x|] eqn:Ea; destruct (assoc k db) as [y|] eqn:Eb;
    cbn [bind]; try (intros _ _; eexists; split; reflexivity).
  assert (Hscalar : hashable x = true -> hashable y = true ->
            exists es,
              (e <- Ok (py_eq y x) ;;
               (if negb e then d <- Ok (mk_entry v x y) ;; Ok [d] else Ok [])) = Ok es
              /\ (e <- Ok (py_eq x y) ;;
                  (if negb e then d <- Ok (mk_entry v y x) ;; Ok [d] else Ok []))
                 = Ok (map swap_entry es)).
  { intros Hx Hy. cbn [bind]. rewrite (py_eq_sym x y Hx Hy).
    destruct (py_eq y x); cbn [negb]; eexists; split; reflexivity. }
  destruct arr as [[|]|]; intros Hx Hy; try exact (Hscalar Hx Hy).
  destruct x as [| | | | |fa|]; try discriminate.
  destruct y as [| | | | |fb|]; try discriminate.
  cbn [bind Mapping3.hash_all].
  rewrite (set_eqb_sym (map Mapping3.hash fb) (map Mapping3.hash fa)).
  destruct (set_eqb (map Mapping3.hash fa) (map Mapping3.hash fb)); cbn [negb].
  - exists []. split; reflexivity.
  - destruct (inflate_all fa (map Mapping3.hash fb)) as [wa Hwa].
    destruct (inflate_all fb (map Mapping3.hash fa)) as [wb Hwb].
    cbn [bind] in Hwa, Hwb. rewrite Hwa, Hwb. cbn [bind].
    eexists. split; reflexivity.
Qed.

Lemma mapM_swap {A B : Type} (f g : A -> result B) (h : B -> B) (l : list A) :
  (forall x, In x l -> exists y, f x = Ok y /\ g x = Ok (h y)) ->
  exists ys, mapM f l = Ok ys /\ mapM g l = Ok (map h ys).
Proof.
  induction l as [|x l IH]; intro H; simpl.
  - exists []. split; reflexivity.
  - destruct (H x (or_introl eq_refl)) as (y & -> & ->).
    destruct (IH (fun x' Hx' => H x' (or_intror Hx'))) as (ys & -> & ->).
    exists (y :: ys). split; reflexivity.
Qed.

(** X9.  Comparing two layer records the other way round exchanges the two
    values of every entry and changes nothing else: the same attributes are
    reported, with the same change codes, in the same order. *)
Theorem layer_diff_swap (da db : dict) :
  record_ok da = true -> record_ok db = true ->
  exists d,
    Mapping3._layer_diff (VDict da) (VDict db) = Ok d
    /\ Mapping3._layer_diff (VDict db) (VDict da) = Ok (map swap_entry d).
Proof.
  intros Ha Hb. unfold Mapping3._layer_diff. rewrite !run_tests_concat.
  unfold record_ok in Ha, Hb. rewrite forallb_forall in Ha, Hb.
  destruct (mapM_swap (Mapping3.test_prop (VDict da) (VDict db))
                      (Mapping3.test_prop (VDict db) (VDict da))
                      (map swap_entry) Mapping3.tests) as (rs & -> & ->).
  { intros t Ht. exact (test_prop_swap da db t (Ha t Ht) (Hb t Ht)). }
  exists (List.concat rs). cbn [bind app]. split; [reflexivity|].
  rewrite concat_map. reflexivity.
Qed.

Lemma layer_diff_swap_witness :
  exists d,
    Mapping3._layer_diff (VDict roads_2020) (VDict roads_2021) = Ok d
    /\ Mapping3._layer_diff (VDict roads_2021) (VDict roads_2020)
       = Ok (map swap_entry d).
Proof.
  apply (layer_diff_swap roads_2020 roads_2021); reflexivity.
Defined.

(** *** The entry for the fields *)

Lemma hash_index (f g : FieldInfo) :
  Mapping3.hash f = Mapping3.hash g -> f_index f = f_index g.
Proof.
  intro H. apply (f_equal Mapping3.unhash) in H. rewrite !unhash_hash in H.
  apply (f_equal py_int) in H. rewrite !py_int_str_of_int in H. congruence.
Qed.

Lemma index_unique (fs : list FieldInfo) (f g : FieldInfo) :
  NoDup (map f_index fs) -> In f fs -> In g fs -> f_index f = f_index g -> f = g.
Proof.
  induction fs as [|x fs IH]; simpl; intros Hnd Hf Hg E; [contradiction|].
  inversion Hnd as [|? ? Hx Hnd']; subst.
  destruct Hf as [<-|Hf], Hg as [<-|Hg]; auto.
  - exfalso. apply Hx. rewrite E. apply in_map. exact Hg.
  - exfalso. apply Hx. rewrite <- E. apply in_map. exact Hf.
Qed.

Lemma filter_index (fs : list FieldInfo) (f : FieldInfo) :
  NoDup (map f_index fs) -> In f fs ->
  filter (fun x => Z.eqb (f_index x) (f_index f)) fs = [f].
Proof.
  induction fs as [|x fs IH]; simpl; intros Hnd Hf; [contradiction|].
  inversion Hnd as [|? ? Hx Hnd']; subst.
  destruct Hf as [->|Hf].
  - rewrite Z.eqb_refl. f_equal.
    destruct (filter (fun x => Z.eqb (f_index x) (f_index f)) fs) as [|y l] eqn:E;
      [reflexivity|].
    exfalso. assert (Hy : In y (y :: l)) by (left; reflexivity).
    rewrite <- E in Hy. apply filter_In in Hy as [Hy Ey].
    apply Z.eqb_eq in Ey. apply Hx. rewrite <- Ey. apply in_map. exact Hy.
  - destruct (Z.eqb_spec (f_index x) (f_index f)) as [E|_].
    + exfalso. apply Hx. rewrite E. apply in_map. exact Hf.
    + exact (IH Hnd' Hf).
Qed.

(** Where the indices of a list of fields differ from each other, the
    hash of a field leads back to the field. *)
Lemma inflate_exact (fs : list FieldInfo) (f : FieldInfo) :
  NoDup (map f_index fs) -> In f fs ->
  Mapping3.inflate (VFields fs) (Mapping3.unhash (Mapping3.hash f)) = Ok f.
Proof.
  intros Hnd Hf. rewrite unhash_hash.
  destruct fs as [|f0 fs]; [contradiction|].
  unfold Mapping3.inflate. rewrite py_int_str_of_int. cbn [bind].
  rewrite (filter_index _ f Hnd Hf). reflexivity.
Qed.

Lemma preimages (fs : list FieldInfo) (hs : list string) :
  incl hs (map Mapping3.hash fs) ->
  exists l, hs = map Mapping3.hash l /\ incl l fs.
Proof.
  induction hs as [|h hs IH]; intro H.
  - exists []. split; [reflexivity | intros x []].
  - destruct IH as (l & -> & Hl); [intros x Hx; apply H; right; exact Hx|].
    assert (Hh : In h (map Mapping3.hash fs)) by (apply H; left; reflexivity).
    apply in_map_iff in Hh as (f & <- & Hf).
    exists (f :: l). split; [reflexivity|].
    intros x [<-|Hx]; auto.
Qed.

(** The fields of [fs] whose hash is not among [other]: what the two
    comprehensions of [_layer_diff] put under ["was"] and ["now"]. *)
Definition fields_apart (fs : list FieldInfo) (other : list string)
    (l : list FieldInfo) : Prop :=
  NoDup l /\ forall f, In f l <-> In f fs /\ mem (Mapping3.hash f) other = false.

Lemma mem_in (x : string) (l : list string) : mem x l = true <-> In x l.
Proof.
  unfold mem. rewrite existsb_exists. split.
  - intros (y & Hy & E). apply String.eqb_eq in E. subst. exact Hy.
  - intro H. exists x. split; [exact H | apply String.eqb_refl].
Qed.

Lemma set_difference_spec (l1 l2 : list string) (x : string) :
  In x (set_difference l1 l2) <-> In x l1 /\ mem x l2 = false.
Proof.
  unfold set_difference. rewrite nodup_In, filter_In, negb_true_iff. tauto.
Qed.

Lemma inflate_difference (fs : list FieldInfo) (other : list string) :
  NoDup (map f_index fs) ->
  exists l,
    mapM (fun x => ak <- Ok (VFields fs) ;; Mapping3.inflate ak x)
         (map Mapping3.unhash (set_difference (map Mapping3.hash fs) other)) = Ok l
    /\ fields_apart fs other l.
Proof.
  intro Hnd.
  destruct (preimages fs (set_difference (map Mapping3.hash fs) other)) as (l & E & Hl).
  { intros x Hx. apply set_difference_spec in Hx. tauto. }
  exists l. rewrite E. split.
  - rewrite map_map. clear E.
    induction l as [|f l IH]; [reflexivity|]. cbn [map mapM].
    rewrite IH by (intros x Hx; apply Hl; right; exact Hx).
    cbn [bind]. rewrite (inflate_exact fs f Hnd (Hl f (or_introl eq_refl))).
    reflexivity.
  - assert (Hn : NoDup (map Mapping3.hash l)).
    { rewrite <- E. unfold set_difference. apply NoDup_nodup. }
    split; [exact (NoDup_map_inv _ _ Hn)|].
    intro f. split.
    + intro Hf. split; [exact (Hl f Hf)|].
      apply (in_map Mapping3.hash) in Hf. rewrite <- E in Hf.
      apply set_difference_spec in Hf. tauto.
    + intros [Hf Hm].
      assert (Hh : In (Mapping3.hash f) (set_difference (map Mapping3.hash fs) other)).
      { apply set_difference_spec. split; [apply in_map; exact Hf | exact Hm]. }
      rewrite E in Hh. apply in_map_iff in Hh as (g & Eg & Hg).
      rewrite (index_unique fs f g Hnd Hf (Hl g Hg)); [exact Hg|].
      symmetry. exact (hash_index g f Eg).
Qed.

Lemma mapM_app {A B : Type} (f : A -> result B) (l1 l2 : list A) :
  mapM f (l1 ++ l2) = r1 <- mapM f l1 ;; r2 <- mapM f l2 ;; Ok (r1 ++ r2).
Proof.
  induction l1 as [|x l1 IH]; simpl.
  - destruct (mapM f l2); reflexivity.
  - destruct (f x); simpl; [|reflexivity]. rewrite IH.
    destruct (mapM f l1); simpl; [|reflexivity].
    destruct (mapM f l2); reflexivity.
Qed.

Ltac case_bind :=
  repeat match goal with
         | H : bind ?m _ = Ok _ |- _ =>
             let E := fresh "E" in destruct m eqn:E; cbn [bind] in H; [|discriminate H]
         | H : (if ?c then _ else _) = Ok _ |- _ => destruct c
         | H : Ok _ = Ok _ |- _ => injection H as H
         end.

(** Every entry that a row of the table adds has the change code of the
    row, and a row adds one entry at most. *)
Lemma test_prop_type (a b : value) (t : prop_test) (es : list diff_entry) :
  Mapping3.test_prop a b t = Ok es ->
  (List.length es <= 1)%nat /\ forall e, In e es -> entry_type e = change_id t.
Proof.
  unfold Mapping3.test_prop, Mapping3._express_diff. intro H.
  case_bind; subst; simpl; split; try lia; intros e' [<-|[]]; reflexivity.
Qed.

Lemma layer_diff_rows (a b : value) (d : list diff_entry) :
  Mapping3._layer_diff a b = Ok d ->
  exists rs, mapM (Mapping3.test_prop a b) Mapping3.tests = Ok rs /\ d = List.concat rs.
Proof.
  unfold Mapping3._layer_diff. rewrite run_tests_concat.
  destruct (mapM (Mapping3.test_prop a b) Mapping3.tests) as [rs|e]; cbn [bind app];
    [|discriminate].
  intro H. injection H as <-. exists rs. split; reflexivity.
Qed.

Lemma mapM_rows {A B : Type} (f : A -> result (list B)) (P : A -> list B -> Prop)
    (l : list A) :
  (forall x es, f x = Ok es -> P x es) ->
  forall rs, mapM f l = Ok rs -> Forall2 P l rs.
Proof.
  intro Hf. induction l as [|x l IH]; simpl; intros rs H.
  - injection H as <-. constructor.
  - destruct (f x) as [es|] eqn:E; cbn [bind] in H; [|discriminate].
    destruct (mapM f l) as [rs'|]; cbn [bind] in H; [|discriminate].
    injection H as <-. constructor; [exact (Hf x es E) | exact (IH rs' eq_refl)].
Qed.

Lemma concat_rows (ts : list prop_test) :
  forall rs : list (list diff_entry),
    Forall2 (fun t es => (List.length es <= 1)%nat
                         /\ forall e, In e es -> entry_type e = change_id t) ts rs ->
    (List.length (List.concat rs) <= List.length ts)%nat
    /\ forall e, In e (List.concat rs) -> In (entry_type e) (map change_id ts).
Proof.
  induction ts as [|t ts IH]; intros rs H; inversion H as [|? es ? rs' [Hl He] H']; subst.
  - simpl. split; [lia | tauto].
  - destruct (IH rs' H') as [IH1 IH2]. cbn [List.concat map List.length].
    rewrite length_app. split; [lia|].
    intros e Hin. apply in_app_or in Hin as [Hin|Hin].
    + left. symmetry. exact (He e Hin).
    + right. exact (IH2 e Hin).
Qed.

(** X10.  Whatever the two values compared, a list that [_layer_diff] returns has
    ten entries at most, and the change code of every entry is one of 401
    (id), 402 (name), 403 (data source), 404 (visibility), 405 (fields) and
    406 (definition query). *)
Theorem layer_diff_codes (a b : value) (d : list diff_entry) :
  Mapping3._layer_diff a b = Ok d ->
  (List.length d <= 10)%nat
  /\ forall e, In e d -> In (entry_type e) [401; 402; 403; 404; 405; 406]%Z.
Proof.
  intro H. apply layer_diff_rows in H as (rs & Hrs & ->).
  apply (mapM_rows _ (fun t es => (List.length es <= 1)%nat
                                  /\ forall e, In e es -> entry_type e = change_id t))
    in Hrs; [|exact (test_prop_type a b)].
  apply concat_rows in Hrs as [H1 H2]. split; [exact H1|].
  intros e He. specialize (H2 e He). simpl in H2. simpl.
  unfold Mapping3.layer_id_changed, Mapping3.layer_name_changed,
    Mapping3.layer_visibility_changed, Mapping3.layer_datasource_changed,
    Mapping3.layer_definition_query_changed, Mapping3.layer_fields_changed in H2.
  intuition.
Qed.

Lemma layer_diff_codes_witness :
  (List.length [ mk_entry 404 VNone VNone;
                 mk_entry 403 VNone VNone;
                 mk_entry 403 (VStr "roads_2020") (VStr "roads_2021");
                 mk_entry 403 VNone VNone;
                 mk_entry 403 VNone VNone;
                 mk_entry 403 VNone VNone;
                 mk_entry 406 VNone VNone;
                 mk_entry 405 VNone VNone ] <= 10)%nat
  /\ forall e, In e [ mk_entry 404 VNone VNone;
                      mk_entry 403 VNone VNone;
                      mk_entry 403 (VStr "roads_2020") (VStr "roads_2021");
                      mk_entry 403 VNone VNone;
                      mk_entry 403 VNone VNone;
                      mk_entry 403 VNone VNone;
                      mk_entry 406 VNone VNone;
                      mk_entry 405 VNone VNone ] ->
               In (entry_type e) [401; 402; 403; 404; 405; 406]%Z.
Proof.
  apply (layer_diff_codes (VDict roads_2020) (VDict roads_2021)). reflexivity.
Defined.

(** The rows of the table before the row of the fields. *)
Definition scalar_tests : list prop_test := removelast Mapping3.tests.

Lemma tests_split :
  Mapping3.tests
  = scalar_tests ++ [mkPropTest "fields" Mapping3.layer_fields_changed (Some true)].
Proof.
  reflexivity.
Qed.

Lemma scalar_rows (da db : dict) :
  exists rs,
    mapM (Mapping3.test_prop (VDict da) (VDict db)) scalar_tests = Ok rs
    /\ forall e, In e (List.concat rs) -> entry_type e <> 405%Z.
Proof.
  destruct (mapM_ok (Mapping3.test_prop (VDict da) (VDict db)) scalar_tests) as [rs Hrs].
  { intros t Ht. unfold scalar_tests, Mapping3.tests in Ht. simpl in Ht.
    repeat (destruct Ht as [<-|Ht]; [apply test_prop_scalar_ok|]). contradiction. }
  exists rs. split; [exact Hrs|].
  apply (mapM_rows _ (fun t es => (List.length es <= 1)%nat
                                  /\ forall e, In e es -> entry_type e = change_id t))
    in Hrs; [|exact (test_prop_type (VDict da) (VDict db))].
  apply concat_rows in Hrs as [_ H]. intros e He. specialize (H e He).
  unfold scalar_tests, Mapping3.tests in H. simpl in H.
  unfold Mapping3.layer_id_changed, Mapping3.layer_name_changed,
    Mapping3.layer_visibility_changed, Mapping3.layer_datasource_changed,
    Mapping3.layer_definition_query_changed in H.
  intuition lia.
Qed.

Lemma fields_row (da db : dict) (fa fb : list FieldInfo) :
  assoc "fields" da = Some (VFields fa) -> assoc "fields" db = Some (VFields fb) ->
  NoDup (map f_index fa) -> NoDup (map f_index fb) ->
  exists es,
    Mapping3.test_prop (VDict da) (VDict db)
      (mkPropTest "fields" Mapping3.layer_fields_changed (Some true)) = Ok es
    /\ if set_eqb (map Mapping3.hash fa) (map Mapping3.hash fb) then es = []
       else exists wa wb,
           es = [mk_entry 405 (VFields wa) (VFields wb)]
           /\ fields_apart fa (map Mapping3.hash fb) wa
           /\ fields_apart fb (map Mapping3.hash fa) wb.
Proof.
  intros Ea Eb Ha Hb.
  unfold Mapping3.test_prop, and_then.
  cbn [layer_prop_name change_id array py_contains py_getitem bind].
  unfold has_key. rewrite Ea, Eb. cbn [bind Mapping3.hash_all].
  destruct (set_eqb (map Mapping3.hash fa) (map Mapping3.hash fb)); cbn [negb].
  - exists []. split; reflexivity.
  - destruct (inflate_difference fa (map Mapping3.hash fb) Ha) as (wa & Ewa & Hwa).
    destruct (inflate_difference fb (map Mapping3.hash fa) Hb) as (wb & Ewb & Hwb).
    cbn [bind] in Ewa, Ewb. rewrite Ewa, Ewb. cbn [bind].
    eexists. split; [reflexivity|]. exists wa, wb. auto.
Qed.

(** X11.  The entry of [_layer_diff] for the fields, for two records whose
    field lists number their fields without repetition.  The entries of the
    other attributes come first.  There is no entry for the fields when the
    two lists give the same set of strings ["index|name|visible"];
    otherwise there is one, which lists under ["was"] each field of record
    a whose string no field of record b has, once, and under ["now"] each
    field of record b whose string no field of record a has, once. *)
Theorem layer_diff_fields (da db : dict) (fa fb : list FieldInfo) :
  assoc "fields" da = Some (VFields fa) -> assoc "fields" db = Some (VFields fb) ->
  NoDup (map f_index fa) -> NoDup (map f_index fb) ->
  exists d es,
    Mapping3._layer_diff (VDict da) (VDict db) = Ok (d ++ es)
    /\ (forall e, In e d -> entry_type e <> 405%Z)
    /\ if set_eqb (map Mapping3.hash fa) (map Mapping3.hash fb) then es = []
       else exists wa wb,
           es = [mk_entry 405 (VFields wa) (VFields wb)]
           /\ fields_apart fa (map Mapping3.hash fb) wa
           /\ fields_apart fb (map Mapping3.hash fa) wb.
Proof.
  intros Ea Eb Ha Hb.
  destruct (scalar_rows da db) as (rs & Hrs & Htypes).
  destruct (fields_row da db fa fb Ea Eb Ha Hb) as (es & Hes & Hspec).
  exists (List.concat rs), es. split; [|split; assumption].
  unfold Mapping3._layer_diff. rewrite run_tests_concat, tests_split, mapM_app, Hrs.
  cbn [bind mapM]. rewrite Hes. cbn [bind app].
  rewrite concat_app. cbn [List.concat]. rewrite app_nil_r. reflexivity.
Qed.

(** ** The layer phase of [mp/_mp.py] *)

Lemma mp_eq_dict (da db : dict) (k : string) :
  Mp.eq (VDict da) (VDict db) k = Ok (same_at k (VDict da) (VDict db)).
Proof.
  exact (eq_dict da db k).
Qed.

Lemma mp_layer_diff_ok (a b : value) :
  layer_ok a = true -> layer_ok b = true -> exists d, Mp._layer_diff a b = Ok d.
Proof.
  exact (layer_diff_ok a b).
Qed.

Lemma mp_layer_pool (S : Project) :
  Mp.layer_pool (Mp.list_document_data_sources S) = flatten_all_layers S.
Proof.
  unfold Mp.layer_pool, Mp.list_document_data_sources, flatten_all_layers.
  cbn [Mp.doc_layers]. induction S as [|mp S IH]; simpl.
  - reflexivity.
  - rewrite IH, filter_details_flat. reflexivity.
Qed.

(** X12.  [compare_layers] of [mp/_mp.py] works on the records of the layers of
    all data frames.  Where the names differ within each document and the
    ids differ within each document, its loops run to their end and the
    result partitions the layers: no layer is matched twice, [added] holds
    each after-layer that was not matched, once, and [removed] each
    before-layer that was not matched, once. *)
Theorem mp_compare_layers_partitions (map_a map_b : Project) :
  pool_ok (flatten_all_layers map_a) = true ->
  pool_ok (flatten_all_layers map_b) = true ->
  exists s : cstate,
    Mp.correlate (flatten_all_layers map_a) (flatten_all_layers map_b) = (s, Ok tt)
    /\ Mp.compare_layers map_a map_b = Ok (Correlation.layers_result s)
    /\ partitioned (flatten_all_layers map_a) (flatten_all_layers map_b) s.
Proof.
  intros Ha Hb.
  destruct (correlate_inv Mp.eq Mp._layer_diff mp_eq_dict mp_layer_diff_ok
              (flatten_all_layers map_a) (flatten_all_layers map_b) Ha Hb) as [Hok Hp].
  fold Mp.correlate in Hok, Hp.
  exists (fst (Mp.correlate (flatten_all_layers map_a) (flatten_all_layers map_b))).
  split; [|split; [|exact Hp]].
  - rewrite <- Hok. apply surjective_pairing.
  - unfold Mp.compare_layers, Mp.layer_pools. rewrite !mp_layer_pool. reflexivity.
Qed.

Lemma mp_compare_layers_partitions_witness :
  exists s : cstate,
    Mp.correlate (flatten_all_layers two_maps) (flatten_all_layers [mkMap wgs84 [Some roads_2021] []])
    = (s, Ok tt)
    /\ Mp.compare_layers two_maps [mkMap wgs84 [Some roads_2021] []]
       = Ok (Correlation.layers_result s)
    /\ partitioned (flatten_all_layers two_maps)
                   (flatten_all_layers [mkMap wgs84 [Some roads_2021] []]) s.
Proof.
  apply (mp_compare_layers_partitions two_maps [mkMap wgs84 [Some roads_2021] []]);
    reflexivity.
Defined.

(** ** The records of [_get_layer_details] *)

Lemma assoc_set_key_same {A : Type} (k : string) (v : A) (d : list (string * A)) :
  assoc k (set_key k v d) = Some v.
Proof.
  induction d as [|[k' v'] d IH]; simpl.
  - rewrite String.eqb_refl. reflexivity.
  - destruct (String.eqb k k') eqn:E; simpl; rewrite E; [reflexivity | exact IH].
Qed.

(** [d'] has what [d] has under every key outside [written]. *)
Definition frame (written : list string) (d d' : dict) : Prop :=
  forall k, ~ In k written -> assoc k d' = assoc k d.

Lemma frame_refl (w : list string) (d : dict) : frame w d d.
Proof.
  intros k _. reflexivity.
Qed.

Lemma frame_trans (w : list string) (d1 d2 d3 : dict) :
  frame w d1 d2 -> frame w d2 d3 -> frame w d1 d3.
Proof.
  intros H1 H2 k Hk. rewrite (H2 k Hk). exact (H1 k Hk).
Qed.

Lemma frame_set_key (w : list string) (k : string) (v : value) (d : dict) :
  In k w -> frame w d (set_key k v d).
Proof.
  intros Hk k' Hk'. apply assoc_set_key_other. intros ->. exact (Hk' Hk).
Qed.

Lemma frame_weaken (w w' : list string) (d d' : dict) :
  incl w w' -> frame w d d' -> frame w' d d'.
Proof.
  intros Hi H k Hk. apply H. intro Hin. exact (Hk (Hi k Hin)).
Qed.

(** The keys that [_get_layer_details] may write after ["name"] and
    ["longName"], the fields apart. *)
Definition optional_keys : list string :=
  ["datasetName"; "dataSource"; "serviceType"; "userName"; "server"; "service";
   "database"; "workspacePath"; "visible"; "definitionQuery"; "connectionProperties"].

Lemma fields_loop_positions (field_info : Arcpy.FieldInfoObject) (k : nat) :
  forall (n : nat) (acc : list FieldInfo),
  exists l,
    Mapping3.fields_loop field_info (seq n k) acc = acc ++ l
    /\ (List.length l <= k)%nat
    /\ map f_index l = map Z.of_nat (seq n (List.length l)).
Proof.
  induction k as [|k IH]; intros n acc; cbn [seq Mapping3.fields_loop].
  - exists []. rewrite app_nil_r. repeat split; auto.
  - destruct (Arcpy.getFieldName field_info (Z.of_nat n)) as [fname|e];
      [|exists []; rewrite app_nil_r; repeat split; simpl; auto; lia].
    destruct (Arcpy.getVisible field_info (Z.of_nat n)) as [v|e];
      [|exists []; rewrite app_nil_r; repeat split; simpl; auto; lia].
    destruct (IH (S n) (acc ++ [mkField (Z.of_nat n) fname (String.eqb v "VISIBLE")]))
      as (l & E & Hlen & Hidx).
    exists (mkField (Z.of_nat n) fname (String.eqb v "VISIBLE") :: l).
    rewrite E, <- app_assoc. cbn [app List.length map seq f_index].
    repeat split; [lia | rewrite Hidx; reflexivity].
Qed.

Lemma positions_nodup (n k : nat) : NoDup (map Z.of_nat (seq n k)).
Proof.
  revert n. induction k as [|k IH]; intro n; cbn [seq map]; constructor.
  - intro H. apply in_map_iff in H as (x & E & Hx). apply in_seq in Hx. lia.
  - apply IH.
Qed.

(** What stands under ["fields"]: nothing, or a list of fields numbered
    from 0 by their positions. *)
Definition fields_by_position (d : dict) : Prop :=
  assoc "fields" d = None
  \/ exists fs, assoc "fields" d = Some (VFields fs)
                /\ map f_index fs = map Z.of_nat (seq 0 (List.length fs)).

Lemma field_details_spec (layer : Arcpy.Layer) (details : dict) :
  assoc "fields" details = None ->
  frame ["fields"] details (Mapping3.field_details layer details)
  /\ fields_by_position (Mapping3.field_details layer details).
Proof.
  intro Hnone. unfold Mapping3.field_details.
  assert (Hsame : frame ["fields"] details details /\ fields_by_position details)
    by (split; [apply frame_refl | left; exact Hnone]).
  destruct (Arcpy.Describe layer) as [desc|]; [|exact Hsame].
  destruct (String.eqb (Arcpy.dataType desc) "FeatureLayer"); [|exact Hsame].
  destruct (Arcpy.fieldInfo desc) as [field_info|]; [|exact Hsame].
  destruct (Arcpy.count field_info) as [n|].
  - destruct (fields_loop_positions field_info (Z.to_nat n) 0 []) as (l & E & _ & Hidx).
    rewrite E. cbn [app]. split; [apply frame_set_key; left; reflexivity|].
    right. exists l. rewrite assoc_set_key_same. auto.
  - split; [apply frame_set_key; left; reflexivity|].
    right. exists []. rewrite assoc_set_key_same. auto.
Qed.

Ltac frame_steps :=
  repeat first
    [ apply frame_refl
    | eapply frame_trans; [|apply frame_set_key; simpl; tauto] ].

Section DetailsOfLayers.

Variable upper : string -> string.

Lemma set_supported_frame (w : list string) (layer : Arcpy.Layer) (k : string)
    (v : value) (d : dict) :
  In k w -> frame w d (Mapping3.set_supported layer k v d).
Proof.
  intro Hk. unfold Mapping3.set_supported.
  destruct (Arcpy.supports layer k); [apply frame_set_key; exact Hk | apply frame_refl].
Qed.

Lemma service_details_frame (layer : Arcpy.Layer) (d d' : dict) :
  Mapping3.service_details upper layer d = Ok d' -> frame optional_keys d d'.
Proof.
  unfold Mapping3.service_details. intro H.
  destruct (Arcpy.supports layer "serviceProperties");
    [|injection H as <-; apply frame_refl].
  case_bind; subst; unfold optional_keys; frame_steps.
Qed.

(** The record before the fields are resolved. *)
Lemma details_frame (layer : Arcpy.Layer) (d : dict) :
  Mapping3._get_layer_details upper layer = Ok (Some d) ->
  frame ("fields" :: optional_keys)
        [("name", VStr (Arcpy.name layer)); ("longName", VStr (Arcpy.longName layer))] d
  /\ fields_by_position d.
Proof.
  unfold Mapping3._get_layer_details.
  destruct (Arcpy.isGroupLayer layer && negb (Arcpy.isNetworkAnalystLayer layer));
    [discriminate|].
  destruct (Mapping3.service_details upper layer _) as [d1|] eqn:E; cbn [bind];
    [|discriminate].
  intro H. injection H as <-.
  apply service_details_frame in E.
  match goal with
  | |- context [Mapping3.field_details layer ?x] => set (d2 := x)
  end.
  assert (F2 : frame optional_keys
                 [("name", VStr (Arcpy.name layer));
                  ("longName", VStr (Arcpy.longName layer))] d2).
  { unfold d2.
    repeat (eapply frame_trans;
            [|apply set_supported_frame; unfold optional_keys; simpl; tauto]).
    eapply frame_trans; [|exact E].
    repeat (eapply frame_trans;
            [|apply set_supported_frame; unfold optional_keys; simpl; tauto]).
    apply frame_refl. }
  assert (Hnone : assoc "fields" d2 = None).
  { rewrite (F2 "fields"); [reflexivity|].
    unfold optional_keys. simpl. intuition discriminate. }
  destruct (field_details_spec layer d2 Hnone) as [F3 Hpos].
  split; [|exact Hpos].
  eapply frame_trans.
  - apply (frame_weaken optional_keys); [|exact F2]. intros k Hk. right. exact Hk.
  - apply (frame_weaken ["fields"]); [|exact F3]. intros k [<-|[]]. left. reflexivity.
Qed.

Lemma assoc_keys {A : Type} (k : string) (d : list (string * A)) :
  In k (keys d) -> exists v, assoc k d = Some v.
Proof.
  unfold keys. induction d as [|[k' v'] d IH]; simpl; [contradiction|].
  intro H. destruct (String.eqb_spec k k') as [->|Hne]; [eauto|].
  destruct H as [H|H]; [congruence | exact (IH H)].
Qed.

(** X13.  [_get_layer_details] of [mapping/_mapping3.py] returns [None] for a
    group layer that is not a network analyst layer, and for no other
    layer.  A record that it returns has the name and the long name of the
    layer, has no key but these two, the eleven optional attributes and
    ["fields"], hence no ["id"], and numbers the fields under ["fields"],
    when there are any, from 0 by their positions. *)
Theorem layer_details_record (layer : Arcpy.Layer) :
  (Mapping3._get_layer_details upper layer = Ok None
   <-> Arcpy.isGroupLayer layer && negb (Arcpy.isNetworkAnalystLayer layer) = true)
  /\ forall d,
      Mapping3._get_layer_details upper layer = Ok (Some d) ->
      assoc "name" d = Some (VStr (Arcpy.name layer))
      /\ assoc "longName" d = Some (VStr (Arcpy.longName layer))
      /\ has_key "id" d = false
      /\ incl (keys d) ("name" :: "longName" :: "fields" :: optional_keys)
      /\ fields_by_position d.
Proof.
  split.
  - unfold Mapping3._get_layer_details.
    destruct (Arcpy.isGroupLayer layer && negb (Arcpy.isNetworkAnalystLayer layer)).
    + tauto.
    + destruct (Mapping3.service_details upper layer _); cbn [bind];
        split; discriminate.
  - intros d H. destruct (details_frame layer d H) as [F Hpos].
    assert (Hout : forall k, ~ In k ("fields" :: optional_keys) ->
              assoc k d = assoc k [("name", VStr (Arcpy.name layer));
                                   ("longName", VStr (Arcpy.longName layer))])
      by exact F.
    repeat split.
    + rewrite Hout; [reflexivity|]. unfold optional_keys. simpl. intuition discriminate.
    + rewrite Hout; [reflexivity|]. unfold optional_keys. simpl. intuition discriminate.
    + unfold has_key. rewrite Hout; [reflexivity|].
      unfold optional_keys. simpl. intuition discriminate.
    + intros k Hk. apply assoc_keys in Hk as [v Hv].
      destruct (in_dec string_dec k ("fields" :: optional_keys)) as [Hin|Hout'].
      * right. right. exact Hin.
      * rewrite (Hout k Hout') in Hv. cbn [assoc] in Hv.
        destruct (String.eqb_spec k "name") as [->|_]; [left; reflexivity|].
        destruct (String.eqb_spec k "longName") as [->|_];
          [right; left; reflexivity | discriminate].
    + exact Hpos.
Qed.

End DetailsOfLayers.

Lemma record_layer_ok (d : dict) (n : string) :
  assoc "name" d = Some (VStr n) -> has_key "id" d = false -> fields_by_position d ->
  layer_ok (VDict d) = true.
Proof.
  unfold has_key, layer_ok. intros Hn Hid Hf. rewrite Hn.
  destruct (assoc "id" d); [discriminate|].
  destruct Hf as [->|(fs & -> & _)]; reflexivity.
Qed.

Lemma layer_diff_first_row (a b : value) (es : list diff_entry) :
  Mapping3.test_prop a b (mkPropTest "id" Mapping3.layer_id_changed None) = Ok es ->
  forall d, Mapping3._layer_diff a b = Ok d -> exists d', d = es ++ d'.
Proof.
  intros Hes d. unfold Mapping3._layer_diff. rewrite run_tests_concat.
  change Mapping3.tests
    with (mkPropTest "id" Mapping3.layer_id_changed None :: tl Mapping3.tests).
  remember (tl Mapping3.tests) as rest. cbn [mapM]. rewrite Hes. cbn [bind].
  destruct (mapM (Mapping3.test_prop a b) rest) as [rs|]; cbn [bind]; [|discriminate].
  intro H. injection H as <-. cbn [List.concat app]. eauto.
Qed.

(** X14.  Two records that [_get_layer_details] of [mapping/_mapping3.py] returns
    never compare as unchanged: neither has an ["id"], and [_layer_diff]
    returns a list that begins with the entry for a changed id, from [None]
    to [None]. *)
Theorem pro_records_differ (upper : string -> string) (layer_a layer_b : Arcpy.Layer)
    (da db : dict) :
  Mapping3._get_layer_details upper layer_a = Ok (Some da) ->
  Mapping3._get_layer_details upper layer_b = Ok (Some db) ->
  exists d,
    Mapping3._layer_diff (VDict da) (VDict db)
    = Ok (mk_entry Mapping3.layer_id_changed VNone VNone :: d).
Proof.
  intros Ha Hb.
  destruct (details_frame upper layer_a da Ha) as [Fa Pa].
  destruct (details_frame upper layer_b db Hb) as [Fb Pb].
  assert (Hout : ~ In "id" ("fields" :: optional_keys))
    by (unfold optional_keys; simpl; intuition discriminate).
  assert (Hna : ~ In "name" ("fields" :: optional_keys))
    by (unfold optional_keys; simpl; intuition discriminate).
  pose proof (Fa "id" Hout) as Ia. pose proof (Fb "id" Hout) as Ib.
  pose proof (Fa "name" Hna) as Na. pose proof (Fb "name" Hna) as Nb.
  cbn [assoc String.eqb Ascii.eqb Bool.eqb] in Ia, Ib, Na, Nb.
  assert (Oa : layer_ok (VDict da) = true)
    by (apply (record_layer_ok da _ Na); [unfold has_key; rewrite Ia; reflexivity | exact Pa]).
  assert (Ob : layer_ok (VDict db) = true)
    by (apply (record_layer_ok db _ Nb); [unfold has_key; rewrite Ib; reflexivity | exact Pb]).
  destruct (layer_diff_ok _ _ Oa Ob) as [d Hd].
  destruct (layer_diff_first_row _ _ _
              (scalar_row_absent_both da db "id" Mapping3.layer_id_changed Ia Ib) d Hd)
    as [d' ->].
  exists d'. exact Hd.
Qed.

(** ** [list_document_data_sources] of [mp/_mp.py] *)

(** The four keys that are read through arcobjects. *)
Definition arcobjects_keys : list string :=
  ["id"; "hasFixedId"; "visible"; "definitionQuery"].

(** Two entries of a list of layer details: both [None], or two records of
    which the second has what the first has outside [written]. *)
Definition same_but (written : list string) (o o' : option dict) : Prop :=
  match o, o' with
  | None, None => True
  | Some l, Some l' => frame written l l'
  | _, _ => False
  end.

Lemma same_but_refl (w : list string) (o : option dict) : same_but w o o.
Proof.
  destruct o; simpl; [apply frame_refl | exact I].
Qed.

Lemma forall2_refl {X : Type} (R : X -> X -> Prop) (l : list X) :
  (forall x, R x x) -> Forall2 R l l.
Proof.
  intro H. induction l; constructor; auto.
Qed.

Lemma copy_keys_frame (layer_info : value) (ks w : list string) :
  incl ks w -> forall l, frame w l (fst (Mp.copy_keys layer_info ks l)).
Proof.
  induction ks as [|k ks IH]; intros Hw l; cbn [Mp.copy_keys].
  - apply frame_refl.
  - destruct (py_getitem layer_info k) as [v|]; [|apply frame_refl].
    eapply frame_trans; [|apply IH; intros x Hx; apply Hw; right; exact Hx].
    apply frame_set_key. apply Hw. left. reflexivity.
Qed.

Lemma enrich_layer_frame (info l : dict) :
  frame arcobjects_keys l (fst (Mp.enrich_layer info l)).
Proof.
  unfold Mp.enrich_layer.
  destruct (bind _ _) as [layer_info|]; [|apply frame_refl].
  destruct (is_none layer_info); [apply frame_refl|].
  apply copy_keys_frame. intros k Hk. exact Hk.
Qed.

Lemma enrich_group_shape (info : dict) (ls : list (option dict)) :
  Forall2 (same_but arcobjects_keys) ls (fst (Mp.enrich_group info ls)).
Proof.
  induction ls as [|[l|] ls IH]; cbn [Mp.enrich_group].
  - constructor.
  - pose proof (enrich_layer_frame info l) as Hl.
    destruct (Mp.enrich_layer info l) as [l' [[]|e]]; cbn [fst] in Hl.
    + destruct (Mp.enrich_group info ls) as [r' res]. cbn [fst] in *.
      constructor; [exact Hl | exact IH].
    + constructor; [exact Hl | apply forall2_refl, same_but_refl].
  - destruct (Mp.enrich_group info ls) as [r' res]. cbn [fst] in *.
    constructor; [exact I | exact IH].
Qed.

Lemma enrich_groups_shape (info : dict) (layers : list (list (option dict))) :
  Forall2 (Forall2 (same_but arcobjects_keys)) layers
          (fst (Mp.enrich_groups info layers)).
Proof.
  induction layers as [|g layers IH]; cbn [Mp.enrich_groups].
  - constructor.
  - pose proof (enrich_group_shape info g) as Hg.
    destruct (Mp.enrich_group info g) as [g' [[]|e]]; cbn [fst] in Hg.
    + destruct (Mp.enrich_groups info layers) as [r' res]. cbn [fst] in *.
      constructor; [exact Hg | exact IH].
    + constructor; [exact Hg|].
      apply forall2_refl. intro x. apply forall2_refl, same_but_refl.
Qed.

(** X15.  What [list_document_data_sources] of [mp/_mp.py] reads through
    arcobjects never makes it fail and changes nothing of its result but
    what the layer records hold under ["id"], ["hasFixedId"], ["visible"]
    and ["definitionQuery"]: against the result without arcobjects, the
    data frames, the layers and the group layers stand where they stood, a
    record has the same value under every other key, and the tables are the
    same. *)
Theorem mp_arcobjects_frame (upper : string -> string) (maps : list Arcpy.Map)
    (arcobjects : result dict) (e : exn) (raw : Mp.DocumentSources) :
  Mp.document_data_sources upper maps (Raise e) = Ok raw ->
  exists docs,
    Mp.document_data_sources upper maps arcobjects = Ok docs
    /\ Mp.doc_tableViews docs = Mp.doc_tableViews raw
    /\ Forall2 (Forall2 (same_but arcobjects_keys)) (Mp.doc_layers raw)
               (Mp.doc_layers docs).
Proof.
  unfold Mp.document_data_sources.
  destruct (mapM _ maps) as [layers|]; cbn [bind]; [|discriminate].
  intro H. injection H as <-.
  eexists. split; [reflexivity|]. cbn [Mp.doc_tableViews Mp.doc_layers].
  split; [reflexivity|].
  destruct arcobjects as [info|].
  - apply enrich_groups_shape.
  - apply forall2_refl. intro x. apply forall2_refl, same_but_refl.
Qed.

Lemma enrich_group_app (info : dict) (l1 l2 : list (option dict)) :
  Mp.enrich_group info (l1 ++ l2)
  = match Mp.enrich_group info l1 with
    | (l1', Raise e) => (l1' ++ l2, Raise e)
    | (l1', Ok _) =>
        let (l2', res) := Mp.enrich_group info l2 in (l1' ++ l2', res)
    end.
Proof.
  induction l1 as [|[l|] l1 IH]; rewrite <- ?app_comm_cons; cbn [Mp.enrich_group].
  - rewrite !app_nil_l. destruct (Mp.enrich_group info l2) as [l2' res]. reflexivity.
  - destruct (Mp.enrich_layer info l) as [l' [[]|e]]; [|reflexivity].
    rewrite IH. destruct (Mp.enrich_group info l1) as [l1' [[]|e]]; [|reflexivity].
    destruct (Mp.enrich_group info l2) as [l2' res]. reflexivity.
  - rewrite IH. destruct (Mp.enrich_group info l1) as [l1' [[]|e]]; [|reflexivity].
    destruct (Mp.enrich_group info l2) as [l2' res]. reflexivity.
Qed.

(** The loop over the data frames and their layers is the loop over the
    layers of all data frames. *)
Lemma enrich_groups_flat (info : dict) (layers : list (list (option dict))) :
  (List.concat (fst (Mp.enrich_groups info layers)), snd (Mp.enrich_groups info layers))
  = Mp.enrich_group info (List.concat layers).
Proof.
  induction layers as [|g layers IH]; cbn [Mp.enrich_groups List.concat].
  - reflexivity.
  - rewrite enrich_group_app.
    destruct (Mp.enrich_group info g) as [g' [[]|e]]; [|reflexivity].
    rewrite <- IH.
    destruct (Mp.enrich_groups info layers) as [r' res]. reflexivity.
Qed.

Lemma enrich_group_stops (info l : dict) (e : exn) :
  Mp.enrich_layer info l = (l, Raise e) ->
  forall pre post : list (option dict),
  exists pre',
    fst (Mp.enrich_group info (pre ++ Some l :: post)) = pre' ++ Some l :: post
    /\ List.length pre' = List.length pre.
Proof.
  intros Hl pre post. induction pre as [|[x|] pre (pre' & E & Hlen)];
    rewrite <- ?app_comm_cons, ?app_nil_l; cbn [Mp.enrich_group].
  - rewrite Hl. exists []. split; reflexivity.
  - destruct (Mp.enrich_layer info x) as [x' [[]|ex]].
    + destruct (Mp.enrich_group info (pre ++ Some l :: post)) as [r' res].
      cbn [fst] in *. subst r'. exists (Some x' :: pre'). simpl. auto.
    + exists (Some x' :: pre). split; reflexivity.
  - destruct (Mp.enrich_group info (pre ++ Some l :: post)) as [r' res].
    cbn [fst] in *. subst r'. exists (None :: pre'). simpl. auto.
Qed.

(** X16.  A layer whose name the dict of arcobjects does not hold ends the
    enrichment: the [KeyError] is swallowed, and the record of that layer
    and the records of all layers after it, in the order of the data frames
    and of their layers, stay as they were, also where arcobjects knows
    them. *)
Theorem mp_arcobjects_stops (upper : string -> string) (maps : list Arcpy.Map)
    (info : dict) (e : exn) (raw : Mp.DocumentSources)
    (pre post : list (option dict)) (l : dict) (n : string) :
  Mp.document_data_sources upper maps (Raise e) = Ok raw ->
  List.concat (Mp.doc_layers raw) = pre ++ Some l :: post ->
  assoc "name" l = Some (VStr n) -> assoc n info = None ->
  exists docs pre',
    Mp.document_data_sources upper maps (Ok info) = Ok docs
    /\ List.concat (Mp.doc_layers docs) = pre' ++ Some l :: post
    /\ List.length pre' = List.length pre.
Proof.
  unfold Mp.document_data_sources.
  destruct (mapM _ maps) as [layers|]; cbn [bind]; [|discriminate].
  intro H. injection H as <-. cbn [Mp.doc_layers]. intros Hflat Hn Hinfo.
  assert (Hl : Mp.enrich_layer info l = (l, Raise KeyError)).
  { unfold Mp.enrich_layer. cbn [py_getitem]. rewrite Hn. cbn [bind Mp.layer_info_of].
    rewrite Hinfo. reflexivity. }
  destruct (enrich_group_stops info l KeyError Hl pre post) as (pre' & E & Hlen).
  eexists. exists pre'. split; [reflexivity|]. cbn [Mp.doc_layers].
  split; [|exact Hlen].
  rewrite <- E, <- Hflat, <- enrich_groups_flat. reflexivity.
Qed.

(** An enriched record: it has, under each of the four keys, what the dict
    of arcobjects has for its name. *)
Definition enriched (info : dict) (l' : dict) : Prop :=
  exists n i,
    assoc "name" l' = Some (VStr n) /\ assoc n info = Some (VDict i)
    /\ forall k, In k arcobjects_keys -> exists v, assoc k i = Some v /\ assoc k l' = Some v.

(** The dict of arcobjects has, for the name of the record, a dict with the
    four keys. *)
Definition listed (info : dict) (l : dict) : Prop :=
  exists n i,
    assoc "name" l = Some (VStr n) /\ assoc n info = Some (VDict i)
    /\ forall k, In k arcobjects_keys -> has_key k i = true.

Lemma copy_keys_ok (i : dict) (ks : list string) :
  (forall k, In k ks -> has_key k i = true) ->
  forall l,
    snd (Mp.copy_keys (VDict i) ks l) = Ok tt
    /\ (forall k, In k ks -> assoc k (fst (Mp.copy_keys (VDict i) ks l)) = assoc k i)
    /\ forall k, assoc k l = assoc k i ->
                 assoc k (fst (Mp.copy_keys (VDict i) ks l)) = assoc k i.
Proof.
  induction ks as [|k0 ks IH]; intros Hks l; cbn [Mp.copy_keys].
  - repeat split; [intros k [] | auto].
  - assert (H0 : has_key k0 i = true) by (apply Hks; left; reflexivity).
    unfold has_key in H0. cbn [py_getitem].
    destruct (assoc k0 i) as [v|] eqn:E0; [|discriminate].
    destruct (IH (fun k Hk => Hks k (or_intror Hk)) (set_key k0 v l)) as (R & Hin & Hkeep).
    assert (Hstep : forall k, assoc k l = assoc k i ->
              assoc k (set_key k0 v l) = assoc k i).
    { intros k Hk. destruct (string_dec k k0) as [->|Hne].
      - rewrite assoc_set_key_same. symmetry. exact E0.
      - rewrite assoc_set_key_other by exact Hne. exact Hk. }
    repeat split.
    + exact R.
    + intros k [<-|Hk]; [|exact (Hin k Hk)].
      apply Hkeep. rewrite assoc_set_key_same. symmetry. exact E0.
    + intros k Hk. apply Hkeep, Hstep, Hk.
Qed.

Lemma enrich_layer_ok (info l : dict) :
  listed info l ->
  snd (Mp.enrich_layer info l) = Ok tt /\ enriched info (fst (Mp.enrich_layer info l)).
Proof.
  intros (n & i & Hn & Hi & Hkeys). unfold Mp.enrich_layer.
  cbn [py_getitem]. rewrite Hn. cbn [bind Mp.layer_info_of]. rewrite Hi. cbn [is_none].
  fold arcobjects_keys.
  destruct (copy_keys_ok i arcobjects_keys Hkeys l) as (R & Hin & _).
  split; [exact R|]. exists n, i. repeat split; [|exact Hi|].
  - rewrite (copy_keys_frame (VDict i) arcobjects_keys arcobjects_keys
               (fun k Hk => Hk) l "name"); [exact Hn|].
    unfold arcobjects_keys. simpl. intuition discriminate.
  - intros k Hk. specialize (Hkeys k Hk). unfold has_key in Hkeys.
    destruct (assoc k i) as [v|] eqn:E; [|discriminate].
    exists v. split; [reflexivity|]. rewrite (Hin k Hk). exact E.
Qed.

Lemma enrich_group_ok (info : dict) (ls : list (option dict)) :
  (forall l, In (Some l) ls -> listed info l) ->
  snd (Mp.enrich_group info ls) = Ok tt
  /\ forall l', In (Some l') (fst (Mp.enrich_group info ls)) -> enriched info l'.
Proof.
  induction ls as [|[l|] ls IH]; intro H; cbn [Mp.enrich_group].
  - split; [reflexivity | intros l' []].
  - destruct (enrich_layer_ok info l (H l (or_introl eq_refl))) as [R He].
    destruct (Mp.enrich_layer info l) as [l1 r1]. cbn [fst snd] in R, He. subst r1.
    destruct (IH (fun x Hx => H x (or_intror Hx))) as [R' He'].
    destruct (Mp.enrich_group info ls) as [r' res]. cbn [fst snd] in *.
    split; [exact R'|]. intros l' [E|Hin]; [injection E as <-; exact He | exact (He' l' Hin)].
  - destruct (IH (fun x Hx => H x (or_intror Hx))) as [R' He'].
    destruct (Mp.enrich_group info ls) as [r' res]. cbn [fst snd] in *.
    split; [exact R'|]. intros l' [E|Hin]; [discriminate | exact (He' l' Hin)].
Qed.

(** X17.  Where the dict of arcobjects has, for the name of every layer record, a
    dict with the four keys, every record of the result has under ["id"],
    ["hasFixedId"], ["visible"] and ["definitionQuery"] what arcobjects has
    for its name. *)
Theorem mp_arcobjects_complete (upper : string -> string) (maps : list Arcpy.Map)
    (info : dict) (e : exn) (raw : Mp.DocumentSources) :
  Mp.document_data_sources upper maps (Raise e) = Ok raw ->
  (forall l, In (Some l) (List.concat (Mp.doc_layers raw)) -> listed info l) ->
  exists docs,
    Mp.document_data_sources upper maps (Ok info) = Ok docs
    /\ forall l', In (Some l') (List.concat (Mp.doc_layers docs)) -> enriched info l'.
Proof.
  unfold Mp.document_data_sources.
  destruct (mapM _ maps) as [layers|]; cbn [bind]; [|discriminate].
  intro H. injection H as <-. cbn [Mp.doc_layers]. intro Hall.
  eexists. split; [reflexivity|]. cbn [Mp.doc_layers].
  destruct (enrich_group_ok info (List.concat layers) Hall) as [_ He].
  rewrite <- enrich_groups_flat in He. exact He.
Qed.

(** ** A sample document *)

(** [str.upper] on the letters a to z. *)
Fixpoint upper_ascii (s : string) : string :=
  match s with
  | EmptyString => EmptyString
  | String c r =>
      let n := nat_of_ascii c in
      String (if Nat.leb 97 n && Nat.leb n 122 then ascii_of_nat (n - 32) else c)
             (upper_ascii r)
  end.

Definition sde_properties : value :=
  VDict [("ServiceType", VStr "sde"); ("Server", VStr "gis01");
         ("Service", VStr "5151"); ("Database", VStr "cadastre");
         ("UserName", VStr "reader")].

Definition parcels_fields (shape : string) : Arcpy.FieldInfoObject :=
  Arcpy.mkFieldInfoObject (Ok 2%Z)
    (fun index => Ok (if Z.eqb index 0 then "OBJECTID" else "SHAPE"))
    (fun index => Ok (if Z.eqb index 0 then "VISIBLE" else shape)).

Definition parcels_layer (shape : string) : Arcpy.Layer :=
  Arcpy.mkLayer false false "Parcels" "Cadastre/Parcels"
    (fun k => negb (String.eqb k "connectionProperties"))
    (VStr "parcels") (VStr "gis01/cadastre/parcels") sde_properties
    (VStr "gis01.sde") (VBool true) (VStr "") VNone
    (Ok (Arcpy.mkDescription "FeatureLayer" (Ok (parcels_fields shape)))).

Definition cadastre_group : Arcpy.Layer :=
  Arcpy.mkLayer true false "Cadastre" "Cadastre" (fun _ => false)
    VNone VNone VNone VNone VNone VNone VNone (Raise (RuntimeError "group layer")).

Definition rivers_layer : Arcpy.Layer :=
  Arcpy.mkLayer false false "Rivers" "Rivers"
    (fun k => String.eqb k "datasetName" || String.eqb k "workspacePath")
    (VStr "rivers") VNone VNone (VStr "water.gdb") VNone VNone VNone
    (Raise (RuntimeError "broken data source")).

Definition owners_table : Arcpy.Table :=
  Arcpy.mkTable (VDict [("database", VStr "cadastre")]) (VStr "owners") (VStr "") "Owners".

Definition sample_maps : list Arcpy.Map :=
  [Arcpy.mkMap [cadastre_group; parcels_layer "VISIBLE"] [owners_table];
   Arcpy.mkMap [rivers_layer] []].

Definition parcels_details : dict :=
  Eval vm_compute in
    match Mapping3._get_layer_details upper_ascii (parcels_layer "VISIBLE") with
    | Ok (Some d) => d
    | _ => []
    end.

Definition parcels_details_hidden : dict :=
  Eval vm_compute in
    match Mapping3._get_layer_details upper_ascii (parcels_layer "HIDDEN") with
    | Ok (Some d) => d
    | _ => []
    end.

Definition sample_raw : Mp.DocumentSources :=
  Eval vm_compute in
    match Mp.document_data_sources upper_ascii sample_maps (Raise ValueError) with
    | Ok docs => docs
    | Raise _ => Mp.mkDocSources [] []
    end.

(** The two records of [sample_raw]. *)
Definition parcels_raw : dict :=
  Eval vm_compute in
    match nth 1 (List.concat (Mp.doc_layers sample_raw)) None with
    | Some l => l
    | None => []
    end.

Definition rivers_raw : dict :=
  Eval vm_compute in
    match nth 2 (List.concat (Mp.doc_layers sample_raw)) None with
    | Some l => l
    | None => []
    end.

Definition parcels_info : value :=
  VDict [("id", VInt 3); ("hasFixedId", VBool true); ("visible", VBool true);
         ("definitionQuery", VStr "")].

Definition rivers_info : value :=
  VDict [("id", VInt 4); ("hasFixedId", VBool true); ("visible", VBool false);
         ("definitionQuery", VStr "")].

Lemma layer_details_record_witness :
  assoc "name" parcels_details = Some (VStr "Parcels")
  /\ assoc "longName" parcels_details = Some (VStr "Cadastre/Parcels")
  /\ has_key "id" parcels_details = false
  /\ incl (keys parcels_details) ("name" :: "longName" :: "fields" :: optional_keys)
  /\ fields_by_position parcels_details.
Proof.
  apply (proj2 (layer_details_record upper_ascii (parcels_layer "VISIBLE")) parcels_details).
  reflexivity.
Defined.

Lemma pro_records_differ_witness :
  exists d,
    Mapping3._layer_diff (VDict parcels_details) (VDict parcels_details_hidden)
    = Ok (mk_entry Mapping3.layer_id_changed VNone VNone :: d).
Proof.
  apply (pro_records_differ upper_ascii (parcels_layer "VISIBLE") (parcels_layer "HIDDEN")
           parcels_details parcels_details_hidden); reflexivity.
Defined.

Lemma layer_diff_fields_witness :
  exists d es,
    Mapping3._layer_diff (VDict parcels_details) (VDict parcels_details_hidden)
    = Ok (d ++ es)
    /\ (forall e, In e d -> entry_type e <> 405%Z)
    /\ exists wa wb,
        es = [mk_entry 405 (VFields wa) (VFields wb)]
        /\ fields_apart [mkField 0 "OBJECTID" true; mkField 1 "SHAPE" true]
                        (map Mapping3.hash [mkField 0 "OBJECTID" true;
                                            mkField 1 "SHAPE" false]) wa
        /\ fields_apart [mkField 0 "OBJECTID" true; mkField 1 "SHAPE" false]
                        (map Mapping3.hash [mkField 0 "OBJECTID" true;
                                            mkField 1 "SHAPE" true]) wb.
Proof.
  apply (layer_diff_fields parcels_details parcels_details_hidden
           [mkField 0 "OBJECTID" true; mkField 1 "SHAPE" true]
           [mkField 0 "OBJECTID" true; mkField 1 "SHAPE" false]);
    try reflexivity; exact (positions_nodup 0 2).
Defined.

Lemma mp_arcobjects_frame_witness :
  exists docs,
    Mp.document_data_sources upper_ascii sample_maps
      (Ok [("Parcels", parcels_info); ("Rivers", rivers_info)]) = Ok docs
    /\ Mp.doc_tableViews docs = Mp.doc_tableViews sample_raw
    /\ Forall2 (Forall2 (same_but arcobjects_keys)) (Mp.doc_layers sample_raw)
               (Mp.doc_layers docs).
Proof.
  apply (mp_arcobjects_frame upper_ascii sample_maps
           (Ok [("Parcels", parcels_info); ("Rivers", rivers_info)]) ValueError sample_raw).
  reflexivity.
Defined.

Lemma mp_arcobjects_stops_witness :
  exists docs pre',
    Mp.document_data_sources upper_ascii sample_maps (Ok [("Rivers", rivers_info)]) = Ok docs
    /\ List.concat (Mp.doc_layers docs)
       = pre' ++ Some parcels_raw :: [Some rivers_raw]
    /\ List.length pre' = List.length [@None dict].
Proof.
  apply (mp_arcobjects_stops upper_ascii sample_maps [("Rivers", rivers_info)] ValueError
           sample_raw [None] [Some rivers_raw] parcels_raw "Parcels"); reflexivity.
Defined.

Lemma mp_arcobjects_complete_witness :
  exists docs,
    Mp.document_data_sources upper_ascii sample_maps
      (Ok [("Parcels", parcels_info); ("Rivers", rivers_info)]) = Ok docs
    /\ forall l', In (Some l') (List.concat (Mp.doc_layers docs)) ->
                  enriched [("Parcels", parcels_info); ("Rivers", rivers_info)] l'.
Proof.
  apply (mp_arcobjects_complete upper_ascii sample_maps
           [("Parcels", parcels_info); ("Rivers", rivers_info)] ValueError sample_raw).
  - reflexivity.
  - intros l Hl. simpl in Hl. destruct Hl as [Hl|[Hl|[Hl|[]]]]; [discriminate| |].
    + injection Hl as <-. exists "Parcels". eexists. split; [reflexivity|].
      split; [reflexivity|]. intros k Hk. simpl in Hk.
      repeat (destruct Hk as [<-|Hk]; [reflexivity|]). contradiction.
    + injection Hl as <-. exists "Rivers". eexists. split; [reflexivity|].
      split; [reflexivity|]. intros k Hk. simpl in Hk.
      repeat (destruct Hk as [<-|Hk]; [reflexivity|]). contradiction.
Defined.

(** ** The bulk rewriter: what ends it before its last map *)

Definition keys_error : exn :=
  ChangeDataSourcesError
    "Data sources dictionary does not contain both layers and tableViews keys" None.

(** The run of [change_data_sources] once the maps of [pre] are done. *)
Lemma change_data_sources_after (pre rest : list MapObject)
    (pre_ds rest_ds : list Mapping3.MapDataSources) :
  fits pre pre_ds = true ->
  Mapping3.change_data_sources (pre ++ rest) (pre_ds ++ rest_ds)
  = match Mapping3.maps_loop (List.length pre) (Mapping3.zip_longest rest rest_ds)
            (Mapping3.mkRw (project_failures pre pre_ds) (project_calls 0 pre pre_ds)) with
    | (st, Raise e) => (Mapping3.calls st, Raise e)
    | (st, Ok _) =>
        if negb (Nat.eqb (List.length (Mapping3.errors st)) 0)
        then (Mapping3.calls st,
              Raise (ChangeDataSourcesError
                       "A number of errors were encountered whilst change layer data sources."
                       (Some (Mapping3.errors st))))
        else (Mapping3.calls st, Ok tt)
    end.
Proof.
  intro Hf. unfold Mapping3.change_data_sources.
  rewrite (maps_loop_prefix pre pre_ds 0 (Mapping3.mkRw [] []) rest rest_ds Hf).
  reflexivity.
Qed.

(** X18.  A list of data sources that is shorter or longer than the list of the
    maps ends [change_data_sources] with a [TypeError] (a map without data
    sources) or with an [AttributeError] (data sources without a map).  The
    maps before that point have been rewritten by then, and the failures
    collected on them are not reported. *)
Theorem map_count_mismatch (pre : list MapObject)
    (pre_ds : list Mapping3.MapDataSources) :
  fits pre pre_ds = true ->
  (forall (pm : MapObject) (post : list MapObject),
      Mapping3.change_data_sources (pre ++ pm :: post) pre_ds
      = (project_calls 0 pre pre_ds, Raise TypeError))
  /\ (forall (mds : Mapping3.MapDataSources) (post_ds : list Mapping3.MapDataSources),
         has_key "layers" mds = true -> has_key "tableViews" mds = true ->
         Mapping3.change_data_sources pre (pre_ds ++ mds :: post_ds)
         = (project_calls 0 pre pre_ds, Raise AttributeError)).
Proof.
  intro Hf. split.
  - intros pm post.
    pose proof (change_data_sources_after pre (pm :: post) pre_ds [] Hf) as H.
    rewrite app_nil_r in H. rewrite H. reflexivity.
  - intros mds post_ds Hl Ht.
    pose proof (change_data_sources_after pre [] pre_ds (mds :: post_ds) Hf) as H.
    rewrite app_nil_r in H. rewrite H.
    cbn [Mapping3.zip_longest Mapping3.maps_loop]. unfold Mapping3.change_map.
    rewrite Hl, Ht. reflexivity.
Qed.

Lemma map_count_mismatch_witness :
  Mapping3.change_data_sources (sample_project ++ one_layer_project) sample_sources
  = (project_calls 0 sample_project sample_sources, Raise TypeError)
  /\ Mapping3.change_data_sources sample_project (sample_sources ++ one_table_too_many)
     = (project_calls 0 sample_project sample_sources, Raise AttributeError).
Proof.
  destruct (map_count_mismatch sample_project sample_sources eq_refl) as [H1 H2].
  split.
  - exact (H1 (mkMapObject [mkLayerObject "L0" (fun _ => Updated false)] []) []).
  - exact (H2 [("layers", Some [props_a]); ("tableViews", Some [VNone])] []
              eq_refl eq_refl).
Defined.

(** X19.  A dict of data sources without the key ["layers"] or without the key
    ["tableViews"] ends [change_data_sources] with a
    [ChangeDataSourcesError] before any layer or table of its map is
    touched; the maps before it have been rewritten by then, and the
    failures collected on them are not reported. *)
Theorem missing_keys_fatal (pre post : list MapObject) (pm : MapObject)
    (pre_ds post_ds : list Mapping3.MapDataSources) (mds : Mapping3.MapDataSources) :
  fits pre pre_ds = true ->
  has_key "layers" mds && has_key "tableViews" mds = false ->
  Mapping3.change_data_sources (pre ++ pm :: post) (pre_ds ++ mds :: post_ds)
  = (project_calls 0 pre pre_ds, Raise keys_error).
Proof.
  intros Hf Hk.
  rewrite (change_data_sources_after pre (pm :: post) pre_ds (mds :: post_ds) Hf).
  cbn [Mapping3.zip_longest Mapping3.maps_loop]. unfold Mapping3.change_map.
  destruct (has_key "layers" mds); destruct (has_key "tableViews" mds);
    try discriminate; reflexivity.
Qed.

Lemma missing_keys_fatal_witness :
  Mapping3.change_data_sources (sample_project ++ one_layer_project ++ [])
                               (sample_sources ++ [("layers", Some [props_a])] :: [])
  = (project_calls 0 sample_project sample_sources, Raise keys_error).
Proof.
  apply (missing_keys_fatal sample_project [] (mkMapObject [mkLayerObject "L0" (fun _ => Updated false)] [])
           sample_sources [] [("layers", Some [props_a])]); reflexivity.
Defined.

(** ** The list of replacement data sources *)

Lemma mapM_forall2 {A B : Type} (f : A -> result B) (l : list A) :
  forall l', mapM f l = Ok l' -> Forall2 (fun x y => f x = Ok y) l l'.
Proof.
  induction l as [|x l IH]; simpl; intros l' H.
  - injection H as <-. constructor.
  - destruct (f x) as [y|] eqn:E; cbn [bind] in H; [|discriminate].
    destruct (mapM f l) as [ys|]; cbn [bind] in H; [|discriminate].
    injection H as <-. constructor; [exact E | exact (IH ys eq_refl)].
Qed.

Lemma forall2_impl {A B : Type} (P Q : A -> B -> Prop) (l : list A) (l' : list B) :
  (forall x y, In x l -> P x y -> Q x y) -> Forall2 P l l' -> Forall2 Q l l'.
Proof.
  intros H F. induction F as [|x y l l' Hxy F IH]; constructor.
  - apply H; [left; reflexivity | exact Hxy].
  - apply IH. intros x' y' Hin. apply H. right. exact Hin.
Qed.

(** The criteria of a template hold for a record. *)
Definition template_matches (template item : dict) : Prop :=
  exists c, assoc "matchCriteria" template = Some (VDict c) /\ criteria_hold c item.

(** What [create_replacement_data_sources_list] may put at the place of a
    layer or table: [None] for [None]; for a record, the data source of a
    template whose criteria hold for it, or [None] when there is no such
    template; and never [None] for a record in strict mode. *)
Definition answers (templates : list dict) (strict : bool) (o : option dict) (v : value)
  : Prop :=
  match o with
  | None => v = VNone
  | Some item =>
      ((exists t, In t templates /\ template_matches t item
                  /\ assoc "dataSource" t = Some v)
       \/ (v = VNone /\ forall t, In t templates -> ~ template_matches t item))
      /\ (strict = true -> v <> VNone)
  end.

Lemma template_set_spec (template : dict) (ts : Mapping3.TemplateSet) :
  Mapping3.template_set template = Ok ts ->
  Mapping3.template_items ts = template
  /\ assoc "matchCriteria" template = Some (VDict (Mapping3.matchCriteria ts)).
Proof.
  unfold Mapping3.template_set.
  destruct (assoc "matchCriteria" template) as [[| | | |c| |]|]; try discriminate.
  destruct (forallb _ c); [|discriminate].
  intro H. injection H as <-. split; reflexivity.
Qed.

Lemma find_conn_sound (templates : list dict) (template_sets : list Mapping3.TemplateSet)
    (item : dict) (v : value) :
  Forall2 (fun t ts => Mapping3.template_set t = Ok ts) templates template_sets ->
  Mapping3.find_conn template_sets item = Ok v ->
  (exists t, In t templates /\ template_matches t item /\ assoc "dataSource" t = Some v)
  \/ (v = VNone /\ forall t, In t templates -> ~ template_matches t item).
Proof.
  intro F. induction F as [|t ts templates template_sets Hts F IH]; cbn [Mapping3.find_conn].
  - intro H. injection H as <-. right. split; [reflexivity | intros t []].
  - destruct (template_set_spec t ts Hts) as [Hitems Hcrit].
    destruct (Mapping3.issubset (Mapping3.matchCriteria ts) (Mapping3.frozen_items item))
      eqn:E.
    + apply issubset_iff in E. rewrite Hitems. cbn [py_getitem].
      destruct (assoc "dataSource" t) as [w|] eqn:Ed; [|discriminate].
      intro H. injection H as <-. left. exists t.
      split; [left; reflexivity|]. split; [|exact Ed].
      exists (Mapping3.matchCriteria ts). auto.
    + intro H. destruct (IH H) as [(t' & Hin & Hm & Hd) | [-> Hno]].
      * left. exists t'. split; [right; exact Hin | auto].
      * right. split; [reflexivity|]. intros t' [<-|Hin]; [|exact (Hno t' Hin)].
        intros (c & Hc & Hh). rewrite Hcrit in Hc. injection Hc as <-.
        apply issubset_iff in Hh. congruence.
Qed.

Lemma match_sound (templates : list dict) (template_sets : list Mapping3.TemplateSet)
    (strict : bool) (o : option dict) (v : value) :
  Forall2 (fun t ts => Mapping3.template_set t = Ok ts) templates template_sets ->
  Mapping3.match_new_data_source template_sets strict o = Ok v ->
  answers templates strict o v.
Proof.
  intros F. unfold Mapping3.match_new_data_source, answers.
  destruct o as [item|]; [|intro H; injection H as <-; reflexivity].
  destruct (Mapping3.find_conn template_sets item) as [w|] eqn:E; cbn [bind];
    [|discriminate].
  destruct (py_eq w VNone && strict) eqn:Es; [discriminate|].
  intro H. injection H as <-. split; [exact (find_conn_sound _ _ _ _ F E)|].
  intros -> ->. discriminate.
Qed.

Lemma replacement_list_answers (docs : list Mapping3.MapSources) (templates : list dict)
    (strict : bool) (reps : list Mapping3.Replacement) :
  Mapping3.create_replacement_data_sources_list docs templates strict = Ok reps ->
  Forall2 (fun df r =>
             Forall2 (answers templates strict) (Mapping3.src_layers df)
                     (Mapping3.rep_layers r)
             /\ Forall2 (fun table v => answers templates strict (Some table) v)
                        (Mapping3.src_tableViews df) (Mapping3.rep_tableViews r))
          docs reps.
Proof.
  unfold Mapping3.create_replacement_data_sources_list.
  destruct (mapM Mapping3.template_set templates) as [template_sets|] eqn:Ets;
    cbn [bind]; [|discriminate].
  apply mapM_forall2 in Ets. intro H. apply mapM_forall2 in H.
  revert H. apply forall2_impl. intros df r _ H.
  destruct (mapM (Mapping3.match_new_data_source template_sets strict)
                 (Mapping3.src_layers df)) as [ls|] eqn:El; cbn [bind] in H;
    [|discriminate].
  destruct (mapM _ (Mapping3.src_tableViews df)) as [tbs|] eqn:Et; cbn [bind] in H;
    [|discriminate].
  injection H as <-. cbn [Mapping3.rep_layers Mapping3.rep_tableViews].
  apply mapM_forall2 in El, Et. split.
  - revert El. apply forall2_impl. intros o v _. apply match_sound, Ets.
  - revert Et. apply forall2_impl. intros o v _. apply match_sound, Ets.
Qed.

(** X20.  Every list that [create_replacement_data_sources_list] returns has one
    entry for each map, and in it one answer for each layer and one for
    each table, at the same places: [None] for a group layer; for a record,
    the data source of a template whose criteria the record meets, or
    [None] where no template is met; and in strict mode no record is
    answered by [None]. *)
Theorem replacement_list_sound (docs : list Mapping3.MapSources) (templates : list dict)
    (strict : bool) (reps : list Mapping3.Replacement) :
  Mapping3.create_replacement_data_sources_list docs templates strict = Ok reps ->
  Forall2 (fun df r =>
             Forall2 (answers templates strict) (Mapping3.src_layers df)
                     (Mapping3.rep_layers r)
             /\ Forall2 (fun table v => answers templates strict (Some table) v)
                        (Mapping3.src_tableViews df) (Mapping3.rep_tableViews r))
          docs reps.
Proof.
  exact (replacement_list_answers docs templates strict reps).
Qed.

(** A template as the function expects it: criteria that are a dict of
    strings, numbers, truth values or [None], and a data source. *)
Definition well_formed (template : dict) : Prop :=
  (exists c, assoc "matchCriteria" template = Some (VDict c)
             /\ forallb (fun kv => hashable (snd kv)) c = true)
  /\ has_key "dataSource" template = true.

Lemma template_set_ok (template : dict) :
  well_formed template ->
  exists ts, Mapping3.template_set template = Ok ts.
Proof.
  intros [(c & Hc & Hh) _]. unfold Mapping3.template_set. rewrite Hc, Hh. eauto.
Qed.

Lemma find_conn_ok (templates : list dict) (template_sets : list Mapping3.TemplateSet)
    (item : dict) :
  Forall2 (fun t ts => Mapping3.template_set t = Ok ts) templates template_sets ->
  (forall t, In t templates -> well_formed t) ->
  exists v, Mapping3.find_conn template_sets item = Ok v.
Proof.
  intro F. induction F as [|t ts templates template_sets Hts F IH]; intro Hwf;
    cbn [Mapping3.find_conn].
  - eauto.
  - destruct (Mapping3.issubset _ _).
    + destruct (template_set_spec t ts Hts) as [-> _]. cbn [py_getitem].
      destruct (Hwf t (or_introl eq_refl)) as [_ Hd]. unfold has_key in Hd.
      destruct (assoc "dataSource" t); [eauto | discriminate].
    + apply IH. intros t' Hin. apply Hwf. right. exact Hin.
Qed.

(** X21.  With templates as the function expects them and without strict mode,
    [create_replacement_data_sources_list] returns a list for every list of
    documents: it does not raise. *)
Theorem replacement_list_total (docs : list Mapping3.MapSources) (templates : list dict) :
  (forall t, In t templates -> well_formed t) ->
  exists reps,
    Mapping3.create_replacement_data_sources_list docs templates false = Ok reps.
Proof.
  intro Hwf. unfold Mapping3.create_replacement_data_sources_list.
  destruct (mapM_ok Mapping3.template_set templates) as [template_sets Ets].
  { intros t Ht. apply template_set_ok, Hwf, Ht. }
  rewrite Ets. cbn [bind]. apply mapM_forall2 in Ets.
  assert (Hm : forall o, exists v,
             Mapping3.match_new_data_source template_sets false o = Ok v).
  { intros [item|]; unfold Mapping3.match_new_data_source; [|eauto].
    destruct (find_conn_ok templates template_sets item Ets Hwf) as [v ->].
    cbn [bind]. rewrite andb_false_r. eauto. }
  apply mapM_ok. intros df _.
  destruct (mapM_ok (Mapping3.match_new_data_source template_sets false)
                    (Mapping3.src_layers df)) as [ls ->]; [intros o _; apply Hm|].
  destruct (mapM_ok (fun table => Mapping3.match_new_data_source template_sets false
                                    (Some table))
                    (Mapping3.src_tableViews df)) as [tbs ->];
    [intros o _; apply Hm|].
  cbn [bind]. eauto.
Qed.

Definition parcels_template : dict :=
  [("matchCriteria", VDict [("datasetName", VStr "parcels")]);
   ("dataSource", VDict [("connectionProperties", props_a)])].

Definition sample_docs : list Mapping3.MapSources :=
  [Mapping3.mkSources [None; Some parcels_details] [[("name", VStr "Owners")]]].

Lemma replacement_list_sound_witness :
  Forall2 (fun df r =>
             Forall2 (answers [parcels_template] false) (Mapping3.src_layers df)
                     (Mapping3.rep_layers r)
             /\ Forall2 (fun table v => answers [parcels_template] false (Some table) v)
                        (Mapping3.src_tableViews df) (Mapping3.rep_tableViews r))
          sample_docs
          [Mapping3.mkReplacement [VNone; VDict [("connectionProperties", props_a)]]
                                  [VNone]].
Proof.
  apply (replacement_list_sound sample_docs [parcels_template] false). reflexivity.
Defined.

Lemma replacement_list_total_witness :
  exists reps,
    Mapping3.create_replacement_data_sources_list sample_docs [parcels_template] false
    = Ok reps.
Proof.
  apply (replacement_list_total sample_docs [parcels_template]).
  intros t [<-|[]]. split; [|reflexivity].
  exists [("datasetName", VStr "parcels")]. split; reflexivity.
Defined.

(** ** From the listing to the rewrite *)

(** An element of the list of replacements, as the dict that
    [change_data_sources] reads. *)
Definition as_data_sources (r : Mapping3.Replacement) : Mapping3.MapDataSources :=
  [("layers", Some (Mapping3.rep_layers r));
   ("tableViews", Some (Mapping3.rep_tableViews r))].

(** The map read by [list_document_data_sources] and the map rewritten by
    [change_data_sources] have as many layers and as many tables. *)
Definition same_size (mp : Arcpy.Map) (pm : MapObject) : Prop :=
  List.length (Arcpy.listLayers mp) = List.length (listLayers pm)
  /\ List.length (Arcpy.listTables mp) = List.length (listTables pm).

Lemma forall2_comp {X Y Z : Type} (R : X -> Y -> Prop) (S : Y -> Z -> Prop)
    (l1 : list X) (l2 : list Y) :
  Forall2 R l1 l2 ->
  forall l3, Forall2 S l2 l3 -> Forall2 (fun x z => exists y, R x y /\ S y z) l1 l3.
Proof.
  induction 1 as [|x y l1 l2 Hxy F IH]; intros l3 G; inversion G; subst; constructor.
  - eauto.
  - apply IH. assumption.
Qed.

Lemma forall2_flip {X Y : Type} (R : X -> Y -> Prop) (l1 : list X) (l2 : list Y) :
  Forall2 R l1 l2 -> Forall2 (fun y x => R x y) l2 l1.
Proof.
  induction 1; constructor; assumption.
Qed.

Lemma forall2_length {X Y : Type} (R : X -> Y -> Prop) (l1 : list X) (l2 : list Y) :
  Forall2 R l1 l2 -> List.length l1 = List.length l2.
Proof.
  induction 1; simpl; congruence.
Qed.

Lemma fits_forall2 (project : list MapObject) (reps : list Mapping3.Replacement) :
  Forall2 (fun pm r => map_fits pm (as_data_sources r) = true) project reps ->
  fits project (map as_data_sources reps) = true.
Proof.
  induction 1 as [|pm r project reps H F IH]; cbn [map fits].
  - reflexivity.
  - rewrite H, IH. reflexivity.
Qed.

Lemma answers_table_ok (templates : list dict) (strict : bool)
    (tables : list dict) (vs : list value) :
  (forall t v, In t templates -> assoc "dataSource" t = Some v ->
               table_source_ok v = true) ->
  Forall2 (fun table v => answers templates strict (Some table) v) tables vs ->
  forallb table_source_ok vs = true.
Proof.
  intros Hp F. induction F as [|table v tables vs [H _] F IH]; cbn [forallb].
  - reflexivity.
  - rewrite IH, andb_true_r.
    destruct H as [(t & Hin & _ & Hd) | [-> _]]; [exact (Hp t v Hin Hd) | reflexivity].
Qed.

(** X22.  The list of replacements computed from the listing of a project passes
    the checks of [change_data_sources] on that project: where every data
    source of a template is a dict or [None], the rewrite runs over all
    maps, layers and tables, and ends normally or with the error that
    carries the failures of the single layers and tables; it does not end
    on the number of maps, of layers or of tables, nor on a missing key. *)
Theorem replacements_fit (upper : string -> string) (maps : list Arcpy.Map)
    (project : list MapObject) (templates : list dict) (strict : bool)
    (srcs : list Mapping3.MapSources) (reps : list Mapping3.Replacement) :
  Forall2 same_size maps project ->
  (forall t v, In t templates -> assoc "dataSource" t = Some v ->
               table_source_ok v = true) ->
  Mapping3.document_data_sources upper maps = Ok srcs ->
  Mapping3.create_replacement_data_sources_list srcs templates strict = Ok reps ->
  Mapping3.change_data_sources project (map as_data_sources reps)
  = (project_calls 0 project (map as_data_sources reps),
     match project_failures project (map as_data_sources reps) with
     | [] => Ok tt
     | failures =>
         Raise (ChangeDataSourcesError
                  "A number of errors were encountered whilst change layer data sources."
                  (Some failures))
     end).
Proof.
  intros Hsize Hp Hsrcs Hreps.
  assert (Hf : fits project (map as_data_sources reps) = true).
  { apply fits_forall2.
    unfold Mapping3.document_data_sources in Hsrcs. apply mapM_forall2 in Hsrcs.
    apply replacement_list_answers in Hreps.
    pose proof (forall2_comp _ _ _ _ (forall2_flip _ _ _ Hsize) _
                  (forall2_comp _ _ _ _ Hsrcs _ Hreps)) as F.
    revert F. apply forall2_impl.
    intros pm r _ (mp & [Hl Ht] & df & Hdf & Hal & Hat).
    destruct (mapM (Mapping3._get_layer_details upper) (Arcpy.listLayers mp))
      as [ls|] eqn:Els; cbn [bind] in Hdf; [|discriminate].
    injection Hdf as <-. cbn [Mapping3.src_layers Mapping3.src_tableViews] in Hal, Hat.
    apply mapM_forall2, forall2_length in Els.
    pose proof (forall2_length _ _ _ Hal) as Ll.
    pose proof (forall2_length _ _ _ Hat) as Lt. rewrite length_map in Lt.
    unfold map_fits, as_data_sources. cbn [assoc String.eqb Ascii.eqb Bool.eqb].
    rewrite (answers_table_ok templates strict _ _ Hp Hat), andb_true_r.
    apply andb_true_intro. split; apply Nat.eqb_eq; congruence. }
  pose proof (change_data_sources_after project [] (map as_data_sources reps) [] Hf) as H.
  rewrite !app_nil_r in H. rewrite H.
  cbn [Mapping3.zip_longest Mapping3.maps_loop Mapping3.errors Mapping3.calls].
  destruct (project_failures project (map as_data_sources reps)); reflexivity.
Qed.

Definition sample_objects : list MapObject :=
  [mkMapObject [mkLayerObject "Cadastre" (fun _ => Updated false);
                mkLayerObject "Parcels" (fun _ => Updated true)]
               [mkLayerObject "Owners" (fun _ => Updated false)];
   mkMapObject [mkLayerObject "Rivers" (fun _ => UpdateRaises)] []].

Definition sample_srcs : list Mapping3.MapSources :=
  Eval vm_compute in
    match Mapping3.document_data_sources upper_ascii sample_maps with
    | Ok srcs => srcs
    | Raise _ => []
    end.

Definition owners_template : dict :=
  [("matchCriteria", VDict [("name", VStr "Owners")]);
   ("dataSource", VDict [("connectionProperties", props_a)])].

Definition sample_reps : list Mapping3.Replacement :=
  Eval vm_compute in
    match Mapping3.create_replacement_data_sources_list
            sample_srcs [parcels_template; owners_template] false with
    | Ok reps => reps
    | Raise _ => []
    end.

Lemma replacements_fit_witness :
  Mapping3.change_data_sources sample_objects (map as_data_sources sample_reps)
  = (project_calls 0 sample_objects (map as_data_sources sample_reps),
     match project_failures sample_objects (map as_data_sources sample_reps) with
     | [] => Ok tt
     | failures =>
         Raise (ChangeDataSourcesError
                  "A number of errors were encountered whilst change layer data sources."
                  (Some failures))
     end).
Proof.
  apply (replacements_fit upper_ascii sample_maps sample_objects
           [parcels_template; owners_template] false sample_srcs sample_reps).
  - repeat constructor.
  - intros t v [<-|[<-|[]]] H; injection H as <-; reflexivity.
  - reflexivity.
  - reflexivity.
Defined.

(** ** What the correlation stores for a matched pair *)

(** The first matcher: same id, same name and same dataset. *)
Definition unchanged_rule (a b : value) : bool :=
  same_at "id" a b && same_at "name" a b && same_at "datasetName" a b.

Section Outcome.

Variable eqf : value -> value -> string -> result bool.
Variable ld : value -> value -> result (list diff_entry).

Hypothesis eqf_dict :
  forall (da db : dict) (k : string),
    eqf (VDict da) (VDict db) k = Ok (same_at k (VDict da) (VDict db)).
Hypothesis ld_ok :
  forall a b, layer_ok a = true -> layer_ok b = true -> exists d, ld a b = Ok d.

Lemma on_match_diff (i j : nat) (a : value) (t : match_test) (s : cstate)
    (na nb : string) :
  layer_ok a = true -> name_of a = Some na ->
  layer_ok (nth j (b_objs s) VNone) = true ->
  name_of (nth j (b_objs s) VNone) = Some nb ->
  exists d,
    ld a (nth j (b_objs s) VNone) = Ok d
    /\ let stop := negb (match ignore t with Some f => f | None => false end)
                   || Nat.ltb 0 (List.length d) in
       Correlation.on_match ld i a j t s = (fire_state i j na nb d stop s, Ok stop).
Proof.
  intros Ha Hna Hb Hnb.
  destruct (ld_ok a _ Ha Hb) as [d Hd]. exists d. split; [exact Hd|]. intro stop.
  unfold Correlation.on_match.
  cbv [mbind modify gets lift get_b ret log_pair set_resolved_a set_resolved_b
       set_b_obj append_updated added updated removed resolved_a resolved_b
       b_objs pairs].
  rewrite (mark_spec _ a na Hna).
  change (match s with mkState _ _ _ _ _ o _ => o end) with (b_objs s).
  rewrite (mark_spec _ _ nb Hnb). rewrite Hd.
  destruct (nth j (b_objs s) VNone) as [| | | |db| |] eqn:Eb; try discriminate.
  cbn [py_setitem]. fold stop. unfold fire_state. rewrite Eb. cbn [with_diff].
  destruct stop; destruct s; reflexivity.
Qed.

Lemma guarded_loop_diff (i j : nat) (a : value) (na nb : string)
    (ts : list match_test) (gs : list (value -> value -> bool)) :
  Forall2 guarded ts gs ->
  forall (m : bool) (s : cstate),
    layer_ok a = true -> name_of a = Some na ->
    layer_ok (nth j (b_objs s) VNone) = true ->
    name_of (nth j (b_objs s) VNone) = Some nb ->
    if free (resolved_a s) (resolved_b s) na nb
       && existsb (fun g => g a (nth j (b_objs s) VNone)) gs
    then exists d, ld a (nth j (b_objs s) VNone) = Ok d
                   /\ Correlation.tests_loop ld i a j ts m s
                      = (fire_state i j na nb d true s, Ok true)
    else Correlation.tests_loop ld i a j ts m s
         = (s, Ok (match ts with [] => m | _ => false end)).
Proof.
  induction 1 as [|t g ts gs [Hign Hfn] _ IH]; intros m s Ha Hna Hb Hnb.
  - cbn [existsb]. rewrite andb_false_r. reflexivity.
  - rewrite (tests_loop_cons ld), (Hfn _ _ a _ na nb Ha Hb Hna Hnb).
    cbn [existsb]. specialize (IH false s Ha Hna Hb Hnb).
    destruct (free (resolved_a s) (resolved_b s) na nb);
      destruct (g a (nth j (b_objs s) VNone)); cbn [andb orb] in *.
    + destruct (layer_ok_name _ Hb) as (db & _ & Eb & _).
      replace (is_none (nth j (b_objs s) VNone)) with false by (rewrite Eb; reflexivity).
      destruct (on_match_diff i j a t s na nb Ha Hna Hb Hnb) as (d & Hld & Hd).
      rewrite Hign in Hd. cbn [negb orb] in Hd. rewrite Hd. exists d.
      split; [exact Hld | reflexivity].
    + cbn [is_none].
      destruct (existsb (fun g0 => g0 a (nth j (b_objs s) VNone)) gs);
        [exact IH | rewrite IH; destruct ts; reflexivity].
    + cbn [is_none]. rewrite IH. destruct ts; reflexivity.
    + cbn [is_none]. rewrite IH. destruct ts; reflexivity.
Qed.

(** The loop over the matchers for one before-layer and one after-layer,
    with what it stores: the diff of the two records, and the after-layer
    among the updated ones unless the first matcher held and the diff is
    empty. *)
Lemma pair_step_diff (i j : nat) (a : value) (na nb : string) (m : bool) (s : cstate) :
  layer_ok a = true -> name_of a = Some na ->
  layer_ok (nth j (b_objs s) VNone) = true ->
  name_of (nth j (b_objs s) VNone) = Some nb ->
  if fires (resolved_a s) (resolved_b s) a (nth j (b_objs s) VNone) na nb
  then exists d,
      ld a (nth j (b_objs s) VNone) = Ok d
      /\ let stop := negb (unchanged_rule a (nth j (b_objs s) VNone))
                     || Nat.ltb 0 (List.length d) in
         Correlation.tests_loop ld i a j (Correlation.tests eqf) m s
         = (fire_state i j na nb d stop s, Ok stop)
  else Correlation.tests_loop ld i a j (Correlation.tests eqf) m s = (s, Ok false).
Proof.
  intros Ha Hna Hb Hnb.
  set (t1 := hd (mkTest (fun _ _ _ _ => Ok VNone) "" None) (Correlation.tests eqf)).
  set (rest := tl (Correlation.tests eqf)).
  pose proof (guarded_loop_diff i j a na nb _ _ (tests_guarded eqf eqf_dict) false s
                Ha Hna Hb Hnb) as Hg.
  fold rest in Hg.
  destruct (on_match_diff i j a t1 s na nb Ha Hna Hb Hnb) as (d & Hld & Hd).
  cbn zeta in Hd. replace (ignore t1) with (Some true) in Hd by reflexivity.
  cbn [negb orb] in Hd.
  pose proof (nth_inbounds j _ Hb) as Hj.
  destruct (layer_ok_name a Ha) as (da & _ & -> & _).
  destruct (layer_ok_name _ Hb) as (db & _ & Edb & _).
  assert (Hstep :
    Correlation.tests_loop ld i (VDict da) j (Correlation.tests eqf) m s
    = if unchanged_rule (VDict da) (VDict db)
      then if Nat.ltb 0 (List.length d)
           then (fire_state i j na nb d true s, Ok true)
           else Correlation.tests_loop ld i (VDict da) j rest true
                  (fire_state i j na nb d false s)
      else Correlation.tests_loop ld i (VDict da) j rest false s).
  { change (Correlation.tests eqf) with (t1 :: rest).
    rewrite (tests_loop_cons ld), Hd, Edb. unfold t1.
    rewrite (proj2 (first_test_spec eqf eqf_dict _ _ da db)). fold t1.
    unfold unchanged_rule.
    destruct (same_at "id" (VDict da) (VDict db) && same_at "name" (VDict da) (VDict db)
              && same_at "datasetName" (VDict da) (VDict db)); cbn [is_none];
      [destruct (Nat.ltb 0 (List.length d))|]; reflexivity. }
  rewrite Hstep. clear Hstep. unfold fires. rewrite Edb in *.
  fold (unchanged_rule (VDict da) (VDict db)).
  destruct (unchanged_rule (VDict da) (VDict db)) eqn:Eu; cbn [orb negb].
  - (* the first matcher holds *)
    exists d. split; [exact Hld|]. cbn zeta.
    destruct (Nat.ltb 0 (List.length d)); [reflexivity|].
    set (s' := fire_state i j na nb d false s).
    assert (Hobj : nth j (b_objs s') VNone = with_diff (VDict db) d).
    { unfold s', fire_state. cbn [b_objs]. rewrite Edb. apply nth_set_nth_same, Hj. }
    pose proof (with_diff_core (VDict db) d Hb) as Hcore.
    assert (Hb' : layer_ok (nth j (b_objs s') VNone) = true)
      by (rewrite Hobj, (same_core_layer_ok _ _ Hcore); exact Hb).
    assert (Hnb' : name_of (nth j (b_objs s') VNone) = Some nb)
      by (rewrite Hobj, (same_core_name _ _ Hcore); exact Hnb).
    pose proof (guarded_loop ld ld_ok i j (VDict da) na nb _ _
                  (tests_guarded eqf eqf_dict) true s' Ha Hna Hb' Hnb') as Hg'.
    fold rest in Hg'.
    replace (free (resolved_a s') (resolved_b s') na nb) with false in Hg'.
    + cbn [andb] in Hg'. exact Hg'.
    + unfold s', fire_state, free. cbn [resolved_a resolved_b].
      rewrite rmem_radd, String.eqb_refl, orb_true_r. reflexivity.
  - (* a matcher that asks for unresolved layers *)
    unfold guards in Hg. cbn [existsb] in Hg.
    assert (Hex : (same_at "id" (VDict da) (VDict db) && same_at "name" (VDict da) (VDict db)
                   || (same_at "id" (VDict da) (VDict db)
                       && same_at "datasetName" (VDict da) (VDict db)
                       || (same_at "id" (VDict da) (VDict db)
                           || (same_at "name" (VDict da) (VDict db)
                               && same_at "datasetName" (VDict da) (VDict db)
                               || (same_at "name" (VDict da) (VDict db) || false)))))
                  = (same_at "id" (VDict da) (VDict db)
                     || same_at "name" (VDict da) (VDict db))).
    { destruct (same_at "id" (VDict da) (VDict db));
        destruct (same_at "name" (VDict da) (VDict db));
        destruct (same_at "datasetName" (VDict da) (VDict db)); reflexivity. }
    rewrite Hex in Hg.
    destruct (free (resolved_a s) (resolved_b s) na nb
              && (same_at "id" (VDict da) (VDict db)
                  || same_at "name" (VDict da) (VDict db))).
    + destruct Hg as (d' & Hld' & Hg). exists d'. split; [exact Hld' | exact Hg].
    + rewrite Hg. reflexivity.
Qed.

Variables A B : list value.
Hypothesis A_ok : pool_ok A = true.
Hypothesis B_ok : pool_ok B = true.

(** What the after-layers hold while the loops run: an after-layer that is
    not matched is as it was given; a matched one has, under ["diff"], the
    diff against the before-layer it is matched with, and is among the
    updated layers unless the first matcher held and the diff is empty. *)
Record out (s : cstate) : Prop := mkOut {
  out_free :
    forall j, j < List.length B -> matched_b s j = false ->
              nth j (b_objs s) VNone = nth j B VNone;
  out_pair :
    forall i j, In (i, j) (pairs s) ->
      exists d, ld (nth i A VNone) (nth j B VNone) = Ok d
                /\ nth j (b_objs s) VNone = with_diff (nth j B VNone) d
                /\ (In j (updated s)
                    <-> unchanged_rule (nth i A VNone) (nth j B VNone) = false \/ d <> []);
  out_updated : forall j, In j (updated s) -> matched_b s j = true;
  out_nodup : NoDup (updated s)
}.

Lemma out_same (s s' : cstate) :
  out s -> pairs s' = pairs s -> b_objs s' = b_objs s -> updated s' = updated s ->
  out s'.
Proof.
  intros [O1 O2 O3 O4] Hp Ho Hu.
  constructor; unfold matched_b in *; rewrite ?Hp, ?Ho, ?Hu; assumption.
Qed.

Lemma out_init : out (init_state B).
Proof.
  constructor; cbn [init_state b_objs pairs updated].
  - reflexivity.
  - intros i j [].
  - intros j [].
  - constructor.
Qed.

Lemma out_fire (s : cstate) (j i : nat) (na nb : string) (d : list diff_entry) :
  inv A B s j i -> out s -> i < List.length A -> j < List.length B ->
  name_of (nth j B VNone) = Some nb ->
  free (resolved_a s) (resolved_b s) na nb = true ->
  ld (nth i A VNone) (nth j (b_objs s) VNone) = Ok d ->
  out (fire_state i j na nb d
         (negb (unchanged_rule (nth i A VNone) (nth j (b_objs s) VNone))
          || Nat.ltb 0 (List.length d)) s).
Proof.
  intros I [O1 O2 O3 O4] Hi Hj HnB F Hld.
  assert (Hun : matched_b s j = false).
  { destruct (matched_b s j) eqn:Em; [|reflexivity]. exfalso.
    apply matched_b_in in Em as [i' Hin].
    assert (R : rmem nb (resolved_b s) = true)
      by (apply (inv_rb A B s j i I); right; eauto).
    unfold free in F. rewrite R, andb_false_r in F. discriminate. }
  assert (Hnew : forall i', ~ In (i', j) (pairs s)).
  { intros i' Hin. assert (matched_b s j = true) by (apply matched_b_in; eauto).
    congruence. }
  assert (Hnu : ~ In j (updated s)) by (intro H; apply O3 in H; congruence).
  pose proof (O1 j Hj Hun) as HBj. rewrite HBj in *.
  assert (Hlen : j < List.length (b_objs s)).
  { rewrite <- (forall2_length _ _ _ (inv_objs A B s j i I)). exact Hj. }
  set (stop := negb (unchanged_rule (nth i A VNone) (nth j B VNone))
               || Nat.ltb 0 (List.length d)).
  assert (Hup : forall j', In j' (updated (fire_state i j na nb d stop s))
                           <-> In j' (updated s) \/ (stop = true /\ j' = j)).
  { intro j'. cbn [fire_state updated]. destruct stop.
    - rewrite in_app_iff. simpl. intuition.
    - intuition discriminate. }
  constructor.
  - intros j' Hj' Hm.
    assert (Hne : j' <> j).
    { intros ->. assert (matched_b (fire_state i j na nb d stop s) j = true).
      { apply matched_b_in. exists i. cbn [fire_state pairs].
        apply in_or_app. right. left. reflexivity. }
      congruence. }
    cbn [fire_state b_objs]. rewrite nth_set_nth_other by exact Hne.
    apply O1; [exact Hj'|].
    destruct (matched_b s j') eqn:Em; [|reflexivity].
    apply matched_b_in in Em as [i' Hin].
    assert (matched_b (fire_state i j na nb d stop s) j' = true).
    { apply matched_b_in. exists i'. cbn [fire_state pairs].
      apply in_or_app. left. exact Hin. }
    congruence.
  - intros i' j' Hin. cbn [fire_state pairs] in Hin.
    apply in_app_or in Hin as [Hin|[E|[]]].
    + assert (Hne : j' <> j) by (intros ->; exact (Hnew i' Hin)).
      destruct (O2 i' j' Hin) as (d' & Hd' & Hobj & Hiff).
      exists d'. split; [exact Hd'|]. split.
      * cbn [fire_state b_objs]. rewrite nth_set_nth_other by exact Hne. exact Hobj.
      * rewrite Hup. rewrite <- Hiff. intuition.
    + injection E as <- <-. exists d. split; [exact Hld|]. split.
      * cbn [fire_state b_objs]. rewrite HBj. apply nth_set_nth_same. exact Hlen.
      * rewrite Hup. unfold stop.
        destruct (unchanged_rule (nth i A VNone) (nth j B VNone));
          destruct d as [|e d]; cbn [negb orb List.length Nat.ltb Nat.leb]; split.
        -- intros [H|[H _]]; [contradiction | discriminate H].
        -- intros [H|H]; [discriminate H | exfalso; apply H; reflexivity].
        -- intros _. right. discriminate.
        -- intros _. right. split; reflexivity.
        -- intros _. left. reflexivity.
        -- intros _. right. split; reflexivity.
        -- intros _. left. reflexivity.
        -- intros _. right. split; reflexivity.
  - intros j' Hin. apply Hup in Hin. apply matched_b_in.
    destruct Hin as [Hin|[_ ->]].
    + apply O3, matched_b_in in Hin as [i' Hin]. exists i'.
      cbn [fire_state pairs]. apply in_or_app. left. exact Hin.
    + exists i. cbn [fire_state pairs]. apply in_or_app. right. left. reflexivity.
  - cbn [fire_state updated]. destruct stop; [|exact O4].
    apply nodup_snoc; assumption.
Qed.

Lemma a_step_out (s : cstate) (j i : nat) (m : bool) :
  inv A B s j i -> out s -> i < List.length A -> j < List.length B ->
  exists s' m',
    Correlation.tests_loop ld i (nth i A VNone) j (Correlation.tests eqf) m s = (s', Ok m')
    /\ inv A B s' j (S i) /\ (m' = true -> matched_b s' j = true) /\ out s'.
Proof.
  intros I O Hi Hj.
  destruct (a_step eqf ld eqf_dict ld_ok A B A_ok B_ok s j i m I Hi Hj)
    as (s' & m' & E & I' & Hm).
  exists s', m'. split; [exact E|]. split; [exact I'|]. split; [exact Hm|].
  pose proof (pool_layer_ok A i A_ok Hi) as Ha.
  pose proof (pool_layer_ok B j B_ok Hj) as HBj.
  pose proof (inv_b_obj A B s j i I Hj) as Hc.
  destruct (layer_ok_name _ Ha) as (da & na & Ea & Hna).
  destruct (layer_ok_name _ HBj) as (dB & nb & EB & HnB).
  assert (Hb : layer_ok (nth j (b_objs s) VNone) = true)
    by (rewrite (same_core_layer_ok _ _ Hc); exact HBj).
  assert (Hnb : name_of (nth j (b_objs s) VNone) = Some nb)
    by (rewrite (same_core_name _ _ Hc); exact HnB).
  pose proof (pair_step_diff i j (nth i A VNone) na nb m s Ha Hna Hb Hnb) as Hstep.
  assert (Hfires : fires (resolved_a s) (resolved_b s) (nth i A VNone)
                         (nth j (b_objs s) VNone) na nb
                   = fires (resolved_a s) (resolved_b s) (nth i A VNone)
                           (nth j B VNone) na nb).
  { unfold fires. rewrite !(same_core_same_at _ _ _ _ Hc) by discriminate. reflexivity. }
  rewrite Hfires in Hstep.
  destruct (fires (resolved_a s) (resolved_b s) (nth i A VNone) (nth j B VNone) na nb)
    eqn:Ef.
  - destruct Hstep as (d & Hld & Hstep). cbn zeta in Hstep. rewrite E in Hstep.
    injection Hstep as -> _.
    pose proof (fires_free A B A_ok B_ok s j i na nb I Hi Hj Hna HnB Ef) as F.
    exact (out_fire s j i na nb d I O Hi Hj HnB F Hld).
  - rewrite E in Hstep. injection Hstep as -> _. exact O.
Qed.

Lemma a_loop_out (j : nat) :
  j < List.length B ->
  forall (k i : nat) (s : cstate) (m : bool),
    i + k = List.length A -> inv A B s j i -> out s ->
    (m = true -> matched_b s j = true) ->
    exists s' m',
      Correlation.a_loop eqf ld i (skipn i A) j m s = (s', Ok m')
      /\ inv A B s' j (List.length A) /\ (m' = true -> matched_b s' j = true) /\ out s'.
Proof.
  intro Hj. induction k as [|k IH]; intros i s m Hik I O Hm.
  - assert (i = List.length A) by lia. subst i. rewrite skipn_all.
    exists s, m. auto.
  - assert (Hi : i < List.length A) by lia.
    rewrite (skipn_nth A VNone i Hi). cbn [Correlation.a_loop]. unfold mbind.
    destruct (a_step_out s j i m I O Hi Hj) as (s1 & m1 & E & I1 & Hm1 & O1). rewrite E.
    apply IH; [lia | exact I1 | exact O1 | exact Hm1].
Qed.

(** What follows the loop over the before-layers in the body of the loop
    over the after-layers leaves the matches, the after-layers and the
    updated layers as they are. *)
Lemma b_body_keeps (j : nat) (s s1 : cstate) (m1 : bool) :
  Correlation.a_loop eqf ld 0 A j false s = (s1, Ok m1) ->
  pairs (fst (Correlation.b_body eqf ld A j s)) = pairs s1
  /\ b_objs (fst (Correlation.b_body eqf ld A j s)) = b_objs s1
  /\ updated (fst (Correlation.b_body eqf ld A j s)) = updated s1.
Proof.
  intro E. unfold Correlation.b_body, mbind. rewrite E.
  destruct m1; cbn [negb]; [cbv [ret]; auto|].
  cbv [get_b gets lift].
  destruct (is_resolved (resolved_b s1) (nth j (b_objs s1) VNone)) as [r|];
    [|cbn [fst]; auto].
  destruct r; cbn [negb]; [cbv [ret]; auto|].
  destruct (mark (resolved_b s1) (nth j (b_objs s1) VNone)); cbn [fst]; auto.
Qed.

Lemma b_body_out (j : nat) (s : cstate) :
  j < List.length B -> inv A B s j 0 -> out s ->
  exists s', Correlation.b_body eqf ld A j s = (s', Ok tt)
             /\ inv A B s' (S j) 0 /\ out s'.
Proof.
  intros Hj I O.
  destruct (b_body_inv eqf ld eqf_dict ld_ok A B A_ok B_ok j s Hj I) as (s' & E & I').
  exists s'. split; [exact E|]. split; [exact I'|].
  destruct (a_loop_out j Hj (List.length A) 0 s false eq_refl I O)
    as (s1 & m1 & E1 & _ & _ & O1); [discriminate|].
  rewrite skipn_O in E1.
  destruct (b_body_keeps j s s1 m1 E1) as (Kp & Ko & Ku).
  rewrite E in Kp, Ko, Ku. cbn [fst] in Kp, Ko, Ku.
  exact (out_same s1 s' O1 Kp Ko Ku).
Qed.

Lemma b_loop_out :
  forall (k j : nat) (s : cstate),
    j + k = List.length B -> inv A B s j 0 -> out s ->
    exists s', Correlation.b_loop eqf ld A (seq j k) s = (s', Ok tt)
               /\ inv A B s' (List.length B) 0 /\ out s'.
Proof.
  induction k as [|k IH]; intros j s Hjk I O.
  - assert (j = List.length B) by lia. subst j. exists s. auto.
  - cbn [seq Correlation.b_loop]. unfold mbind.
    destruct (b_body_out j s ltac:(lia) I O) as (s1 & E & I1 & O1). rewrite E.
    apply IH; [lia | exact I1 | exact O1].
Qed.

(** The loop over the removed layers leaves the matches, the after-layers,
    the updated and the added layers as they are. *)
Lemma removed_loop_keeps (l : list value) :
  forall s : cstate,
    pairs (fst (Correlation.removed_loop l s)) = pairs s
    /\ b_objs (fst (Correlation.removed_loop l s)) = b_objs s
    /\ updated (fst (Correlation.removed_loop l s)) = updated s
    /\ added (fst (Correlation.removed_loop l s)) = added s.
Proof.
  induction l as [|a l IH]; intro s; cbn [Correlation.removed_loop].
  - cbv [ret]. auto.
  - cbv [mbind gets lift].
    destruct (is_resolved (resolved_a s) a) as [r|]; [|cbn [fst]; auto].
    destruct r; cbn [negb].
    + cbv [ret]. apply IH.
    + destruct (mark (resolved_a s) a) as [ra|]; [|cbn [fst]; auto].
      cbv [modify ret].
      match goal with
      | |- context [Correlation.removed_loop l ?x] => destruct (IH x) as (H1 & H2 & H3 & H4)
      end.
      rewrite H1, H2, H3, H4. auto.
Qed.

(** The state when the loops of [compare_layers] are left, on two pools of
    the data model. *)
Lemma correlate_outcome :
  let s := fst (Correlation.correlate eqf ld A B) in
  (forall i j, In (i, j) (pairs s) ->
     i < List.length A /\ j < List.length B
     /\ linked (nth i A VNone) (nth j B VNone) = true
     /\ exists d, ld (nth i A VNone) (nth j B VNone) = Ok d
                  /\ nth j (b_objs s) VNone = with_diff (nth j B VNone) d
                  /\ (In j (updated s)
                      <-> unchanged_rule (nth i A VNone) (nth j B VNone) = false
                          \/ d <> []))
  /\ (forall j, j < List.length B -> matched_b s j = false ->
                nth j (b_objs s) VNone = nth j B VNone)
  /\ NoDup (updated s)
  /\ (forall j, In j (updated s) -> matched_b s j = true /\ ~ In j (added s)).
Proof.
  cbn zeta. unfold Correlation.correlate, mbind.
  destruct (b_loop_out (List.length B) 0 (init_state B) eq_refl
              (inv_init A B B_ok) out_init) as (s1 & E1 & I1 & O1).
  rewrite E1.
  destruct (removed_loop_keeps A s1) as (Kp & Ko & Ku & Ka).
  destruct (Correlation.removed_loop A s1) as [s2 r]. cbn [fst] in Kp, Ko, Ku, Ka.
  assert (O2 : out s2) by exact (out_same s1 s2 O1 Kp Ko Ku).
  cbn [fst]. destruct O2 as [P1 P2 P3 P4]. repeat split.
  - rewrite Kp in H. destruct (inv_pairs A B s1 _ _ I1 i j H) as (Hi & _). exact Hi.
  - rewrite Kp in H. destruct (inv_pairs A B s1 _ _ I1 i j H) as (_ & Hj & _). exact Hj.
  - rewrite Kp in H. destruct (inv_pairs A B s1 _ _ I1 i j H) as (_ & _ & _ & _ & Hl).
    exact Hl.
  - exact (P2 i j H).
  - exact P1.
  - exact P4.
  - exact (P3 j H).
  - intro Hin. rewrite Ka, (inv_added A B s1 _ _ I1) in Hin.
    apply filter_In in Hin as [_ Hm]. apply negb_true_iff in Hm.
    pose proof (P3 j H) as Hm'. unfold matched_b in Hm, Hm'. rewrite Kp in Hm'.
    congruence.
Qed.

End Outcome.

(** X23.  [compare_layers] of [mp/_mp.py] on two pools of layer records whose
    names differ within each pool and whose ids differ within each pool.
    Two layers are matched only if they have the same id or the same name.
    The after-layer of a matched pair carries, under ["diff"], the list
    that [_layer_diff] gives for the pair, and is reported as updated, once,
    unless the pair has the same id, name and dataset and that list is
    empty.  An after-layer that is not matched is left as it was, and no
    updated layer is reported as added. *)
Theorem mp_matched_layers (a_layers b_layers : list value) :
  pool_ok a_layers = true -> pool_ok b_layers = true ->
  let s := fst (Mp.correlate a_layers b_layers) in
  (forall i j, In (i, j) (pairs s) ->
     i < List.length a_layers /\ j < List.length b_layers
     /\ linked (nth i a_layers VNone) (nth j b_layers VNone) = true
     /\ exists d, Mp._layer_diff (nth i a_layers VNone) (nth j b_layers VNone) = Ok d
                  /\ nth j (b_objs s) VNone = with_diff (nth j b_layers VNone) d
                  /\ (In j (updated s)
                      <-> unchanged_rule (nth i a_layers VNone) (nth j b_layers VNone)
                          = false
                          \/ d <> []))
  /\ (forall j, j < List.length b_layers -> matched_b s j = false ->
                nth j (b_objs s) VNone = nth j b_layers VNone)
  /\ NoDup (updated s)
  /\ (forall j, In j (updated s) -> matched_b s j = true /\ ~ In j (added s)).
Proof.
  intros Ha Hb.
  exact (correlate_outcome Mp.eq Mp._layer_diff mp_eq_dict mp_layer_diff_ok
                           a_layers b_layers Ha Hb).
Qed.

Lemma mp_matched_layers_witness :
  let a_layers := [VDict roads_2020; VDict rivers] in
  let b_layers := [VDict roads_2021; layer_A] in
  let s := fst (Mp.correlate a_layers b_layers) in
  (forall i j, In (i, j) (pairs s) ->
     i < List.length a_layers /\ j < List.length b_layers
     /\ linked (nth i a_layers VNone) (nth j b_layers VNone) = true
     /\ exists d, Mp._layer_diff (nth i a_layers VNone) (nth j b_layers VNone) = Ok d
                  /\ nth j (b_objs s) VNone = with_diff (nth j b_layers VNone) d
                  /\ (In j (updated s)
                      <-> unchanged_rule (nth i a_layers VNone) (nth j b_layers VNone)
                          = false
                          \/ d <> []))
  /\ (forall j, j < List.length b_layers -> matched_b s j = false ->
                nth j (b_objs s) VNone = nth j b_layers VNone)
  /\ NoDup (updated s)
  /\ (forall j, In j (updated s) -> matched_b s j = true /\ ~ In j (added s)).
Proof.
  apply (mp_matched_layers [VDict roads_2020; VDict rivers] [VDict roads_2021; layer_A]);
    reflexivity.
Defined.

(** ** The records of [_get_layer_details] of [mp/_mp.py] *)

(** The keys that [_get_layer_details] of [mp/_mp.py] may write after
    ["name"] and ["longName"], the fields apart. *)
Definition mp_optional_keys : list string :=
  ["datasetName"; "dataSource"; "serviceType"; "userName"; "server"; "service";
   "database"; "workspacePath"].

Lemma mp_service_details_frame (upper : string -> string) (layer : Arcpy.Layer)
    (d d' : dict) :
  Mp.service_details upper layer d = Ok d' -> frame mp_optional_keys d d'.
Proof.
  unfold Mp.service_details. intro H.
  destruct (Arcpy.supports layer "serviceProperties");
    [|injection H as <-; apply frame_refl].
  case_bind; subst; unfold mp_optional_keys; frame_steps.
Qed.

Lemma mp_set_supported_frame (w : list string) (layer : Arcpy.Layer) (k : string)
    (v : value) (d : dict) :
  In k w -> frame w d (Mp.set_supported layer k v d).
Proof.
  exact (set_supported_frame w layer k v d).
Qed.

Lemma mp_details_frame (upper : string -> string) (layer : Arcpy.Layer) (d : dict) :
  Mp._get_layer_details upper layer = Ok (Some d) ->
  frame ("fields" :: mp_optional_keys)
        [("name", VStr (Arcpy.name layer)); ("longName", VStr (Arcpy.longName layer))] d
  /\ fields_by_position d.
Proof.
  unfold Mp._get_layer_details.
  destruct (Arcpy.isGroupLayer layer && negb (Arcpy.isNetworkAnalystLayer layer));
    [discriminate|].
  destruct (Mp.service_details upper layer _) as [d1|] eqn:E; cbn [bind];
    [|discriminate].
  intro H. injection H as <-.
  apply mp_service_details_frame in E.
  match goal with
  | |- context [Mp.field_details layer ?x] => set (d2 := x)
  end.
  assert (F2 : frame mp_optional_keys
                 [("name", VStr (Arcpy.name layer));
                  ("longName", VStr (Arcpy.longName layer))] d2).
  { unfold d2.
    repeat (eapply frame_trans;
            [|apply mp_set_supported_frame; unfold mp_optional_keys; simpl; tauto]).
    eapply frame_trans; [|exact E].
    repeat (eapply frame_trans;
            [|apply mp_set_supported_frame; unfold mp_optional_keys; simpl; tauto]).
    apply frame_refl. }
  assert (Hnone : assoc "fields" d2 = None).
  { rewrite (F2 "fields"); [reflexivity|].
    unfold mp_optional_keys. simpl. intuition discriminate. }
  destruct (field_details_spec layer d2 Hnone) as [F3 Hpos].
  split; [|exact Hpos].
  eapply frame_trans.
  - apply (frame_weaken mp_optional_keys); [|exact F2]. intros k Hk. right. exact Hk.
  - apply (frame_weaken ["fields"]); [|exact F3]. intros k [<-|[]]. left. reflexivity.
Qed.

(** X24.  [_get_layer_details] of [mp/_mp.py] returns [None] for a group layer
    that is not a network analyst layer, and for no other layer.  A record
    that it returns has the name and the long name of the layer and no key
    but these two, eight optional attributes and ["fields"]; it has none of
    ["id"], ["visible"] and ["definitionQuery"], which only arcobjects
    gives; and it numbers the fields under ["fields"], when there are any,
    from 0 by their positions. *)
Theorem mp_layer_details_record (upper : string -> string) (layer : Arcpy.Layer) :
  (Mp._get_layer_details upper layer = Ok None
   <-> Arcpy.isGroupLayer layer && negb (Arcpy.isNetworkAnalystLayer layer) = true)
  /\ forall d,
      Mp._get_layer_details upper layer = Ok (Some d) ->
      assoc "name" d = Some (VStr (Arcpy.name layer))
      /\ assoc "longName" d = Some (VStr (Arcpy.longName layer))
      /\ has_key "id" d = false
      /\ has_key "visible" d = false
      /\ has_key "definitionQuery" d = false
      /\ incl (keys d) ("name" :: "longName" :: "fields" :: mp_optional_keys)
      /\ fields_by_position d.
Proof.
  split.
  - unfold Mp._get_layer_details.
    destruct (Arcpy.isGroupLayer layer && negb (Arcpy.isNetworkAnalystLayer layer)).
    + tauto.
    + destruct (Mp.service_details upper layer _); cbn [bind]; split; discriminate.
  - intros d H. destruct (mp_details_frame upper layer d H) as [F Hpos].
    assert (Hout : forall k, ~ In k ("fields" :: mp_optional_keys) ->
              assoc k d = assoc k [("name", VStr (Arcpy.name layer));
                                   ("longName", VStr (Arcpy.longName layer))])
      by exact F.
    assert (Hk : forall k, In k ["name"; "longName"; "id"; "visible"; "definitionQuery"] ->
                 ~ In k ("fields" :: mp_optional_keys)).
    { intros k Hk. unfold mp_optional_keys. simpl in *.
      repeat (destruct Hk as [<-|Hk]; [intuition discriminate|]). contradiction. }
    repeat split.
    + rewrite Hout; [reflexivity|]. apply Hk. simpl. tauto.
    + rewrite Hout; [reflexivity|]. apply Hk. simpl. tauto.
    + unfold has_key. rewrite Hout; [reflexivity|]. apply Hk. simpl. tauto.
    + unfold has_key. rewrite Hout; [reflexivity|]. apply Hk. simpl. tauto.
    + unfold has_key. rewrite Hout; [reflexivity|]. apply Hk. simpl. tauto.
    + intros k Hin. apply assoc_keys in Hin as [v Hv].
      destruct (in_dec string_dec k ("fields" :: mp_optional_keys)) as [Hin|Hout'].
      * right. right. exact Hin.
      * rewrite (Hout k Hout') in Hv. cbn [assoc] in Hv.
        destruct (String.eqb_spec k "name") as [->|_]; [left; reflexivity|].
        destruct (String.eqb_spec k "longName") as [->|_];
          [right; left; reflexivity | discriminate].
    + exact Hpos.
Qed.

Lemma mp_layer_details_record_witness :
  assoc "name" parcels_raw = Some (VStr "Parcels")
  /\ assoc "longName" parcels_raw = Some (VStr "Cadastre/Parcels")
  /\ has_key "id" parcels_raw = false
  /\ has_key "visible" parcels_raw = false
  /\ has_key "definitionQuery" parcels_raw = false
  /\ incl (keys parcels_raw) ("name" :: "longName" :: "fields" :: mp_optional_keys)
  /\ fields_by_position parcels_raw.
Proof.
  apply (proj2 (mp_layer_details_record upper_ascii (parcels_layer "VISIBLE")) parcels_raw).
  reflexivity.
Defined.

(** ** The correlation on any layer records *)

Section Robust.

Variable eqf : value -> value -> string -> result bool.
Variable ld : value -> value -> result (list diff_entry).

Hypothesis eqf_dict :
  forall (da db : dict) (k : string),
    eqf (VDict da) (VDict db) k = Ok (same_at k (VDict da) (VDict db)).
Hypothesis ld_ok :
  forall a b, layer_ok a = true -> layer_ok b = true -> exists d, ld a b = Ok d.

Variable B : list value.
Hypothesis B_ok : forallb layer_ok B = true.

(** The after-layers are the given ones, but for what they hold under
    ["diff"]. *)
Definition kept (s : cstate) : Prop := Forall2 same_core B (b_objs s).

Lemma kept_layer (s : cstate) (j : nat) :
  kept s -> j < List.length B ->
  layer_ok (nth j (b_objs s) VNone) = true
  /\ exists nb, name_of (nth j (b_objs s) VNone) = Some nb.
Proof.
  intros K Hj.
  pose proof (forall2_nth same_core B (b_objs s) VNone VNone K j Hj) as Hc.
  assert (HB : layer_ok (nth j B VNone) = true).
  { rewrite forallb_forall in B_ok. apply B_ok, nth_In, Hj. }
  split.
  - rewrite (same_core_layer_ok _ _ Hc). exact HB.
  - destruct (layer_ok_name _ HB) as (d & nb & _ & Hn). exists nb.
    rewrite (same_core_name _ _ Hc). exact Hn.
Qed.

Lemma tests_kept (i j : nat) (a : value) (m : bool) (s : cstate) :
  layer_ok a = true -> j < List.length B -> kept s ->
  exists s' m',
    Correlation.tests_loop ld i a j (Correlation.tests eqf) m s = (s', Ok m')
    /\ kept s'.
Proof.
  intros Ha Hj K.
  destruct (kept_layer s j K Hj) as (Hb & nb & Hnb).
  destruct (layer_ok_name a Ha) as (da & na & _ & Hna).
  pose proof (pair_step eqf ld eqf_dict ld_ok i j a na nb m s Ha Hna Hb Hnb) as H.
  destruct (fires _ _ _ _ _ _).
  - destruct H as (d & stop & m' & ->). eexists. exists m'. split; [reflexivity|].
    unfold kept, fire_state. cbn [b_objs].
    apply (forall2_set_nth same_core B (b_objs s) VNone); [exact K|].
    pose proof (forall2_nth same_core B (b_objs s) VNone VNone K j Hj) as Hc.
    destruct (layer_ok_name _ Hb) as (db & _ & Eb & _). rewrite Eb in *.
    cbn [with_diff]. apply same_core_set_diff. exact Hc.
  - rewrite H. eauto.
Qed.

Lemma a_loop_kept (j : nat) (l : list value) :
  forallb layer_ok l = true -> j < List.length B ->
  forall (i : nat) (m : bool) (s : cstate),
    kept s ->
    exists s' m', Correlation.a_loop eqf ld i l j m s = (s', Ok m') /\ kept s'.
Proof.
  intros Hl Hj. induction l as [|a l IH]; intros i m s K; cbn [Correlation.a_loop].
  - cbv [ret]. eauto.
  - cbn [forallb] in Hl. apply andb_prop in Hl as [Ha Hl]. unfold mbind.
    destruct (tests_kept i j a m s Ha Hj K) as (s1 & m1 & -> & K1).
    exact (IH Hl (S i) m1 s1 K1).
Qed.

Lemma b_body_kept (A : list value) (j : nat) (s : cstate) :
  forallb layer_ok A = true -> j < List.length B -> kept s ->
  exists s', Correlation.b_body eqf ld A j s = (s', Ok tt) /\ kept s'.
Proof.
  intros HA Hj K. unfold Correlation.b_body, mbind.
  destruct (a_loop_kept j A HA Hj 0 false s K) as (s1 & m1 & -> & K1).
  destruct m1; cbn [negb]; [cbv [ret]; eauto|].
  destruct (kept_layer s1 j K1 Hj) as (_ & nb & Hnb).
  cbv [get_b gets lift].
  rewrite (is_resolved_spec _ _ nb Hnb).
  destruct (rmem nb (resolved_b s1)); cbn [negb]; [cbv [ret]; eauto|].
  rewrite (mark_spec _ _ nb Hnb). cbv [modify]. eexists. split; [reflexivity|].
  exact K1.
Qed.

Lemma b_loop_kept (A : list value) :
  forallb layer_ok A = true ->
  forall (js : list nat) (s : cstate),
    (forall j, In j js -> j < List.length B) -> kept s ->
    exists s', Correlation.b_loop eqf ld A js s = (s', Ok tt) /\ kept s'.
Proof.
  intro HA. induction js as [|j js IH]; intros s Hjs K; cbn [Correlation.b_loop].
  - cbv [ret]. eauto.
  - unfold mbind.
    destruct (b_body_kept A j s HA (Hjs j (or_introl eq_refl)) K) as (s1 & -> & K1).
    apply IH; [|exact K1]. intros j' Hj'. apply Hjs. right. exact Hj'.
Qed.

Lemma removed_loop_kept (l : list value) :
  forallb layer_ok l = true ->
  forall s : cstate,
    exists s', Correlation.removed_loop l s = (s', Ok tt) /\ b_objs s' = b_objs s.
Proof.
  induction l as [|a l IH]; intros Hl s; cbn [Correlation.removed_loop].
  - cbv [ret]. eauto.
  - cbn [forallb] in Hl. apply andb_prop in Hl as [Ha Hl].
    destruct (layer_ok_name a Ha) as (da & na & _ & Hna).
    cbv [mbind gets lift]. rewrite (is_resolved_spec _ _ na Hna).
    destruct (rmem na (resolved_a s)); cbn [negb].
    + cbv [ret]. exact (IH Hl s).
    + rewrite (mark_spec _ _ na Hna). cbv [modify ret].
      match goal with
      | |- context [Correlation.removed_loop l ?x] =>
          destruct (IH Hl x) as (s' & -> & E)
      end.
      exists s'. split; [reflexivity | exact E].
Qed.

Lemma correlate_kept (A : list value) :
  forallb layer_ok A = true ->
  snd (Correlation.correlate eqf ld A B) = Ok tt
  /\ kept (fst (Correlation.correlate eqf ld A B)).
Proof.
  intro HA. unfold Correlation.correlate, mbind.
  destruct (b_loop_kept A HA (seq 0 (List.length B)) (init_state B)) as (s1 & -> & K1).
  - intros j Hj. apply in_seq in Hj. lia.
  - unfold kept. cbn [init_state b_objs]. exact (same_core_all B B_ok).
  - destruct (removed_loop_kept A HA s1) as (s2 & -> & E). cbn [fst snd].
    split; [reflexivity|]. unfold kept. rewrite E. exact K1.
Qed.

End Robust.

(** X25.  The loops of [compare_layers] of [mp/_mp.py] run to their end on any
    two pools of layer records (dicts with a string under ["name"], a
    string, number, truth value or [None] under ["id"] if they have one,
    and a list of fields under ["fields"] if they have one), also where
    names or ids repeat.  They write to the after-layers under ["diff"]
    and nowhere else: each after-layer is afterwards a dict that has, under
    every other key, what it had before. *)
Theorem mp_compare_layers_total (a_layers b_layers : list value) :
  forallb layer_ok a_layers = true -> forallb layer_ok b_layers = true ->
  snd (Mp.correlate a_layers b_layers) = Ok tt
  /\ Forall2 (fun b b' =>
                exists db db', b = VDict db /\ b' = VDict db'
                               /\ forall k, k <> "diff" -> assoc k db = assoc k db')
             b_layers (b_objs (fst (Mp.correlate a_layers b_layers))).
Proof.
  intros Ha Hb.
  exact (correlate_kept Mp.eq Mp._layer_diff mp_eq_dict mp_layer_diff_ok
                        b_layers Hb a_layers Ha).
Qed.

Lemma mp_compare_layers_total_witness :
  snd (Mp.correlate [layer_A; layer_A; VDict roads_2020] [VDict roads_2021; layer_A])
  = Ok tt
  /\ Forall2 (fun b b' =>
                exists db db', b = VDict db /\ b' = VDict db'
                               /\ forall k, k <> "diff" -> assoc k db = assoc k db')
             [VDict roads_2021; layer_A]
             (b_objs (fst (Mp.correlate [layer_A; layer_A; VDict roads_2020]
                                        [VDict roads_2021; layer_A]))).
Proof.
  apply (mp_compare_layers_total [layer_A; layer_A; VDict roads_2020]
                                 [VDict roads_2021; layer_A]); reflexivity.
Defined.
